(** * TRAC-Scraping: the collation engine of [collate.py]

    A shallow embedding of the table/row model, the axis menus, the
    checkpointed traversal and the pandas normalisation of
    [src/collate.py], with the properties of its specification and
    further properties of the code.

    Conventions.
    - A Python [str] is a [string]; its characters are the code points
      0..255 (Rocq's 8-bit [ascii]).  String comparison is by code
      point, as in Python.
    - A Python exception is a constructor of [exn]; code that can raise
      returns a [result].
    - The browser is a [World]: what the page shows, the row that is
      selected in each table, the outcomes the next clicks and the next
      table reads will have (fresh or stale), the clicks issued so far,
      and the files written so far.
    - Dump files are opened in the working directory, on a POSIX file
      system; see [Py.open_w] for the names that cannot be opened.
    - The cells of a frame are the exact whole numbers; see the note on
      data frames for what that covers of pandas.
    - Progress bars, printing, the final sleep and the output-file
      checks of [__init__] have no part in the properties and are left
      out; [shorten], which makes the labels of the progress bars, is
      modelled on its own. *)

From Stdlib Require Import ZArith Ascii.
From stdpp Require Import base decidable option list strings sorting gmap.

Local Open Scope Z_scope.

(** ** Exceptions and results *)

Inductive exn : Type :=
  | ValueError
  | TypeError
  | IndexError
  | KeyError
  | UnboundLocalError
  | FileNotFoundError
  | OSError
  | TimeoutException
  | StaleElementReferenceException
  | DatasetException (dump_file : string)
                     (current_t1_row : nat) (current_t2_row : option nat).

Inductive result (A : Type) : Type :=
  | Ok (a : A)
  | Raise (e : exn).
Arguments Ok {A} a.
Arguments Raise {A} e.

#[global] Instance result_ret : MRet result := fun A a => Ok a.
#[global] Instance result_bind : MBind result := fun A B k r =>
  match r with
  | Ok a => k a
  | Raise e => Raise e
  end.

(** A list comprehension whose body can raise: the elements are built
    left to right and the first exception ends the comprehension. *)
Fixpoint comprehension {A B} (f : A -> result B) (l : list A) : result (list B) :=
  match l with
  | [] => Ok []
  | x :: l' =>
      y ← f x;
      ys ← comprehension f l';
      Ok (y :: ys)
  end.

(** ** Python built-ins on strings and lists *)

Module Py.

(** [pat in s] *)
Fixpoint contains (pat s : string) : bool :=
  String.prefix pat s
  || match s with
     | EmptyString => false
     | String _ s' => contains pat s'
     end.

(** [c in s] for one character. *)
Fixpoint has_char (c : ascii) (s : string) : bool :=
  match s with
  | EmptyString => false
  | String d s' => Ascii.eqb d c || has_char c s'
  end.

(** [s.split(sep)] for a one-character separator. *)
Fixpoint split (sep : ascii) (s : string) : list string :=
  match s with
  | EmptyString => [EmptyString]
  | String c s' =>
      if Ascii.eqb c sep then EmptyString :: split sep s'
      else match split sep s' with
           | [] => [String c EmptyString]
           | w :: ws => String c w :: ws
           end
  end.

(** The cut of [s.rsplit(sep, 1)]: the text before and after the last
    occurrence of [sep], when there is one. *)
Fixpoint rcut (sep : ascii) (s : string) : option (string * string) :=
  match s with
  | EmptyString => None
  | String c s' =>
      match rcut sep s' with
      | Some (a, b) => Some (String c a, b)
      | None => if Ascii.eqb c sep then Some (EmptyString, s') else None
      end
  end.

(** [s.rsplit(sep, 1)] *)
Definition rsplit1 (sep : ascii) (s : string) : list string :=
  match rcut sep s with
  | Some (a, b) => [a; b]
  | None => [s]
  end.

(** [s.replace(c, '')] for a one-character [c]. *)
Fixpoint remove (c : ascii) (s : string) : string :=
  match s with
  | EmptyString => EmptyString
  | String d s' =>
      if Ascii.eqb d c then remove c s' else String d (remove c s')
  end.

(** The characters [int()] skips around a numeral, among the code
    points below 256: tab to carriage return, the space, and the two
    Unicode spaces U+0085 and U+00A0, which [int()] turns into spaces
    first.  The separators U+001C to U+001F are not among them. *)
Definition isspace (c : ascii) : bool :=
  let n := N_of_ascii c in
  ((9 <=? n) && (n <=? 13) || (n =? 32) || (n =? 133) || (n =? 160))%N.

Fixpoint lstrip (s : string) : string :=
  match s with
  | EmptyString => EmptyString
  | String c s' => if isspace c then lstrip s' else s
  end.

Definition strip (s : string) : string :=
  String.rev (lstrip (String.rev (lstrip s))).

Definition digit (c : ascii) : option Z :=
  let n := N_of_ascii c in
  if ((48 <=? n) && (n <=? 57))%N then Some (Z.of_N n - 48) else None.

(** Decimal digits, where single underscores may separate two digits;
    [after_digit] says that the previous character was a digit. *)
Fixpoint digits (acc : Z) (after_digit : bool) (s : string) : option Z :=
  match s with
  | EmptyString => if after_digit then Some acc else None
  | String c s' =>
      match digit c with
      | Some d => digits (10 * acc + d) true s'
      | None =>
          if Ascii.eqb c "_" && after_digit then digits acc false s'
          else None
      end
  end.

(** The number of decimal digits in [s]. *)
Fixpoint digit_count (s : string) : nat :=
  match s with
  | EmptyString => 0%nat
  | String c s' =>
      match digit c with
      | Some _ => S (digit_count s')
      | None => digit_count s'
      end
  end.

(** [sys.get_int_max_str_digits()], as the interpreter starts with. *)
Definition int_max_str_digits : nat := 4300.

(** [int(s)] in base 10; [None] stands for [ValueError], which a numeral
    of more than [int_max_str_digits] digits raises as well. *)
Definition int (s : string) : option Z :=
  let numeral (r : string) :=
    if bool_decide (digit_count r <= int_max_str_digits)%nat
    then digits 0 false r else None in
  match strip s with
  | String "-" r => Z.opp <$> numeral r
  | String "+" r => numeral r
  | r => numeral r
  end.

(** [l[n:]], where a negative [n] counts from the end. *)
Definition slice_from {A} (n : Z) (l : list A) : list A :=
  if 0 <=? n then drop (Z.to_nat n) l
  else drop (length l - Z.to_nat (- n)) l.

(** [enumerate(l)] *)
Fixpoint enumerate_from {A} (k : nat) (l : list A) : list (nat * A) :=
  match l with
  | [] => []
  | x :: l' => (k, x) :: enumerate_from (S k) l'
  end.
Definition enumerate {A} (l : list A) : list (nat * A) := enumerate_from 0 l.

(** [i in l] for a list of indices. *)
Definition mem (i : nat) (l : list nat) : bool := bool_decide (i ∈ l).

(** [zip], which stops at the shorter list. *)
Definition zip {A B} (l : list A) (k : list B) : list (A * B) :=
  base.zip l k.

(** The first [n] characters of [s]. *)
Fixpoint str_take (n : nat) (s : string) : string :=
  match n, s with
  | S n', String c s' => String c (str_take n' s')
  | _, _ => EmptyString
  end.

(** [s[:n]], where a negative [n] counts from the end. *)
Definition slice_to (n : Z) (s : string) : string :=
  if 0 <=? n then str_take (Z.to_nat n) s
  else str_take (String.length s - Z.to_nat (- n)) s.

(** [s * n]: [n] copies of [s], none when [n] is not positive. *)
Definition str_mul (s : string) (n : Z) : string :=
  Nat.iter (Z.to_nat n) (String.app s) EmptyString.

(** [len(s.encode('utf-8'))]: a code point from 128 on takes two bytes. *)
Fixpoint utf8_length (s : string) : nat :=
  match s with
  | EmptyString => 0%nat
  | String c s' =>
      ((if (N_of_ascii c <? 128)%N then 1 else 2) + utf8_length s')%nat
  end.

(** [open(name, 'w')] for a file of the working directory, on a POSIX
    file system and in a directory that has no subdirectory: a NUL in
    the name is refused, a "/" makes the name a path through a directory
    that does not exist, and a name of more than 255 bytes is too long.
    Any other name is created or truncated. *)
Definition open_w (name : string) : option exn :=
  if has_char "000" name then Some ValueError
  else if has_char "/" name then Some FileNotFoundError
  else if bool_decide (255 < utf8_length name)%nat then Some OSError
  else None.

End Py.

(** ** Rows and tables *)

Inductive table_type := object | link.

(** A handle on a DOM element. *)
Definition Elem := nat.

Record Row := mkRow {
  row_table_type : table_type;
  row_web_element : Elem;
  row_name : string;
  row_value : Z
}.

(** What the page shows of one table: the row-level elements the
    table's locator finds, and the rendered text of the table. *)
Record TableDom := mkTableDom {
  dom_rows : list Elem;
  dom_text : string
}.

(** ** Dictionaries

    A Python [dict] keeps its keys in insertion order; [d[k] = v]
    replaces the value of a key in place and appends a new key. *)

Definition Dict (V : Type) : Type := list (string * V).

Fixpoint dict_get {V} (k : string) (d : Dict V) : option V :=
  match d with
  | [] => None
  | (k', v) :: d' => if decide (k = k') then Some v else dict_get k d'
  end.

Fixpoint dict_set {V} (k : string) (v : V) (d : Dict V) : Dict V :=
  match d with
  | [] => [(k, v)]
  | (k', v') :: d' =>
      if decide (k = k') then (k, v) :: d' else (k', v') :: dict_set k v d'
  end.

Definition dict_keys {V} (d : Dict V) : list string := fst <$> d.

(** [{r.name: r.value for r in rows}] *)
Definition dict_of_rows (rows : list Row) : Dict Z :=
  foldl (fun d r => dict_set (row_name r) (row_value r) d) [] rows.

(** The dataset under construction: T1 name, T2 name, T3 name, value. *)
Definition Data : Type := Dict (Dict (Dict Z)).

(** [data[k1][k2] = v]; [data[k1]] raises [KeyError] when [k1] is absent. *)
Definition data_set2 (k1 k2 : string) (v : Dict Z) (data : Data) : result Data :=
  match dict_get k1 data with
  | Some inner => Ok (dict_set k1 (dict_set k2 v inner) data)
  | None => Raise KeyError
  end.

(** ** The page and the browser *)

(** Whether the handle a click goes through is still fresh. *)
Inductive click_outcome := Fresh | Stale.

Inductive event :=
  | ClickMenu (axis_index : nat)
  | ClickOption (axis_index : nat) (name : string)
  | ClickRow (table : nat) (e : Elem).

(** The page once its axes are chosen: the option texts of its axis
    menus and its tables.  Row elements are numbered within their
    table; tables 2 and 3 depend on the rows selected to their left.
    [site_anchor index e] says whether row element [e] of table [index]
    contains the anchor the link variant clicks.  [site_tables] is the
    number of table elements the locator of the tables finds; the
    TRAC pages show three. *)
Record Site := mkSite {
  site_menus : list (list string);
  site_table1 : TableDom;
  site_table2 : option Elem -> TableDom;
  site_table3 : option Elem -> option Elem -> TableDom;
  site_anchor : nat -> Elem -> bool;
  site_tables : nat
}.

(** [outcomes] schedules the row clicks to come: the first one is used
    by the next [Row.click].  [clicks] lists the click calls issued so
    far, oldest first.  [removable] says whether [os.remove] succeeds.
    [read_outcomes] schedules the table reads to come in the same way:
    the handle on a table can go stale between the moment the table is
    located and the moment its rows and its text are read. *)
Record World := mkWorld {
  site : Site;
  sel1 : option Elem;
  sel2 : option Elem;
  outcomes : list click_outcome;
  clicks : list event;
  files : gmap string Data;
  removable : bool;
  read_outcomes : list click_outcome
}.

Definition table_dom (w : World) (index : nat) : TableDom :=
  match index with
  | O => site_table1 (site w)
  | S O => site_table2 (site w) (sel1 w)
  | _ => site_table3 (site w) (sel1 w) (sel2 w)
  end.

(** Computations on the browser that can raise. *)
Definition M (A : Type) : Type := World -> result A * World.

#[global] Instance M_ret : MRet M := fun A a w => (Ok a, w).
#[global] Instance M_bind : MBind M := fun A B k m w =>
  match m w with
  | (Ok a, w') => k a w'
  | (Raise e, w') => (Raise e, w')
  end.

Definition raise {A} (e : exn) : M A := fun w => (Raise e, w).
Definition lift {A} (r : result A) : M A := fun w => (r, w).
Definition get_world : M World := fun w => (Ok w, w).

(** The world after the click calls [evs] were issued. *)
Definition add_clicks (evs : list event) (w : World) : World :=
  mkWorld (site w) (sel1 w) (sel2 w) (outcomes w)
          (clicks w ++ evs) (files w) (removable w) (read_outcomes w).

Definition log (ev : event) : M unit := fun w => (Ok tt, add_clicks [ev] w).

(** [try: m  except StaleElementReferenceException: handler] *)
Definition try_except_stale {A} (m handler : M A) : M A := fun w =>
  match m w with
  | (Raise StaleElementReferenceException, w') => handler w'
  | other => other
  end.

(** The next click outcome; clicks beyond the schedule are fresh. *)
Definition next_outcome : M click_outcome := fun w =>
  match outcomes w with
  | [] => (Ok Fresh, w)
  | o :: os =>
      (Ok o, mkWorld (site w) (sel1 w) (sel2 w) os
                     (clicks w) (files w) (removable w) (read_outcomes w))
  end.

(** The outcome of the next table read; reads beyond the schedule are
    fresh. *)
Definition next_read : M click_outcome := fun w =>
  match read_outcomes w with
  | [] => (Ok Fresh, w)
  | o :: os =>
      (Ok o, mkWorld (site w) (sel1 w) (sel2 w) (outcomes w)
                     (clicks w) (files w) (removable w) os)
  end.

(** The world after a table read that got as far as the read. *)
Definition after_read (w : World) : World := (next_read w).2.

(** The page reacts to a click on a row of table [index]. *)
Definition select (index : nat) (e : Elem) : M unit := fun w =>
  (Ok tt,
   match index with
   | O => mkWorld (site w) (Some e) None (outcomes w)
                  (clicks w) (files w) (removable w) (read_outcomes w)
   | S O => mkWorld (site w) (sel1 w) (Some e) (outcomes w)
                    (clicks w) (files w) (removable w) (read_outcomes w)
   | _ => w
   end).

(** [with open(name, 'w') as f: json.dump(data, f)]: a name that
    cannot be opened leaves the files as they were. *)
Definition json_dump (name : string) (data : Data) : M unit := fun w =>
  match Py.open_w name with
  | Some e => (Raise e, w)
  | None =>
      (Ok tt, mkWorld (site w) (sel1 w) (sel2 w) (outcomes w)
                      (clicks w) (<[name := data]> (files w)) (removable w)
                      (read_outcomes w))
  end.

(** [json.load(open(name, 'r'))] *)
Definition json_load (name : string) : M Data := fun w =>
  match files w !! name with
  | Some data => (Ok data, w)
  | None => (Raise FileNotFoundError, w)
  end.

(** [os.remove(name)] inside [try ... except OSError]: a refused
    removal is only reported. *)
Definition os_remove (name : string) : M unit := fun w =>
  (Ok tt,
   if removable w
   then mkWorld (site w) (sel1 w) (sel2 w) (outcomes w)
                (clicks w) (delete name (files w)) (removable w)
                (read_outcomes w)
   else w).

Module Row.

(** [Row.__init__]: [name, value = text.rsplit(' ', 1)] needs exactly
    two parts, and [int] needs a numeral. *)
Definition init (web_element : Elem) (text : string) (tt : table_type)
  : result Row :=
  match Py.rsplit1 " " text with
  | [name; value] =>
      match Py.int (Py.remove "," value) with
      | Some v => Ok (mkRow tt web_element name v)
      | None => Raise ValueError
      end
  | _ => Raise ValueError
  end.

(** [Row.click] for a row of table [index]: the object variant clicks
    the row element; the link variant first waits for the anchor
    inside it. *)
Definition click (index : nat) (r : Row) : M unit :=
  w ← get_world;
  match row_table_type r with
  | object =>
      _ ← log (ClickRow index (row_web_element r));
      o ← next_outcome;
      match o with
      | Fresh => select index (row_web_element r)
      | Stale => raise StaleElementReferenceException
      end
  | link =>
      o ← next_outcome;
      match o with
      | Stale => raise StaleElementReferenceException
      | Fresh =>
          if site_anchor (site w) index (row_web_element r) then
            _ ← log (ClickRow index (row_web_element r));
            select index (row_web_element r)
          else raise TimeoutException
      end
  end.

End Row.

(** A table knows its variant and its position on the page.  Its row
    cache is never read without being recalculated, and its element is
    located again before every read: both are left out. *)
Record Table := mkTable {
  tab_table_type : table_type;
  tab_index : nat
}.

Module Table.

(** [is_meaningful], local to [calculate_rows] in the source. *)
Definition is_meaningful (text : string) : bool :=
  negb (String.eqb text "")
  && negb (Py.contains "All" text)
  && negb (Py.contains "Total" text).

Definition text_indices_to_skip (text_rows : list string) : list nat :=
  fst <$> List.filter (fun p => negb (is_meaningful (snd p)))
                      (Py.enumerate text_rows).

Definition keep_text_rows (text_rows : list string) : list string :=
  let skip := text_indices_to_skip text_rows in
  snd <$> List.filter (fun p => negb (Py.mem (fst p) skip))
                      (Py.enumerate text_rows).

(** [WebDriverWait(...).until(presence_of_all_elements_located(...))]:
    the elements found, or a timeout when there is none. *)
Definition wait_all (found : list Elem) : result (list Elem) :=
  match found with
  | [] => Raise TimeoutException
  | _ => Ok found
  end.

(** [Table.calculate_rows], given the table as the page shows it. *)
Definition calculate_rows (tt : table_type) (dom : TableDom)
  : result (list Row) :=
  row_elements ← wait_all (dom_rows dom);
  let text_rows := keep_text_rows (Py.split "010" (dom_text dom)) in
  let n_elements_to_skip :=
    Z.of_nat (length row_elements) - Z.of_nat (length text_rows) in
  let row_elements := Py.slice_from n_elements_to_skip row_elements in
  comprehension (fun et => Row.init (fst et) (snd et) tt)
                (Py.zip row_elements text_rows).

(** The wait of [Table.calculate_web_elements]: the table elements of
    the page, in page order, or a timeout when the page shows none. *)
Definition locate_tables : M (list Elem) :=
  w ← get_world;
  lift (wait_all (seq 0 (site_tables (site w)))).

(** [Table.calculate_web_elements]: the class name of the tables is
    assigned for the object and link variants only. *)
Definition calculate_web_elements (webpage_type : string) : M (list Elem) :=
  if Py.contains "object" webpage_type || Py.contains "link" webpage_type
  then locate_tables
  else raise UnboundLocalError.

(** [Table.rows(recalculate=True, driver, webpage_type)], which is
    [calculate_rows(refresh_table=True, ...)]: the tables are located
    again, the one at the table's position is taken, and its rows are
    read as the page shows them now, unless the handle has gone stale by
    then.  The engine passes its own webpage type, of which the table's
    variant was made, so the class name of the tables is assigned. *)
Definition rows (t : Table) : M (list Row) :=
  table_elements ← locate_tables;
  match table_elements !! tab_index t with
  | None => raise IndexError
  | Some _ =>
      o ← next_read;
      match o with
      | Stale => raise StaleElementReferenceException
      | Fresh =>
          w ← get_world;
          lift (calculate_rows (tab_table_type t) (table_dom w (tab_index t)))
      end
  end.

(** [Table.calculate_all]: one table per table element found. *)
Definition calculate_all (webpage_type : string) : M (list Table) :=
  table_elements ← calculate_web_elements webpage_type;
  let table_type :=
    if Py.contains "object" webpage_type then object else link in
  mret ((fun ie : nat * Elem => mkTable table_type (fst ie))
          <$> Py.enumerate table_elements).

End Table.

(** A [for] loop over a list whose body can raise. *)
Fixpoint for_each {A B} (f : A -> M B) (l : list A) : M (list B) :=
  match l with
  | [] => mret []
  | x :: l' =>
      y ← f x;
      ys ← for_each f l';
      mret (y :: ys)
  end.

(** ** Axis menus *)

Record MenuOption := mkOption {
  opt_axis : nat;
  opt_name : string
}.

Record AxisMenu := mkAxisMenu {
  menu_webpage_type : string;
  menu_axis_index : nat;
  menu_options : list MenuOption
}.

Module AxisMenu.

(** [AxisMenu.click] and [Option.click]. *)
Definition click (m : AxisMenu) : M unit :=
  log (ClickMenu (menu_axis_index m)).

Definition option_click (o : MenuOption) : M unit :=
  log (ClickOption (opt_axis o) (opt_name o)).

(** The option elements the wait finds for the menu, or a timeout. *)
Definition wait_options (m : AxisMenu) : M (list MenuOption) :=
  w ← get_world;
  match site_menus (site w) !! menu_axis_index m with
  | Some (n :: ns) => mret (mkOption (menu_axis_index m) <$> (n :: ns))
  | _ => raise TimeoutException
  end.

(** [AxisMenu.calculate_options]: the object variant has to click the
    menu open before its listbox exists. *)
Definition calculate_options (m : AxisMenu) : M AxisMenu :=
  if Py.contains "object" (menu_webpage_type m) then
    _ ← click m;
    os ← wait_options m;
    mret (mkAxisMenu (menu_webpage_type m) (menu_axis_index m) os)
  else if Py.contains "link" (menu_webpage_type m) then
    os ← wait_options m;
    mret (mkAxisMenu (menu_webpage_type m) (menu_axis_index m) os)
  else raise UnboundLocalError.

(** [AxisMenu.__init__] *)
Definition init (webpage_type : string) (axis_index : nat) : M AxisMenu :=
  w ← get_world;
  if Py.contains "object" webpage_type || Py.contains "link" webpage_type then
    match site_menus (site w) with
    | [] => raise TimeoutException
    | menus =>
        match menus !! axis_index with
        | Some _ => calculate_options (mkAxisMenu webpage_type axis_index [])
        | None => raise IndexError
        end
    end
  else raise UnboundLocalError.

(** [AxisMenu.option_names] *)
Definition option_names (m : AxisMenu) : list string :=
  opt_name <$> menu_options m.

(** [AxisMenu.set_to] *)
Definition set_to (m : AxisMenu) (axis_name : string) : M AxisMenu :=
  m ← (if Py.contains "object" (menu_webpage_type m) then calculate_options m
       else if Py.contains "link" (menu_webpage_type m) then
         _ ← click m; mret m
       else mret m);
  match List.filter (fun o => bool_decide (opt_name o = axis_name))
                    (menu_options m) with
  | [] => raise IndexError
  | o :: _ => _ ← option_click o; mret m
  end.

(** [AxisMenu.calculate_all] *)
Definition calculate_all (webpage_type : string) : M (list AxisMenu) :=
  if bool_decide (webpage_type = "object-whole") then
    for_each (init webpage_type) [0; 1; 2]%nat
  else if bool_decide (webpage_type = "link-whole") then
    for_each (init webpage_type) [0; 1; 2]%nat
  else raise UnboundLocalError.

End AxisMenu.

(** ** Data frames

    A frame has a two-level row index, named levels, columns, and one
    cell per row and column; [None] is NaN.  Cell values are whole
    numbers (counts of people).  pandas holds a column in 64-bit
    integers or, once the column has a NaN, in 64-bit floats, which are
    exact for whole numbers up to 2^53 in magnitude.  The cells here are
    the exact numbers: what is proved of the value of a cell is proved
    of the frame of pandas for counts within that range.  The labels,
    the columns, their order, and which cells are NaN or 0 do not depend
    on the range. *)

Definition label : Type := string * string.

Abbreviation cells := (list (option Z)).
Abbreviation frame_row := (label * list (option Z))%type.

Record DataFrame := mkDF {
  df_names : list (option string);
  df_columns : list string;
  df_rows : list frame_row
}.

Definition df_index (df : DataFrame) : list label := fst <$> df_rows df.

(** The lexicographic order of [sort_index] and of tuple comparison. *)
Definition label_le (x y : label) : Prop :=
  String.le (fst x) (fst y) /\ (fst x = fst y -> String.le (snd x) (snd y)).

#[global] Instance label_le_dec : RelDecision label_le.
Proof. intros x y. unfold label_le. apply _. Defined.

Definition row_le (x y : frame_row) : Prop :=
  label_le (fst x) (fst y).

#[global] Instance row_le_dec : RelDecision row_le.
Proof. intros x y. unfold row_le. apply _. Defined.

Module Pd.

(** Distinct values in order of first appearance ([Index.unique]). *)
Fixpoint unique (l : list string) : list string :=
  match l with
  | [] => []
  | x :: l' => x :: List.filter (fun y => negb (bool_decide (y = x))) (unique l')
  end.

(** The columns of [pd.concat] over the frames [pd.DataFrame(v).T]:
    every T3 name, in order of first appearance. *)
Definition concat_columns (data : Data) : list string :=
  unique (v ← data.*2; t3 ← v.*2; dict_keys t3).

(** One row per T1 name and T2 name under it. *)
Definition concat_rows (cols : list string) (data : Data)
  : list frame_row :=
  kv ← data;
  kt ← snd kv;
  [((fst kv, fst kt), (fun c => dict_get c (snd kt)) <$> cols)].

(** [pd.concat({k: pd.DataFrame(v).T for k, v in data.items()}, axis=0)],
    which refuses an empty dictionary. *)
Definition concat (data : Data) : result DataFrame :=
  match data with
  | [] => Raise ValueError
  | _ =>
      let cols := concat_columns data in
      Ok (mkDF [None; None] cols (concat_rows cols data))
  end.

(** [df.index.unique(level)] *)
Definition index_unique (level : nat) (df : DataFrame) : list string :=
  unique ((match level with O => fst | _ => snd end) <$> df_index df).

(** [pd.MultiIndex.from_product([l1, l2])] *)
Definition from_product (l1 l2 : list string) : list label :=
  a ← l1; b ← l2; [(a, b)].

Fixpoint lookup_row {V} (l : label) (rows : list (label * V)) : option V :=
  match rows with
  | [] => None
  | (l', v) :: rows' => if decide (l = l') then Some v else lookup_row l rows'
  end.

(** [df.reindex(new_index, axis='index')]: a label the frame has
    keeps its row; any other label gets a row of NaN. *)
Definition reindex_index (new_index : list label) (df : DataFrame) : DataFrame :=
  mkDF [None; None] (df_columns df)
    ((fun l => (l, default (replicate (length (df_columns df)) None)
                        (lookup_row l (df_rows df)))) <$> new_index).

(** [df.fillna(value)] *)
Definition fillna (value : Z) (df : DataFrame) : DataFrame :=
  mkDF (df_names df) (df_columns df)
    ((fun r : frame_row => (fst r, (fun c => Some (default value c)) <$> snd r))
       <$> df_rows df).

(** [df.sort_index()] *)
Definition sort_index (df : DataFrame) : DataFrame :=
  mkDF (df_names df) (df_columns df) (merge_sort row_le (df_rows df)).

(** [df.sum(axis=1)]: the sum of each row, NaN skipped. *)
Definition row_sum (cs : cells) : Z :=
  foldr (fun c acc => default 0 c + acc) 0 cs.

Fixpoint index_of (c : string) (cols : list string) : option nat :=
  match cols with
  | [] => None
  | c' :: cols' => if decide (c = c') then Some 0%nat else S <$> index_of c cols'
  end.

(** [df[col] = values]: replaces the column in place when the frame
    has it, appends it otherwise. *)
Definition set_column (col : string) (values : cells) (df : DataFrame)
  : DataFrame :=
  match index_of col (df_columns df) with
  | Some i =>
      mkDF (df_names df) (df_columns df)
        (zip_with (fun (r : frame_row) v => (fst r, <[i := v]> (snd r)))
                  (df_rows df) values)
  | None =>
      mkDF (df_names df) (df_columns df ++ [col])
        (zip_with (fun (r : frame_row) v => (fst r, snd r ++ [v]))
                  (df_rows df) values)
  end.

(** [df['Total'] = df.sum(axis=1)] *)
Definition add_total (df : DataFrame) : DataFrame :=
  set_column "Total"
    ((fun r : frame_row => Some (row_sum (snd r))) <$> df_rows df) df.

(** [df[col] = df[col].astype('int64')] on the float columns: a NaN
    cannot be cast. *)
Definition astype_int64 (df : DataFrame) : result DataFrame :=
  if forallb (fun r : frame_row =>
                forallb (fun c => bool_decide (c <> None)) (snd r))
             (df_rows df)
  then Ok df else Raise ValueError.

(** [df.index.rename(name=a, level=i, inplace=True)] *)
Definition rename_level (a : string) (i : nat) (df : DataFrame) : result DataFrame :=
  if bool_decide (i < length (df_names df))%nat
  then Ok (mkDF (<[i := Some a]> (df_names df)) (df_columns df) (df_rows df))
  else Raise IndexError.

(** The cell of a row and a column, if the frame has both and the
    cell is a number. *)
Definition cell (df : DataFrame) (l : label) (c : string) : option Z :=
  r ← lookup_row l (df_rows df);
  i ← index_of c (df_columns df);
  mjoin (r !! i).

End Pd.

(** The built-in [sorted(l, **kwargs)] on strings: it passes its keyword
    arguments to [list.sort], which knows only [key] and [reverse]. *)
Definition py_sorted (kwargs : list string) (l : list string) : result (list string) :=
  if forallb (fun k => bool_decide (k ∈ ["key"; "reverse"])) kwargs
  then Ok (merge_sort String.le l)
  else Raise TypeError.

(** ** The collation engine *)

Definition WEBPAGE_TYPES : Dict string :=
  [ ("https://trac.syr.edu/phptools/immigration/ntanew/", "object-whole");
    ("https://trac.syr.edu/phptools/immigration/closure/", "object-whole");
    ("https://trac.syr.edu/phptools/immigration/asyfile/", "object-whole");
    ("https://trac.syr.edu/phptools/immigration/asylum/", "object-whole");
    ("https://trac.syr.edu/phptools/immigration/mpp4/", "link-whole");
    ("https://trac.syr.edu/phptools/immigration/juvenile/", "link-whole");
    ("https://trac.syr.edu/phptools/immigration/mwc/", "link-whole");
    ("https://trac.syr.edu/phptools/immigration/cbparrest/", "link-whole");
    ("https://trac.syr.edu/phptools/immigration/cbpinadmiss/", "link-whole");
    ("https://trac.syr.edu/phptools/immigration/arrest/", "link-whole");
    ("https://trac.syr.edu/phptools/immigration/detainhistory/", "link-whole");
    ("https://trac.syr.edu/phptools/immigration/remove/", "link-whole");
    ("https://trac.syr.edu/phptools/immigration/removehistory/", "link-whole");
    ("https://trac.syr.edu/phptools/immigration/secure/", "link-whole");
    ("https://trac.syr.edu/phptools/immigration/backlog/", "object-broken");
    ("https://trac.syr.edu/phptools/immigration/addressrep/", "map-table");
    ("https://trac.syr.edu/immigration/reports/judgereports/", "table-only-1");
    ("https://trac.syr.edu/phptools/immigration/asylumbl/", "object-broken");
    ("https://trac.syr.edu/phptools/immigration/bond/", "table-tab");
    ("https://trac.syr.edu/phptools/immigration/detention/", "link-broken");
    ("https://trac.syr.edu/immigration/detentionstats/facilities.html", "table-only-2");
    ("https://trac.syr.edu/immigration/detentionstats/atd_pop_table.html", "table-only-2") ].

Definition FULLY_SUPPORTED_TYPES : list string := ["object-whole"; "link-whole"].
Definition PARTIALLY_SUPPORTED_TYPES : list string := ["object-broken"; "link-broken"].

(** What a failed attempt hands to the next one. *)
Record Checkpoint := mkCheckpoint {
  ck_dump_file : option string;
  ck_current_t1_row : option nat;
  ck_current_t2_row : option nat
}.

Module CollationEngine.

(** The URL check of [__init__]; [WEBPAGE_TYPES[url]] raises
    [KeyError] for a URL the table does not list. *)
Definition webpage_type_of (url : string) : result string :=
  match dict_get url WEBPAGE_TYPES with
  | None => Raise KeyError
  | Some t =>
      if bool_decide (t ∈ FULLY_SUPPORTED_TYPES) then Ok t
      else if bool_decide (t ∈ PARTIALLY_SUPPORTED_TYPES) then Ok t
      else Raise ValueError
  end.

(** The check of the axis names: every menu, every axis. *)
Definition check_axes (menus : list AxisMenu) (axes : list string) : result unit :=
  _ ← comprehension (fun m =>
         comprehension (fun a =>
           if bool_decide (a ∈ AxisMenu.option_names m)
           then Ok tt else Raise ValueError) axes) menus;
  Ok tt.

(** [for i, a in enumerate(self.axes): self.menus[i].set_to(a)] *)
Definition set_axes (menus : list AxisMenu) (axes : list string) : M unit :=
  _ ← for_each (fun ia : nat * string =>
         match menus !! fst ia with
         | Some m => AxisMenu.set_to m (snd ia)
         | None => raise IndexError
         end) (Py.enumerate axes);
  mret tt.

Definition dump_name_t1 (t1 : string) : string :=
  "data-up-to_T1-" +:+ t1 +:+ ".json".
Definition dump_name_t2 (t1 t2 : string) : string :=
  "data-up-to_T1-" +:+ t1 +:+ "_T2-" +:+ t2 +:+ ".json".

Definition table (tables : list Table) (k : nat) : M Table :=
  match tables !! k with
  | Some t => mret t
  | None => raise IndexError
  end.

(** The inner loop of [create_dataset], over the table-2 rows of the
    table-1 row number [i]. *)
Fixpoint t2_loop (tables : list Table) (t1_name : string) (i : nat)
    (t2_rows : list (nat * Row)) (data : Data) : M Data :=
  match t2_rows with
  | [] => mret data
  | (j, t2_row) :: rest =>
      _ ← try_except_stale (Row.click 1 t2_row)
            (let dump_file := dump_name_t2 t1_name (row_name t2_row) in
             _ ← json_dump dump_file data;
             raise (DatasetException dump_file i (Some j)));
      t3 ← table tables 2;
      t3_rows ← Table.rows t3;
      data ← lift (data_set2 t1_name (row_name t2_row) (dict_of_rows t3_rows) data);
      t2_loop tables t1_name i rest data
  end.

(** The outer loop of [create_dataset]; [current_t2_row] is the
    parameter of the call, read again for every table-1 row. *)
Fixpoint t1_loop (tables : list Table) (current_t2_row : option nat)
    (t1_rows : list (nat * Row)) (data : Data) : M Data :=
  match t1_rows with
  | [] => mret data
  | (i, t1_row) :: rest =>
      let data :=
        if bool_decide (row_name t1_row ∈ dict_keys data) then data
        else dict_set (row_name t1_row) [] data in
      _ ← try_except_stale (Row.click 0 t1_row)
            (let dump_file := dump_name_t1 (row_name t1_row) in
             _ ← json_dump dump_file data;
             raise (DatasetException dump_file i None));
      t2 ← table tables 1;
      t2_rows ← Table.rows t2;
      let t2_rows :=
        match current_t2_row with
        | Some j => drop j t2_rows
        | None => t2_rows
        end in
      data ← t2_loop tables (row_name t1_row) i (Py.enumerate t2_rows) data;
      t1_loop tables current_t2_row rest data
  end.

(** [create_dataset]; on success it stores [self.data] and [self.df]. *)
Definition create_dataset (tables : list Table) (ck : Checkpoint)
  : M (Data * DataFrame) :=
  data ← match ck_dump_file ck with
         | Some f => data ← json_load f; _ ← os_remove f; mret data
         | None => mret []
         end;
  t1 ← table tables 0;
  t1_rows ← Table.rows t1;
  let t1_rows :=
    match ck_current_t1_row ck with
    | Some i => drop i t1_rows
    | None => t1_rows
    end in
  data ← t1_loop tables (ck_current_t2_row ck) (Py.enumerate t1_rows) data;
  df ← lift (Pd.concat data);
  mret (data, df).

(** The retry loop of [__init__]: [while True: try ... except
    DatasetException ... else: break].  [fuel] bounds the number of
    attempts; [None] means that the bound was reached. *)
Fixpoint dataset_loop (fuel : nat) (tables : list Table) (ck : Checkpoint)
    (w : World) : option (result (Data * DataFrame) * World) :=
  match fuel with
  | O => None
  | S fuel' =>
      match create_dataset tables ck w with
      | (Raise (DatasetException dump_file i j), w') =>
          dataset_loop fuel' tables (mkCheckpoint (Some dump_file) (Some i) j) w'
      | other => Some other
      end
  end.

(** [__init__] up to the selection of the axes: menus, tables, the
    check of the axis names, then one [set_to] per axis. *)
Definition select_axes (webpage_type : string) (axes : list string)
  : M (list Table) :=
  menus ← AxisMenu.calculate_all webpage_type;
  tables ← Table.calculate_all webpage_type;
  _ ← lift (check_axes menus axes);
  _ ← set_axes menus axes;
  mret tables.

Section clean_dataset.

(** [df.reindex(labels)] with no axis conforms the row index to
    [labels].  What pandas makes of column names offered as labels
    of a two-level row index is left open: it is a parameter. *)
Variable reindex_labels : list string -> DataFrame -> DataFrame.

(** Lines 472 to 481: cross product, zero fill, row sort. *)
Definition clean_rows (df : DataFrame) : DataFrame :=
  let unique_index1 := Pd.index_unique 0 df in
  let unique_index2 := Pd.index_unique 1 df in
  let new_index := Pd.from_product unique_index1 unique_index2 in
  let df := Pd.reindex_index new_index df in
  let df := Pd.fillna 0 df in
  Pd.sort_index df.

(** [for i, a in enumerate(self.axes): self.df.index.rename(...)],
    in place: the levels renamed before an exception stay renamed. *)
Fixpoint rename_levels (axes : list (nat * string)) (df : DataFrame)
  : result unit * DataFrame :=
  match axes with
  | [] => (Ok tt, df)
  | (i, a) :: rest =>
      match Pd.rename_level a i df with
      | Ok df' => rename_levels rest df'
      | Raise e => (Raise e, df)
      end
  end.

(** [clean_dataset]: the outcome, and [self.df] as the call leaves
    it.  [self.df] is assigned statement by statement, so an
    exception leaves the frame of the last completed statement. *)
Definition clean_dataset (axes : list string) (df : DataFrame)
  : result unit * DataFrame :=
  let df := clean_rows df in
  match py_sorted ["axis"] (df_columns df) with
  | Raise e => (Raise e, df)
  | Ok labels =>
      let df := reindex_labels labels df in
      let df := Pd.add_total df in
      match Pd.astype_int64 df with
      | Raise e => (Raise e, df)
      | Ok df => rename_levels (Py.enumerate axes) df
      end
  end.

(** [CollationEngine.__init__] from the URL check on; the result is
    [self.data] and the frame handed to [save_dataset]. *)
Definition init (fuel : nat) (url : string) (axes : list string) (w : World)
  : option (result (Data * DataFrame) * World) :=
  match webpage_type_of url with
  | Raise e => Some (Raise e, w)
  | Ok webpage_type =>
      match select_axes webpage_type axes w with
      | (Raise e, w1) => Some (Raise e, w1)
      | (Ok tables, w1) =>
          match dataset_loop fuel tables (mkCheckpoint None None None) w1 with
          | None => None
          | Some (Raise e, w2) => Some (Raise e, w2)
          | Some (Ok (data, df), w2) =>
              match clean_dataset axes df with
              | (Raise e, _) => Some (Raise e, w2)
              | (Ok _, df') => Some (Ok (data, df'), w2)
              end
          end
      end
  end.

End clean_dataset.

End CollationEngine.

(** ** The progress-bar label *)

(** [shorten(text, text_limit, terminator, delimiter, padding,
    pad_limit)]; the second [len(text)] is the length of the text as
    the first statement left it. *)
Definition shorten (text : string) (text_limit : Z)
    (terminator delimiter padding : string) (pad_limit : Z) : string :=
  let text :=
    if Z.of_nat (String.length text) >? text_limit then
      Py.slice_to (text_limit - 1 - Z.of_nat (String.length terminator)) text
      +:+ terminator +:+ delimiter
    else text in
  text +:+ (delimiter +:+ Py.str_mul padding (pad_limit - Z.of_nat (String.length text))).

(** [shorten(text)], as [create_dataset] calls it: the defaults
    [text_limit=24], [terminator='...'], [delimiter=''], [padding=' ']
    and [pad_limit=25]. *)
Definition shorten_default (text : string) : string :=
  shorten text 24 "..." "" " " 25.

(** ** Example pages *)

Definition unlines (l : list string) : string :=
  String.concat (String "010" EmptyString) l.

(** Two table-1 rows A and B, each with the table-2 rows X and Y; the
    first element of every table is the aggregate row. *)
Definition site_2x2 : Site :=
  mkSite
    [["Month"; "Nationality"; "Decision"];
     ["Month"; "Nationality"; "Decision"];
     ["Month"; "Nationality"; "Decision"]]
    (mkTableDom [0; 1; 2]%nat (unlines ["All 30"; "A 10"; "B 20"]))
    (fun s1 =>
       match s1 with
       | Some 1%nat => mkTableDom [0; 1; 2]%nat (unlines ["All 10"; "X 4"; "Y 6"])
       | _ => mkTableDom [0; 1; 2]%nat (unlines ["All 20"; "X 5"; "Y 15"])
       end)
    (fun s1 s2 =>
       match s1, s2 with
       | Some 1%nat, Some 1%nat => mkTableDom [0; 1]%nat (unlines ["All 4"; "M 4"])
       | Some 1%nat, _ => mkTableDom [0; 1]%nat (unlines ["All 6"; "M 6"])
       | _, Some 1%nat => mkTableDom [0; 1]%nat (unlines ["All 5"; "M 5"])
       | _, _ => mkTableDom [0; 1]%nat (unlines ["All 15"; "M 15"])
       end)
    (fun _ _ => true) 3.

(** The same page, but table 2 never shows a row element. *)
Definition site_no_table2 : Site :=
  mkSite (site_menus site_2x2) (site_table1 site_2x2)
         (fun _ => mkTableDom [] "") (site_table3 site_2x2) (site_anchor site_2x2) 3.


(** A page whose table 1 shows one row element for two lines, the
    second of which has no numeral. *)
Definition site_short : Site :=
  mkSite (site_menus site_2x2)
    (mkTableDom [0]%nat (unlines ["Cuba 7"; "Mexico n/a"]))
    (site_table2 site_2x2) (site_table3 site_2x2) (site_anchor site_2x2) 3.

(** Under the table-1 row B, table 2 shows the aggregate row only. *)
Definition site_gap : Site :=
  mkSite (site_menus site_2x2)
    (mkTableDom [0; 1; 2]%nat (unlines ["All 10"; "A 10"; "B 0"]))
    (fun s1 =>
       match s1 with
       | Some 1%nat => mkTableDom [0; 1]%nat (unlines ["All 10"; "X 10"])
       | _ => mkTableDom [0]%nat "All 0"
       end)
    (fun _ _ => mkTableDom [0; 1; 2]%nat (unlines ["All 10"; "M 3"; "N 7"]))
    (fun _ _ => true) 3.

(** The browser on the page [s], before any click, with the click
    outcomes [os] to come and no table read that goes stale. *)
Definition world_of (s : Site) (os : list click_outcome) : World :=
  mkWorld s None None os [] ∅ true [].

Definition object_tables : list Table := mkTable object <$> [0; 1; 2]%nat.

(** ** The parse as the specification words it

    The specification has a row's text split "on the last whitespace
    run".  [spec_row] follows those words; [Row.init] above follows the
    code, which cuts at the last space character. *)

(** The text before and after the last character that satisfies [p]. *)
Fixpoint rcut_by (p : ascii -> bool) (s : string) : option (string * string) :=
  match s with
  | EmptyString => None
  | String c s' =>
      match rcut_by p s' with
      | Some (a, b) => Some (String c a, b)
      | None => if p c then Some (EmptyString, s') else None
      end
  end.

Definition rstrip (s : string) : string := String.rev (Py.lstrip (String.rev s)).

(** The text before the last run of white space, and the text after it. *)
Definition spec_split_last_whitespace_run (text : string) : option (string * string) :=
  match rcut_by Py.isspace text with
  | Some (a, b) => Some (rstrip a, b)
  | None => None
  end.

Definition spec_row (e : Elem) (text : string) (tt : table_type) : result Row :=
  match spec_split_last_whitespace_run text with
  | Some (name, value) =>
      match Py.int (Py.remove "," value) with
      | Some v => Ok (mkRow tt e name v)
      | None => Raise ValueError
      end
  | None => Raise ValueError
  end.

Definition two_spaces : string := "Mexico  1,234".
Definition with_tab : string := "Mexico" +:+ String "009" "1,234".

(** ** Properties of computations on the browser *)

Definition is_dataset_exception {A} (r : result A) : Prop :=
  match r with
  | Raise (DatasetException _ _ _) => True
  | _ => False
  end.

Definition is_stale {A} (r : result A) : Prop :=
  match r with
  | Raise StaleElementReferenceException => True
  | _ => False
  end.

(** No table read to come goes stale. *)
Definition fresh_reads (w : World) : Prop := Stale ∉ read_outcomes w.

(** As long as the table reads are fresh, no stale reference comes out
    of [m], and the reads to come stay fresh. *)
Definition stale_only_by_read {A} (m : M A) (w : World) : Prop :=
  fresh_reads w -> ~ is_stale (m w).1 /\ fresh_reads (m w).2.

(** No row is clicked: the schedule of click outcomes is untouched and
    no [DatasetException] comes out. *)
Definition quiet {A} (m : M A) : Prop :=
  forall w, stale_only_by_read m w /\ ~ is_dataset_exception (m w).1
            /\ outcomes (m w).2 = outcomes w.


(** ** Runs on the example page *)

(** The checkpoint of the first attempt. *)
Definition ck0 : Checkpoint := mkCheckpoint None None None.

(** What an uninterrupted traversal of [site_2x2] collects. *)
Definition data_2x2 : Data :=
  [("A", [("X", [("M", 4)]); ("Y", [("M", 6)])]);
   ("B", [("X", [("M", 5)]); ("Y", [("M", 15)])])].

Definition df_2x2 : DataFrame :=
  mkDF [None; None] ["M"]
    [(("A", "X"), [Some 4]); (("A", "Y"), [Some 6]);
     (("B", "X"), [Some 5]); (("B", "Y"), [Some 15])].

Definition clicks_2x2 : list event :=
  [ClickRow 0 1; ClickRow 1 1; ClickRow 1 2;
   ClickRow 0 2; ClickRow 1 1; ClickRow 1 2]%nat.

Definition dump_A : string := "data-up-to_T1-A.json".

(** What the traversal of [site_2x2] collects when the click on the
    pair (A, Y) goes stale once. *)
Definition data_resumed : Data :=
  [("A", [("X", [("M", 4)]); ("Y", [("M", 6)])]);
   ("B", [("Y", [("M", 15)])])].

(** The menu [AxisMenu.__init__] builds from the option texts [names]. *)
Definition menu_of (webpage_type : string) (i : nat) (names : list string) : AxisMenu :=
  mkAxisMenu webpage_type i (mkOption i <$> names).

(** ** The raw dataset seen as a table *)

(** The (T1, T2) pairs of the raw dataset, in order. *)
Definition observed_pairs (data : Data) : list label :=
  kv ← data; kt ← snd kv; [(fst kv, fst kt)].

(** The T1 names that have a T2 entry, and the T2 names. *)
Definition t1_names (data : Data) : list string :=
  Pd.unique (fst <$> observed_pairs data).
Definition t2_names (data : Data) : list string :=
  Pd.unique (snd <$> observed_pairs data).

(** [data[a][b]] and [data[a][b][c]], when present. *)
Definition data_get2 (data : Data) (a b : string) : option (Dict Z) :=
  match dict_get a data with
  | Some v => dict_get b v
  | None => None
  end.
Definition raw_cell (data : Data) (a b c : string) : option Z :=
  match data_get2 data a b with
  | Some t => dict_get c t
  | None => None
  end.

Definition fill_row (value : Z) (r : frame_row) : frame_row :=
  (fst r, (fun c : option Z => Some (default value c)) <$> snd r).

Definition nan_row (df : DataFrame) : cells :=
  replicate (length (df_columns df)) None.

(** The rows of [clean_rows] before the sort. *)
Definition filled_rows (df : DataFrame) : list frame_row :=
  (fun l => fill_row 0 (l, default (nan_row df) (Pd.lookup_row l (df_rows df))))
    <$> Pd.from_product (Pd.index_unique 0 df) (Pd.index_unique 1 df).

(** What the traversal of [site_gap] collects: the table-1 row B was
    visited and showed no table-2 row to click. *)
Definition data_gap : Data :=
  [("A", [("X", [("M", 3); ("N", 7)])]); ("B", [])].

Definition df_gap : DataFrame :=
  mkDF [None; None] ["M"; "N"] [(("A", "X"), [Some 3; Some 7])].

(** Table 3 listed N before M. *)
Definition data_nm : Data := [("A", [("X", [("N", 7); ("M", 3)])])].

Definition df_nm : DataFrame :=
  mkDF [None; None] ["N"; "M"] [(("A", "X"), [Some 7; Some 3])].

(** One row with the data columns A = 3 and B = 7, before and after the
    Total statement. *)
Definition data_ab : Data := [("T1", [("T2", [("A", 3); ("B", 7)])])].
Definition df_ab : DataFrame :=
  mkDF [None; None] ["A"; "B"] [(("T1", "T2"), [Some 3; Some 7])].
Definition df_ab_total : DataFrame :=
  mkDF [None; None] ["A"; "B"; "Total"] [(("T1", "T2"), [Some 3; Some 7; Some 10])].

(** A stand-in for what pandas makes of [df.reindex(labels)]; no
    result depends on the choice. *)
Definition keep_frame (labels : list string) (df : DataFrame) : DataFrame := df.

(** ** Invariants of an attempt *)

(** The world is left as it was. *)
Definition reads {A} (m : M A) : Prop := forall w, (m w).2 = w.

(** A specification of a computation in three parts: [R] relates the
    world before to the world after a result, [Q] holds of the result,
    and [E] relates the two worlds when an exception leaves. *)
Definition sat_at {A} (R : World -> World -> Prop)
    (E : exn -> World -> World -> Prop) (Q : A -> Prop) (m : M A) (w : World)
  : Prop :=
  match m w with
  | (Ok a, w') => R w w' /\ Q a
  | (Raise e, w') => E e w w'
  end.

Definition sat {A} (R : World -> World -> Prop)
    (E : exn -> World -> World -> Prop) (Q : A -> Prop) (m : M A) : Prop :=
  forall w, sat_at R E Q m w.

(** A [DatasetException] names a dump that is on disk and satisfies [P]. *)
Definition dump_holds (P : Data -> Prop) (e : exn) (w w' : World) : Prop :=
  match e with
  | DatasetException f _ _ => exists d, files w' !! f = Some d /\ P d
  | _ => True
  end.

(** The dump a checkpoint names, if it is on disk, satisfies [P]. *)
Definition ck_holds (P : Data -> Prop) (ck : Checkpoint) (w : World) : Prop :=
  forall f d, ck_dump_file ck = Some f -> files w !! f = Some d -> P d.

Definition any_step (w w' : World) : Prop := True.

(** [d'] has every T1 name and every (T1, T2) pair of [d]. *)
Definition extends (d d' : Data) : Prop :=
  (forall a, is_Some (dict_get a d) -> is_Some (dict_get a d'))
  /\ (forall a b, is_Some (data_get2 d a b) -> is_Some (data_get2 d' a b)).

(** A click on a row of table 1 or of table 2. *)
Definition is_row_click (ev : event) : Prop :=
  match ev with
  | ClickRow 0 _ | ClickRow 1 _ => True
  | _ => False
  end.

(** The click log has grown by row clicks; the page is the same. *)
Definition clicked_rows (w w' : World) : Prop :=
  site w' = site w
  /\ exists evs, clicks w' = clicks w ++ evs /\ Forall is_row_click evs.

(** The files are as they were; an exception leaves them as they were
    too, but for the dump a [DatasetException] names. *)
Definition same_files (w w' : World) : Prop :=
  removable w' = removable w /\ files w' = files w.

Definition one_dump (e : exn) (w w' : World) : Prop :=
  removable w' = removable w
  /\ match e with
     | DatasetException f _ _ => exists d, files w' = <[ f := d ]> (files w)
     | _ => files w' = files w
     end.

(** [create_dataset] in its two parts: the dataset it starts from, and
    the traversal from that dataset. *)
Definition load_dump (ck : Checkpoint) : M Data :=
  match ck_dump_file ck with
  | Some f => data ← json_load f; _ ← os_remove f; mret data
  | None => mret []
  end.

Definition attempt_from (tables : list Table) (ck : Checkpoint) (data : Data)
  : M (Data * DataFrame) :=
  t1 ← CollationEngine.table tables 0;
  t1_rows ← Table.rows t1;
  let t1_rows :=
    match ck_current_t1_row ck with
    | Some i => drop i t1_rows
    | None => t1_rows
    end in
  data ← CollationEngine.t1_loop tables (ck_current_t2_row ck)
           (Py.enumerate t1_rows) data;
  df ← lift (Pd.concat data);
  mret (data, df).

(** Two worlds that show the same page in the same state: they may
    differ in their files and in whether files can be removed. *)
Definition same_page (w1 w2 : World) : Prop :=
  site w1 = site w2 /\ sel1 w1 = sel1 w2 /\ sel2 w1 = sel2 w2
  /\ outcomes w1 = outcomes w2 /\ clicks w1 = clicks w2
  /\ read_outcomes w1 = read_outcomes w2.

(** [m] does the same on the same page: same outcome, same page after,
    and the same dump under the name a [DatasetException] gives. *)
Definition agree {A} (m : M A) : Prop :=
  forall w1 w2, same_page w1 w2 ->
    (m w1).1 = (m w2).1
    /\ same_page (m w1).2 (m w2).2
    /\ match (m w1).1 with
       | Raise (DatasetException f _ _) =>
           exists d, files (m w1).2 !! f = Some d /\ files (m w2).2 !! f = Some d
       | _ => True
       end.

(** ** Setting the axes *)

(** The body of the loop that sets the axes. *)
Definition set_axis (menus : list AxisMenu) (ia : nat * string) : M AxisMenu :=
  match menus !! fst ia with
  | Some m => AxisMenu.set_to m (snd ia)
  | None => raise IndexError
  end.

(** The clicks that set the axes [axes], the first one on menu [k]:
    for every axis, one on its menu and one on its option. *)
Definition set_clicks (k : nat) (axes : list string) : list event :=
  flat_map (fun ia : nat * string => [ClickMenu (fst ia); ClickOption (fst ia) (snd ia)])
           (Py.enumerate_from k axes).

(** ** The lines of a table that make rows *)

Definition kept_lines (dom : TableDom) : list string :=
  List.filter Table.is_meaningful (Py.split "010" (dom_text dom)).

(** ** The clicks of a resumed attempt *)





(** * Properties *)

(** ** Strings and rows *)

Lemma prefix_spec (p s : string) :
  String.prefix p s = true <-> exists b, s = p +:+ b.
Proof.
  unfold String.app. revert s. induction p as [|c p IH]; intros s.
  - destruct s; simpl; split; eauto.
  - destruct s as [|d s]; simpl.
    + split; [done|]. intros [b Hb]. discriminate.
    + destruct (ascii_dec c d) as [->|Hne].
      * rewrite IH. split; intros [b Hb]; exists b; congruence.
      * split; [done|]. intros [b Hb]. congruence.
Qed.

Lemma contains_spec (pat s : string) :
  Py.contains pat s = true <-> exists a b, s = a +:+ pat +:+ b.
Proof.
  unfold String.app. induction s as [|c s IH].
  - cbn [Py.contains]. rewrite orb_false_r, prefix_spec. split.
    + intros [b Hb]. exists "", b. done.
    + intros [a [b Hab]]. destruct a; simpl in Hab; [eauto|discriminate].
  - cbn [Py.contains]. rewrite orb_true_iff, prefix_spec, IH. split.
    + intros [[b Hb]|[a [b Hab]]].
      * by exists "", b.
      * exists (String c a), b. simpl. by rewrite Hab.
    + intros [a [b Hab]]. destruct a as [|d a]; simpl in Hab.
      * left. eauto.
      * right. exists a, b. congruence.
Qed.

Lemma rcut_none (sep : ascii) (s : string) :
  Py.rcut sep s = None <-> Py.has_char sep s = false.
Proof.
  induction s as [|c s IH]; simpl; [done|].
  destruct (Py.rcut sep s) as [[a b]|].
  - split; [done|]. intros [_ H]%orb_false_iff. apply IH in H. done.
  - destruct (Ascii.eqb c sep); simpl; [done|]. tauto.
Qed.

Lemma rcut_some (sep : ascii) (s a b : string) :
  Py.rcut sep s = Some (a, b) <->
  s = a +:+ String sep b /\ Py.has_char sep b = false.
Proof.
  unfold String.app. revert a. induction s as [|c s IH]; intros a; simpl.
  - split; [done|]. intros [H _]. destruct a; discriminate.
  - destruct (Py.rcut sep s) as [[a' b']|] eqn:Hcut.
    + split.
      * intros [= <- <-]. destruct (IH a') as [[-> Hb] _]; [done|]. done.
      * intros [Hs Hb]. destruct a as [|d a]; simpl in Hs.
        -- injection Hs as -> ->. apply rcut_none in Hb. congruence.
        -- injection Hs as -> Hs. f_equal. 
           destruct (IH a) as [_ H]. specialize (H (conj Hs Hb)). congruence.
    + destruct (Ascii.eqb_spec c sep) as [->|Hne].
      * split.
        -- intros [= <- <-]. split; [done|]. by apply rcut_none.
        -- intros [Hs Hb]. destruct a as [|d a]; simpl in Hs.
           ++ congruence.
           ++ injection Hs as -> Hs. destruct (IH a) as [_ H].
              specialize (H (conj Hs Hb)). done.
      * split; [done|]. intros [Hs Hb]. destruct a as [|d a]; simpl in Hs.
        -- congruence.
        -- injection Hs as -> Hs. destruct (IH a) as [_ H].
           specialize (H (conj Hs Hb)). done.
Qed.

Lemma row_init_ok (e : Elem) (text : string) (tt : table_type) (r : Row) :
  Row.init e text tt = Ok r <->
  exists name v value,
    text = name +:+ String " " v /\ Py.has_char " " v = false /\
    Py.int (Py.remove "," v) = Some value /\ r = mkRow tt e name value.
Proof.
  unfold Row.init, Py.rsplit1.
  destruct (Py.rcut " " text) as [[a b]|] eqn:Hcut.
  - apply rcut_some in Hcut as [-> Hb]. split.
    + destruct (Py.int (Py.remove "," b)) as [v|] eqn:Hint; [|done].
      intros [= <-]. by exists a, b, v.
    + intros (name & v & value & Htext & Hv & Hint & ->).
      assert (Py.rcut " " (a +:+ String " " b) = Some (name, v)) as H1
        by (rewrite Htext; by apply rcut_some).
      assert (Py.rcut " " (a +:+ String " " b) = Some (a, b)) as H2
        by (by apply rcut_some).
      rewrite H1 in H2. injection H2 as -> ->. by rewrite Hint.
  - split; [done|]. intros (name & v & value & Htext & Hv & _).
    assert (Py.rcut " " text = Some (name, v)) by (by apply rcut_some).
    congruence.
Qed.

Lemma row_init_error (e : Elem) (text : string) (tt : table_type) (x : exn) :
  Row.init e text tt = Raise x -> x = ValueError.
Proof.
  unfold Row.init, Py.rsplit1.
  destruct (Py.rcut " " text) as [[a b]|]; [|congruence].
  destruct (Py.int (Py.remove "," b)); congruence.
Qed.

Lemma row_init_no_space (e : Elem) (text : string) (tt : table_type) :
  Py.has_char " " text = false -> Row.init e text tt = Raise ValueError.
Proof.
  intros H%rcut_none. unfold Row.init, Py.rsplit1. by rewrite H.
Qed.

Lemma row_init_bad_value (e : Elem) (name v : string) (tt : table_type) :
  Py.has_char " " v = false -> Py.int (Py.remove "," v) = None ->
  Row.init e (name +:+ String " " v) tt = Raise ValueError.
Proof.
  intros Hv Hint. unfold Row.init, Py.rsplit1.
  assert (Py.rcut " " (name +:+ String " " v) = Some (name, v)) as ->
    by (by apply rcut_some).
  by rewrite Hint.
Qed.

(** [enumerate] numbers the elements from [k] on. *)
Lemma elem_of_enumerate_from {A} (k : nat) (l : list A) (i : nat) (x : A) :
  (i, x) ∈ Py.enumerate_from k l <-> (k <= i)%nat /\ l !! (i - k)%nat = Some x.
Proof.
  revert k. induction l as [|y l IH]; intros k; simpl.
  - rewrite elem_of_nil. split; [done|]. by intros [_ ?].
  - rewrite elem_of_cons, IH. split.
    + intros [[= -> ->]|[Hle Hl]].
      * split; [lia|]. by replace (k - k)%nat with 0%nat by lia.
      * split; [lia|]. by replace (i - k)%nat with (S (i - S k)) by lia.
    + intros [Hle Hl]. destruct (decide (i = k)) as [->|Hne].
      * left. replace (k - k)%nat with 0%nat in Hl by lia. simpl in Hl. congruence.
      * right. split; [lia|].
        by replace (i - k)%nat with (S (i - S k)) in Hl by lia.
Qed.

Lemma filter_enumerate_ext {A} (p : nat * A -> bool) (q : A -> bool) (k : nat) (l : list A) :
  (forall i x, (i, x) ∈ Py.enumerate_from k l -> p (i, x) = q x) ->
  snd <$> List.filter p (Py.enumerate_from k l) = List.filter q l.
Proof.
  revert k. induction l as [|y l IH]; intros k Hpq; [done|].
  cbn [Py.enumerate_from List.filter].
  rewrite (Hpq k y) by (simpl; left).
  assert (snd <$> List.filter p (Py.enumerate_from (S k) l) = List.filter q l) as Hrec.
  { apply IH. intros i x Hin. apply Hpq. simpl. by right. }
  destruct (q y); [rewrite fmap_cons; cbn [snd]; f_equal|]; apply Hrec.
Qed.

(** Filtering by the indices to skip keeps the meaningful lines. *)
Lemma keep_text_rows_filter (text_rows : list string) :
  Table.keep_text_rows text_rows = List.filter Table.is_meaningful text_rows.
Proof.
  unfold Table.keep_text_rows, Py.enumerate.
  apply filter_enumerate_ext. intros i x Hin. cbn [fst].
  unfold Py.mem, Table.text_indices_to_skip, Py.enumerate.
  destruct (Table.is_meaningful x) eqn:Hx.
  - apply negb_true_iff, bool_decide_eq_false. intros Hi.
    apply list_elem_of_fmap in Hi as [[i' y] [Hi Hy]]. simpl in Hi. subst i'.
    apply list_elem_of_In, filter_In in Hy as [Hy Hm]. apply list_elem_of_In in Hy.
    apply elem_of_enumerate_from in Hin as [_ Hin], Hy as [_ Hy].
    simpl in Hm. assert (x = y) by congruence. subst y. by rewrite Hx in Hm.
  - apply negb_false_iff, bool_decide_eq_true.
    apply list_elem_of_fmap. exists (i, x). split; [done|].
    apply list_elem_of_In, filter_In. split; [by apply list_elem_of_In|].
    simpl. by rewrite Hx.
Qed.

Lemma comprehension_raise {A B} (f : A -> result B) (l : list A) (x : A) :
  (forall y e, f y = Raise e -> e = ValueError) ->
  x ∈ l -> f x = Raise ValueError -> comprehension f l = Raise ValueError.
Proof.
  intros Herr Hin Hx. induction l as [|y l IH]; [by apply elem_of_nil in Hin|].
  simpl. apply elem_of_cons in Hin as [<-|Hin].
  - by rewrite Hx.
  - destruct (f y) as [b|e] eqn:Hy; simpl.
    + by rewrite IH.
    + by rewrite (Herr _ _ Hy).
Qed.

Lemma slice_from_length {A} (l : list A) (m : nat) :
  (m <= length l)%nat ->
  length (Py.slice_from (Z.of_nat (length l) - Z.of_nat m) l) = m.
Proof.
  intros Hm. unfold Py.slice_from.
  destruct (Z.leb_spec 0 (Z.of_nat (length l) - Z.of_nat m)); [|lia].
  rewrite length_drop. lia.
Qed.

Lemma elem_of_zip_r {A B} (l : list A) (k : list B) (y : B) :
  length l = length k -> y ∈ k -> exists x, (x, y) ∈ Py.zip l k.
Proof.
  unfold Py.zip. revert k.
  induction l as [|a l IH]; intros [|b k] Hlen Hy; simpl in Hlen; try discriminate.
  - inversion Hy.
  - apply elem_of_cons in Hy as [->|Hy].
    + exists a. left.
    + destruct (IH k) as [x Hx]; [congruence|done|]. exists x. by right.
Qed.

Lemma last_cons_default {A} (l : list A) (x d1 d2 : A) :
  List.last (x :: l) d1 = List.last (x :: l) d2.
Proof.
  revert x. induction l as [|y l IH]; intros x; [done|].
  change (List.last (y :: l) d1 = List.last (y :: l) d2). apply IH.
Qed.

Lemma drop_last {A} (l : list A) (d : A) :
  drop (length l) (d :: l) = [List.last l d].
Proof.
  revert d. induction l as [|x l IH]; intros d; [done|].
  cbn [length drop]. rewrite IH. f_equal.
  destruct l as [|y l]; [done|].
  change (List.last (y :: l) x = List.last (y :: l) d). apply last_cons_default.
Qed.

(** C7, as stated, fails on the code: with two spaces before the value
    the code keeps a trailing space in the name, where a cut at the
    last run of white space gives "Mexico"; with a tab before the value
    the code raises, where that cut gives the same Row. *)
Lemma last_space_is_not_last_whitespace_run :
  Row.init 0%nat two_spaces object = Ok (mkRow object 0%nat "Mexico " 1234)
  /\ spec_row 0%nat two_spaces object = Ok (mkRow object 0%nat "Mexico" 1234)
  /\ Row.init 0%nat with_tab object = Raise ValueError
  /\ spec_row 0%nat with_tab object = Ok (mkRow object 0%nat "Mexico" 1234).
Proof. vm_compute. done. Qed.

Lemma is_meaningful_spec (t : string) :
  Table.is_meaningful t = true <->
  t <> "" /\ ~ (exists a b, t = a +:+ "All" +:+ b)
          /\ ~ (exists a b, t = a +:+ "Total" +:+ b).
Proof.
  unfold Table.is_meaningful.
  rewrite !andb_true_iff, !negb_true_iff, String.eqb_neq.
  rewrite <- !not_true_iff_false, !contains_spec. tauto.
Qed.

(** C7 (amended).  Row filtering and parsing.  A table read whose text
    lines are "All 100", "Total 50", "Mexico 1,234" yields exactly one
    Row, named "Mexico" with value 1234, on the last row element of the
    table.  The kept lines are exactly the lines that are not empty and
    contain neither "All" nor "Total".  A kept line makes a Row exactly
    when it is [name], one space, [v], where [v] has no space and [int]
    reads [v] without its commas: the cut is at the last space
    character, not at a run of white space. *)
Theorem row_filtering_and_parsing
    (tt : table_type) (e : Elem) (els : list Elem)
    (lines : list string) (text : string) (r : Row) :
  Table.calculate_rows tt
    (mkTableDom (e :: els) (unlines ["All 100"; "Total 50"; "Mexico 1,234"]))
    = Ok [mkRow tt (List.last els e) "Mexico" 1234]
  /\ Table.keep_text_rows lines = List.filter Table.is_meaningful lines
  /\ (Table.is_meaningful text = true <->
      text <> "" /\ ~ (exists a b, text = a +:+ "All" +:+ b)
                 /\ ~ (exists a b, text = a +:+ "Total" +:+ b))
  /\ (Row.init e text tt = Ok r <->
      exists name v value,
        text = name +:+ String " " v /\ Py.has_char " " v = false /\
        Py.int (Py.remove "," v) = Some value /\ r = mkRow tt e name value).
Proof.
  split; [|split; [apply keep_text_rows_filter|split;
                   [apply is_meaningful_spec|apply row_init_ok]]].
  unfold Table.calculate_rows. cbn [dom_rows dom_text Table.wait_all mbind result_bind].
  assert (Table.keep_text_rows
            (Py.split "010" (unlines ["All 100"; "Total 50"; "Mexico 1,234"]))
          = ["Mexico 1,234"]) as -> by (vm_compute; reflexivity).
  assert (Py.slice_from (Z.of_nat (length (e :: els)) - Z.of_nat (length ["Mexico 1,234"]))
            (e :: els) = [List.last els e]) as ->.
  { unfold Py.slice_from. cbn [length].
    destruct (Z.leb_spec 0 (Z.of_nat (S (length els)) - Z.of_nat 1)); [|lia].
    replace (Z.to_nat (Z.of_nat (S (length els)) - Z.of_nat 1)) with (length els) by lia.
    apply drop_last. }
  vm_compute. reflexivity.
Qed.

(** C10 (amended).  Row construction is partial.  For a line that
    passes the filter and either has no space, or whose text after the
    last space is not a numeral once the commas are removed,
    [Row.__init__] raises [ValueError]; and when the table shows at
    least one row element per kept line, the alignment the code relies
    on when it drops the leading elements, [calculate_rows] raises
    [ValueError] for the whole table rather than skipping the line. *)
Theorem row_construction_is_partial
    (tt : table_type) (dom : TableDom) (text : string) :
  text ∈ List.filter Table.is_meaningful (Py.split "010" (dom_text dom)) ->
  (length (List.filter Table.is_meaningful (Py.split "010" (dom_text dom)))
     <= length (dom_rows dom))%nat ->
  Py.has_char " " text = false
  \/ (exists name v, text = name +:+ String " " v /\ Py.has_char " " v = false
                     /\ Py.int (Py.remove "," v) = None) ->
  (forall e, Row.init e text tt = Raise ValueError)
  /\ Table.calculate_rows tt dom = Raise ValueError.
Proof.
  intros Hin Hlen Hbad.
  assert (forall e, Row.init e text tt = Raise ValueError) as Hrow.
  { intros e. destruct Hbad as [H|(name & v & -> & Hv & Hint)].
    - by apply row_init_no_space.
    - by apply row_init_bad_value. }
  split; [done|].
  unfold Table.calculate_rows. rewrite keep_text_rows_filter.
  set (kept := List.filter _ _) in *.
  destruct (dom_rows dom) as [|e0 els] eqn:Hrows.
  { destruct kept; [inversion Hin|simpl in Hlen; lia]. }
  cbn [Table.wait_all mbind result_bind].
  destruct (elem_of_zip_r
              (Py.slice_from (Z.of_nat (length (e0 :: els)) - Z.of_nat (length kept))
                             (e0 :: els)) kept text) as [e He]; [|done|].
  { by apply slice_from_length. }
  apply (comprehension_raise _ _ (e, text)); [|done|apply Hrow].
  intros [e' t'] x. apply row_init_error.
Qed.

(** A table whose last line has no numeral. *)
Lemma row_construction_is_partial_witness :
  "Mexico n/a" ∈ List.filter Table.is_meaningful
                   (Py.split "010" (unlines ["All 7"; "Cuba 7"; "Mexico n/a"]))
  /\ (length (List.filter Table.is_meaningful
                 (Py.split "010" (unlines ["All 7"; "Cuba 7"; "Mexico n/a"])))
       <= length [0; 1; 2]%nat)%nat
  /\ Py.int (Py.remove "," "n/a") = None
  /\ (forall e, Row.init e "Mexico n/a" object = Raise ValueError)
  /\ Table.calculate_rows object
       (mkTableDom [0; 1; 2]%nat (unlines ["All 7"; "Cuba 7"; "Mexico n/a"]))
     = Raise ValueError.
Proof.
  assert ("Mexico n/a" ∈ List.filter Table.is_meaningful
            (Py.split "010" (unlines ["All 7"; "Cuba 7"; "Mexico n/a"]))) as Hin
    by (vm_compute; right; left).
  assert (length (List.filter Table.is_meaningful
                    (Py.split "010" (unlines ["All 7"; "Cuba 7"; "Mexico n/a"])))
          <= length [0; 1; 2]%nat)%nat as Hlen by (vm_compute; lia).
  assert (Py.int (Py.remove "," "n/a") = None) as Hint by reflexivity.
  split; [exact Hin|]. split; [exact Hlen|]. split; [exact Hint|].
  apply (row_construction_is_partial object
           (mkTableDom [0; 1; 2]%nat (unlines ["All 7"; "Cuba 7"; "Mexico n/a"]))
           "Mexico n/a" Hin Hlen).
  right. exists "Mexico", "n/a". split; [reflexivity|]. split; [reflexivity|exact Hint].
Defined.

(** C10, as stated, fails on the code: a table that shows fewer row
    elements than kept lines loses its last lines unread, a line that
    makes no Row among them.  Table 1 shows one row element and the
    lines "Cuba 7" and "Mexico n/a": the read returns the Row of Cuba
    alone, and the run goes on and completes with that row. *)
Lemma short_table_skips_a_bad_line :
  "Mexico n/a" ∈ kept_lines (site_table1 site_short)
  /\ (forall e, Row.init e "Mexico n/a" object = Raise ValueError)
  /\ Table.calculate_rows object (site_table1 site_short)
     = Ok [mkRow object 0%nat "Cuba" 7]
  /\ (Table.rows (mkTable object 0) (world_of site_short [])).1
     = Ok [mkRow object 0%nat "Cuba" 7]
  /\ fst <$> CollationEngine.dataset_loop 1 object_tables ck0 (world_of site_short [])
     = Some (Ok ([("Cuba", [("X", [("M", 5)]); ("Y", [("M", 15)])])],
                 mkDF [None; None] ["M"]
                   [(("Cuba", "X"), [Some 5]); (("Cuba", "Y"), [Some 15])])).
Proof.
  split; [vm_compute; right; left|]. split; [intros e; reflexivity|].
  vm_compute. done.
Qed.

(** ** The traversal: what an attempt can raise *)




Lemma quiet_mret {A} (a : A) : quiet (mret a : M A).
Proof. intros w. unfold stale_only_by_read. simpl. tauto. Qed.

Lemma quiet_lift {A} (r : result A) :
  ~ is_stale r -> ~ is_dataset_exception r -> quiet (lift r).
Proof. intros Hs Hd w. unfold stale_only_by_read. simpl. tauto. Qed.

Lemma quiet_raise {A} (e : exn) :
  ~ is_stale (Raise e : result A) -> ~ is_dataset_exception (Raise e : result A) ->
  quiet (raise e : M A).
Proof. intros Hs Hd w. unfold stale_only_by_read. simpl. tauto. Qed.

Lemma quiet_get_world : quiet get_world.
Proof. intros w. unfold stale_only_by_read. simpl. tauto. Qed.

(** What [open] can raise. *)
Lemma open_w_error (name : string) (e : exn) :
  Py.open_w name = Some e -> e = ValueError \/ e = FileNotFoundError \/ e = OSError.
Proof.
  unfold Py.open_w. destruct (Py.has_char "000" name); [intros [= <-]; tauto|].
  destruct (Py.has_char "/" name); [intros [= <-]; tauto|].
  case_bool_decide; [intros [= <-]; tauto|done].
Qed.

Lemma quiet_json_dump (f : string) (d : Data) : quiet (json_dump f d).
Proof.
  intros w. unfold stale_only_by_read, json_dump.
  destruct (Py.open_w f) as [e|] eqn:Hopen; simpl; [|tauto].
  apply open_w_error in Hopen as [-> |[-> | ->]]; simpl; tauto.
Qed.



Lemma quiet_table (tables : list Table) (k : nat) : quiet (CollationEngine.table tables k).
Proof.
  unfold CollationEngine.table. destruct (tables !! k).
  - apply quiet_mret.
  - apply quiet_raise; simpl; tauto.
Qed.

Lemma comprehension_error {A B} (f : A -> result B) (l : list A) (e : exn) :
  (forall y e, f y = Raise e -> e = ValueError) ->
  comprehension f l = Raise e -> e = ValueError.
Proof.
  intros Herr. induction l as [|y l IH]; simpl; [done|].
  destruct (f y) as [b|e'] eqn:Hy; simpl.
  - destruct (comprehension f l); simpl; [done|]. intros [= <-]. by apply IH.
  - intros [= <-]. by apply (Herr y).
Qed.

Lemma calculate_rows_error (tt : table_type) (dom : TableDom) (e : exn) :
  Table.calculate_rows tt dom = Raise e -> e = ValueError \/ e = TimeoutException.
Proof.
  unfold Table.calculate_rows, Table.wait_all.
  destruct (dom_rows dom) as [|e0 els]; simpl.
  - intros [= <-]. by right.
  - intros H. left. apply comprehension_error in H; [done|].
    intros [e' t'] x. apply row_init_error.
Qed.

Lemma after_read_world (w : World) :
  site (after_read w) = site w /\ sel1 (after_read w) = sel1 w
  /\ sel2 (after_read w) = sel2 w /\ outcomes (after_read w) = outcomes w
  /\ clicks (after_read w) = clicks w /\ files (after_read w) = files w
  /\ removable (after_read w) = removable w
  /\ read_outcomes (after_read w) = tail (read_outcomes w).
Proof.
  unfold after_read, next_read.
  destruct (read_outcomes w) as [|o os] eqn:Hr; simpl; rewrite ?Hr; done.
Qed.

(** [Table.rows] case by case: the page shows no table; it shows too
    few; the handle goes stale; the rows are read. *)
Lemma rows_unfold (t : Table) (w : World) :
  Table.rows t w
  = match site_tables (site w) with
    | O => (Raise TimeoutException, w)
    | S _ =>
        if bool_decide (tab_index t < site_tables (site w))%nat then
          (match read_outcomes w with
           | Stale :: _ => Raise StaleElementReferenceException
           | _ => Table.calculate_rows (tab_table_type t) (table_dom w (tab_index t))
           end, after_read w)
        else (Raise IndexError, w)
    end.
Proof.
  unfold Table.rows, Table.locate_tables, after_read.
  unfold mbind at 1, M_bind. unfold mbind at 1, M_bind, get_world, lift.
  destruct (site_tables (site w)) as [|n] eqn:Hn; [done|].
  change (Table.wait_all (seq 0 (S n))) with (Ok (seq 0 (S n)) : result (list Elem)).
  cbv iota. case_bool_decide as Hi.
  - rewrite lookup_seq_lt by done. unfold mbind, M_bind, next_read.
    destruct (read_outcomes w) as [|[] os]; try done.
  - rewrite lookup_seq_ge by lia. done.
Qed.

Lemma rows_world (t : Table) (w : World) :
  (Table.rows t w).2 = w \/ (Table.rows t w).2 = after_read w.
Proof.
  rewrite rows_unfold. destruct (site_tables (site w)); [by left|].
  case_bool_decide; [by right|by left].
Qed.

Lemma quiet_rows (t : Table) : quiet (Table.rows t).
Proof.
  assert (forall tt dom, ~ is_stale (Table.calculate_rows tt dom)
                         /\ ~ is_dataset_exception (Table.calculate_rows tt dom))
    as Hcalc.
  { intros tt dom. destruct (Table.calculate_rows tt dom) as [rs|e] eqn:H; [simpl; tauto|].
    apply calculate_rows_error in H as [-> | ->]; simpl; tauto. }
  intros w. unfold stale_only_by_read, fresh_reads. rewrite rows_unfold.
  destruct (after_read_world w) as (_ & _ & _ & Ho & _ & _ & _ & Hr).
  destruct (site_tables (site w)); [simpl; tauto|].
  case_bool_decide; [|simpl; tauto]. cbn [fst snd]. rewrite Ho, Hr.
  specialize (Hcalc (tab_table_type t) (table_dom w (tab_index t))).
  split; [|split; [|done]].
  - intros Hf. destruct (read_outcomes w) as [|o os]; [simpl; tauto|].
    apply not_elem_of_cons in Hf as [Hne Hf]. destruct o; simpl; [tauto|done].
  - destruct (read_outcomes w) as [|[] os]; simpl; tauto.
Qed.

Lemma click_outcomes (index : nat) (r : Row) (w : World) :
  ~ is_dataset_exception (Row.click index r w).1
  /\ (length (outcomes (Row.click index r w).2) <= length (outcomes w))%nat
  /\ (is_stale (Row.click index r w).1 ->
      (length (outcomes (Row.click index r w).2) < length (outcomes w))%nat).
Proof.
  unfold Row.click, mbind, M_bind, get_world, log, next_outcome, select, raise.
  destruct (row_table_type r); simpl.
  - destruct (outcomes w) as [|[] os] eqn:Ho; simpl; rewrite ?Ho; simpl;
      destruct index as [|[|?]]; simpl; rewrite ?Ho; simpl; (split; [tauto|]; split; [lia|]); try tauto; intros; lia.
  - destruct (outcomes w) as [|[] os] eqn:Ho; simpl;
      try destruct (site_anchor _ _ _); simpl;
      destruct index as [|[|?]]; simpl; rewrite ?Ho; simpl; (split; [tauto|]; split; [lia|]); try tauto; intros; lia.
Qed.

(** A click leaves the page, the files and the reads to come as they
    were, and adds at most its own event to the click log. *)
Lemma click_world (index : nat) (r : Row) (w : World) :
  site (Row.click index r w).2 = site w
  /\ files (Row.click index r w).2 = files w
  /\ removable (Row.click index r w).2 = removable w
  /\ read_outcomes (Row.click index r w).2 = read_outcomes w
  /\ (clicks (Row.click index r w).2 = clicks w
      \/ clicks (Row.click index r w).2
         = clicks w ++ [ClickRow index (row_web_element r)]).
Proof.
  unfold Row.click, mbind, M_bind, get_world, log, next_outcome, select, raise,
    add_clicks.
  destruct (row_table_type r); simpl.
  - destruct (outcomes w) as [|[] os]; simpl;
      destruct index as [|[|?]]; simpl; auto 6.
  - destruct (outcomes w) as [|[] os]; simpl;
      try destruct (site_anchor _ _ _); simpl;
      destruct index as [|[|?]]; simpl; auto 6.
Qed.

(** The handler of a stale click: the dump is written and named in a
    [DatasetException], or it cannot be written and the exception of
    [open] leaves instead. *)
Lemma handler_unfold (f : string) (d : Data) (i : nat) (j : option nat) (w : World) :
  ((_ ← json_dump f d; raise (DatasetException f i j)) : M unit) w
  = match Py.open_w f with
    | Some e => (Raise e, w)
    | None => (Raise (DatasetException f i j), (json_dump f d w).2)
    end.
Proof.
  unfold mbind, M_bind, json_dump, raise. by destruct (Py.open_w f).
Qed.


Lemma quiet_data_set2 (k1 k2 : string) (v : Dict Z) (data : Data) :
  quiet (lift (data_set2 k1 k2 v data)).
Proof.
  apply quiet_lift; unfold data_set2; destruct (dict_get k1 data); simpl; tauto.
Qed.





(** ** The retry loop on the example page *)







(** A wait that times out is fatal: the loop ends after one click, with
    fuel to spare and with nothing dumped. *)
Lemma timeout_is_fatal :
  CollationEngine.dataset_loop 5 object_tables ck0 (world_of site_no_table2 [])
  = Some (Raise TimeoutException,
          mkWorld site_no_table2 (Some 1%nat) None [] [ClickRow 0 1%nat] ∅ true []).
Proof. vm_compute. reflexivity. Qed.

(** C1 (the code breaks it).  No data loss across resume.  On the page
    with the table-1 rows A and B and the table-2 rows X and Y under
    each, the click on (A, Y) goes stale once.  The resumed run
    completes, and its dataset has no entry for (B, X), which an
    uninterrupted run collects. *)
Theorem resumed_run_drops_a_pair :
  fst <$> CollationEngine.dataset_loop 2 object_tables ck0
            (world_of site_2x2 [Fresh; Fresh; Stale])
  = Some (Ok (data_resumed,
              mkDF [None; None] ["M"]
                [(("A", "X"), [Some 4]); (("A", "Y"), [Some 6]);
                 (("B", "Y"), [Some 15])]))
  /\ data_get2 data_resumed "B" "X" = None
  /\ data_get2 data_2x2 "B" "X" = Some [("M", 5)]
  /\ fst <$> CollationEngine.dataset_loop 1 object_tables ck0 (world_of site_2x2 [])
     = Some (Ok (data_2x2, df_2x2)).
Proof. vm_compute. done. Qed.

(** C2 (the code breaks it).  The table-2 resume index belongs to one
    table-1 row.  On the same page and schedule the first attempt
    raises with the indices (0, 1); the resumed attempt then clicks
    only Y under A, which is the resume, and only Y under B as well:
    the first table-2 row of the later table-1 row is skipped. *)
Theorem resume_index_reaches_later_rows :
  CollationEngine.create_dataset object_tables ck0 (world_of site_2x2 [Fresh; Fresh; Stale])
  = (Raise (DatasetException "data-up-to_T1-A_T2-Y.json" 0 (Some 1%nat)),
     mkWorld site_2x2 (Some 1%nat) (Some 1%nat) []
       [ClickRow 0 1; ClickRow 1 1; ClickRow 1 2]%nat
       {[ "data-up-to_T1-A_T2-Y.json" := [("A", [("X", [("M", 4)])])] ]} true [])
  /\ (fun rw : result (Data * DataFrame) * World => clicks (snd rw)) <$>
       CollationEngine.dataset_loop 2 object_tables ck0
         (world_of site_2x2 [Fresh; Fresh; Stale])
     = Some ([ClickRow 0 1; ClickRow 1 1; ClickRow 1 2]
             ++ [ClickRow 0 1; ClickRow 1 2; ClickRow 0 2; ClickRow 1 2])%nat.
Proof. vm_compute. done. Qed.

(** ** Axis validation *)

Lemma check_axes_raise (menus : list AxisMenu) (axes : list string)
    (m : AxisMenu) (a : string) :
  m ∈ menus -> a ∈ axes -> a ∉ AxisMenu.option_names m ->
  CollationEngine.check_axes menus axes = Raise ValueError.
Proof.
  intros Hm Ha Hmiss. unfold CollationEngine.check_axes.
  set (inner := fun m : AxisMenu => comprehension _ axes).
  assert (forall y e, inner y = Raise e -> e = ValueError) as Herr.
  { intros y e. unfold inner. apply comprehension_error.
    intros b e'. case_bool_decide; congruence. }
  rewrite (comprehension_raise inner menus m Herr Hm); [done|].
  unfold inner. apply (comprehension_raise _ _ a); [|done|].
  - intros b e'. case_bool_decide; congruence.
  - by rewrite bool_decide_eq_false_2.
Qed.

Lemma calculate_all_link (w : World) (m0 m1 m2 : list string) (rest : list (list string)) :
  site_menus (site w) = m0 :: m1 :: m2 :: rest ->
  m0 <> [] -> m1 <> [] -> m2 <> [] ->
  AxisMenu.calculate_all "link-whole" w
  = (Ok [menu_of "link-whole" 0 m0; menu_of "link-whole" 1 m1; menu_of "link-whole" 2 m2], w).
Proof.
  intros Hm H0 H1 H2.
  destruct m0 as [|n0 m0]; [done|]. destruct m1 as [|n1 m1]; [done|].
  destruct m2 as [|n2 m2]; [done|].
  destruct w as [[menus t1 t2 t3 an nt] s1 s2 os cl fs rm rs]. simpl in Hm. subst menus.
  vm_compute. reflexivity.
Qed.

Lemma calculate_all_object (w : World) (m0 m1 m2 : list string) (rest : list (list string)) :
  site_menus (site w) = m0 :: m1 :: m2 :: rest ->
  m0 <> [] -> m1 <> [] -> m2 <> [] ->
  AxisMenu.calculate_all "object-whole" w
  = (Ok [menu_of "object-whole" 0 m0; menu_of "object-whole" 1 m1;
         menu_of "object-whole" 2 m2],
     add_clicks [ClickMenu 0; ClickMenu 1; ClickMenu 2] w).
Proof.
  intros Hm H0 H1 H2.
  destruct m0 as [|n0 m0]; [done|]. destruct m1 as [|n1 m1]; [done|].
  destruct m2 as [|n2 m2]; [done|].
  destruct w as [[menus t1 t2 t3 an nt] s1 s2 os cl fs rm rs]. simpl in Hm. subst menus.
  unfold add_clicks. cbn [clicks site sel1 sel2 outcomes files removable].
  replace (cl ++ [ClickMenu 0; ClickMenu 1; ClickMenu 2])
    with (((cl ++ [ClickMenu 0]) ++ [ClickMenu 1]) ++ [ClickMenu 2])
    by (rewrite <- !app_assoc; reflexivity).
  vm_compute. reflexivity.
Qed.

Lemma enumerate_fst_seq {A} (f : nat -> A) (k n : nat) :
  (fun ie : nat * Elem => f (fst ie)) <$> Py.enumerate_from k (seq k n)
  = f <$> seq k n.
Proof.
  revert k. induction n as [|n IH]; intros k; [done|].
  cbn [seq Py.enumerate_from]. rewrite !fmap_cons. cbn [fst]. f_equal. apply IH.
Qed.

(** [Table.calculate_all] on a whole page: a timeout when the page
    shows no table, and otherwise one table per table element. *)
Lemma tables_calculate_all (wt : string) (tt : table_type) (w : World) :
  (wt = "link-whole" /\ tt = link) \/ (wt = "object-whole" /\ tt = object) ->
  Table.calculate_all wt w
  = match site_tables (site w) with
    | O => (Raise TimeoutException, w)
    | S _ => (Ok (mkTable tt <$> seq 0 (site_tables (site w))), w)
    end.
Proof.
  intros Hwt. unfold Table.calculate_all, Table.calculate_web_elements.
  assert (Py.contains "object" wt || Py.contains "link" wt = true) as ->
    by (destruct Hwt as [[-> _]|[-> _]]; reflexivity).
  assert ((if Py.contains "object" wt then object else link) = tt) as ->
    by (destruct Hwt as [[-> ->]|[-> ->]]; reflexivity).
  unfold Table.locate_tables, mbind, M_bind, get_world, lift, mret, M_ret.
  destruct (site_tables (site w)) as [|n]; [done|].
  change (Table.wait_all (seq 0 (S n))) with (Ok (seq 0 (S n)) : result (list Elem)).
  cbv iota. unfold Py.enumerate. by rewrite enumerate_fst_seq.
Qed.

(** C3 (amended).  A requested axis name that one of the three menus
    does not offer makes the run fail with [ValueError] before any
    option or row is clicked, on a page that shows its tables; on a page
    that shows no table the run has failed just before the check, with
    the [TimeoutException] of the wait for the tables.  In both cases
    the link variant has issued no click at all, and the object variant
    exactly three, one on each menu, which it needs to read the menu's
    options. *)
Theorem unknown_axis_fails_before_any_selection
    (w : World) (axes : list string) (m0 m1 m2 : list string)
    (rest : list (list string)) (a : string) :
  site_menus (site w) = m0 :: m1 :: m2 :: rest ->
  m0 <> [] -> m1 <> [] -> m2 <> [] ->
  a ∈ axes -> a ∉ m0 \/ a ∉ m1 \/ a ∉ m2 ->
  CollationEngine.select_axes "link-whole" axes w
  = (Raise (match site_tables (site w) with
            | O => TimeoutException
            | S _ => ValueError
            end), w)
  /\ CollationEngine.select_axes "object-whole" axes w
     = (Raise (match site_tables (site w) with
               | O => TimeoutException
               | S _ => ValueError
               end),
        add_clicks [ClickMenu 0; ClickMenu 1; ClickMenu 2] w).
Proof.
  intros Hm H0 H1 H2 Ha Hmiss.
  assert (forall wt, exists m,
            m ∈ [menu_of wt 0 m0; menu_of wt 1 m1; menu_of wt 2 m2]
            /\ a ∉ AxisMenu.option_names m) as Hmenu.
  { intros wt.
    assert (forall i ns, AxisMenu.option_names (menu_of wt i ns) = ns) as Hnames.
    { intros i ns. unfold AxisMenu.option_names, menu_of. cbn [menu_options].
      rewrite <- list_fmap_compose. apply list_fmap_id. }
    destruct Hmiss as [H|[H|H]];
      [exists (menu_of wt 0 m0)|exists (menu_of wt 1 m1)|exists (menu_of wt 2 m2)];
      rewrite Hnames; (split; [|done]); set_solver. }
  split; unfold CollationEngine.select_axes, mbind at 1, M_bind.
  - rewrite (calculate_all_link w m0 m1 m2 rest) by done.
    destruct (Hmenu "link-whole") as (m & Hin & Hno).
    unfold mbind at 1, M_bind.
    rewrite (tables_calculate_all "link-whole" link) by (by left).
    destruct (site_tables (site w)); [done|].
    unfold mbind, M_bind, lift. by rewrite (check_axes_raise _ axes m a).
  - rewrite (calculate_all_object w m0 m1 m2 rest) by done.
    destruct (Hmenu "object-whole") as (m & Hin & Hno).
    unfold mbind at 1, M_bind.
    rewrite (tables_calculate_all "object-whole" object) by (by right).
    change (site (add_clicks [ClickMenu 0; ClickMenu 1; ClickMenu 2] w)) with (site w).
    destruct (site_tables (site w)); [done|].
    unfold mbind, M_bind, lift. by rewrite (check_axes_raise _ axes m a).
Qed.

Lemma unknown_axis_fails_before_any_selection_witness :
  ("Outcome" ∈ ["Month"; "Nationality"; "Outcome"])
  /\ ("Outcome" ∉ ["Month"; "Nationality"; "Decision"])
  /\ CollationEngine.select_axes "link-whole" ["Month"; "Nationality"; "Outcome"]
       (world_of site_2x2 [])
     = (Raise ValueError, world_of site_2x2 [])
  /\ CollationEngine.select_axes "object-whole" ["Month"; "Nationality"; "Outcome"]
       (world_of site_2x2 [])
     = (Raise ValueError,
        add_clicks [ClickMenu 0; ClickMenu 1; ClickMenu 2] (world_of site_2x2 [])).
Proof.
  assert ("Outcome" ∈ ["Month"; "Nationality"; "Outcome"]) as Hin
    by (right; right; left).
  assert ("Outcome" ∉ ["Month"; "Nationality"; "Decision"]) as Hout
    by (apply (bool_decide_unpack _); vm_compute; exact I).
  split; [exact Hin|]. split; [exact Hout|].
  apply (unknown_axis_fails_before_any_selection (world_of site_2x2 [])
           ["Month"; "Nationality"; "Outcome"]
           ["Month"; "Nationality"; "Decision"]
           ["Month"; "Nationality"; "Decision"]
           ["Month"; "Nationality"; "Decision"] [] "Outcome").
  - reflexivity.
  - discriminate.
  - discriminate.
  - discriminate.
  - exact Hin.
  - left. exact Hout.
Defined.

(** C3, as stated, fails on the code: on an object page the run that
    asks for an axis the menus do not offer ends with [ValueError], and
    three clicks have been issued by then. *)
Lemma object_variant_clicks_before_the_check :
  CollationEngine.init keep_frame 1
    "https://trac.syr.edu/phptools/immigration/asylum/"
    ["Month"; "Nationality"; "Outcome"] (world_of site_2x2 [])
  = Some (Raise ValueError,
          add_clicks [ClickMenu 0; ClickMenu 1; ClickMenu 2] (world_of site_2x2 []))
  /\ clicks (add_clicks [ClickMenu 0; ClickMenu 1; ClickMenu 2] (world_of site_2x2 []))
     = [ClickMenu 0; ClickMenu 1; ClickMenu 2]
  /\ [ClickMenu 0; ClickMenu 1; ClickMenu 2] <> [].
Proof. vm_compute. done. Qed.

(** ** Row labels and sorted frames *)

#[global] Instance label_le_total : Total label_le.
Proof.
  intros [a1 b1] [a2 b2]. unfold label_le. simpl.
  destruct (decide (a1 = a2)) as [->|Hne].
  - destruct (total String.le b1 b2); [left|right]; (split; [reflexivity|done]).
  - destruct (total String.le a1 a2); [left|right]; (split; [done|congruence]).
Qed.

#[global] Instance label_le_trans : Transitive label_le.
Proof.
  intros [a1 b1] [a2 b2] [a3 b3]. unfold label_le. simpl.
  intros [H12 K12] [H23 K23]. split; [by etrans|].
  intros ->. assert (a2 = a3) as -> by (by apply (anti_symm String.le)).
  etrans; [by apply K12|by apply K23].
Qed.

#[global] Instance label_le_antisymm : AntiSymm (=) label_le.
Proof.
  intros [a1 b1] [a2 b2]. unfold label_le. simpl. intros [H12 K12] [H21 K21].
  assert (a1 = a2) as -> by (by apply (anti_symm String.le)).
  f_equal. apply (anti_symm String.le); auto.
Qed.

#[global] Instance row_le_total : Total row_le.
Proof. intros x y. unfold row_le. apply (total label_le). Qed.

#[global] Instance row_le_trans : Transitive row_le.
Proof. intros x y z. unfold row_le. apply transitivity. Qed.

(** Rows found by their label. *)
Section keyed.
Context {V : Type}.
Implicit Types rows : list (label * V).

Lemma lookup_row_Some rows l v :
  NoDup (fst <$> rows) -> Pd.lookup_row l rows = Some v <-> (l, v) ∈ rows.
Proof.
  induction rows as [|[l' v'] rows IH]; cbn [Pd.lookup_row].
  - intros _. split; [done|]. intros H. inversion H.
  - rewrite fmap_cons, NoDup_cons. cbn [fst].
    intros [Hl' Hnd]. rewrite elem_of_cons.
    destruct (decide (l = l')) as [->|Hne].
    + split.
      * intros [= ->]. by left.
      * intros [[= ->]|Hin]; [done|]. exfalso. apply Hl'.
        apply list_elem_of_fmap. by exists (l', v).
    + rewrite IH by done. split; [by right|].
      intros [[= -> ->]|Hin]; done.
Qed.

Lemma lookup_row_None rows l :
  Pd.lookup_row l rows = None <-> l ∉ fst <$> rows.
Proof.
  induction rows as [|[l' v'] rows IH]; cbn [Pd.lookup_row].
  - split; [|done]. intros _ H. inversion H.
  - rewrite fmap_cons, not_elem_of_cons. cbn [fst].
    destruct (decide (l = l')) as [->|Hne]; [split; [done|tauto]|].
    rewrite IH. tauto.
Qed.

Lemma lookup_row_perm rows rows' l :
  NoDup (fst <$> rows) -> rows ≡ₚ rows' ->
  Pd.lookup_row l rows = Pd.lookup_row l rows'.
Proof.
  intros Hnd Hp.
  assert (NoDup (fst <$> rows')) as Hnd' by (by rewrite <- Hp).
  destruct (Pd.lookup_row l rows) as [v|] eqn:H.
  - symmetry. apply lookup_row_Some; [done|]. rewrite <- Hp.
    by apply lookup_row_Some.
  - symmetry. apply lookup_row_None. rewrite <- Hp. by apply lookup_row_None.
Qed.

Lemma lookup_row_fmap (f : label -> V) (ls : list label) l :
  l ∈ ls -> Pd.lookup_row l ((fun l => (l, f l)) <$> ls) = Some (f l).
Proof.
  induction ls as [|l' ls IH]; [intros H; inversion H|].
  rewrite elem_of_cons, fmap_cons. cbn [Pd.lookup_row]. intros [->|Hin].
  - by rewrite decide_True.
  - destruct (decide (l = l')) as [->|]; [done|auto].
Qed.

Lemma keyed_eq rows rows' :
  NoDup (fst <$> rows) -> rows ≡ₚ rows' -> fst <$> rows = fst <$> rows' ->
  rows = rows'.
Proof.
  revert rows'. induction rows as [|[l v] rows IH]; intros [|[l' v'] rows'];
    rewrite ?fmap_cons; cbn [fst]; try done.
  rewrite NoDup_cons. intros [Hl Hnd] Hp [= <- Hfst].
  assert ((l, v) ∈ (l, v') :: rows') as Hin by (rewrite <- Hp; left).
  apply elem_of_cons in Hin as [[= <-]|Hin].
  - f_equal. apply IH; [done| |done]. by apply (inj (cons (l, v))).
  - exfalso. apply Hl. rewrite Hfst. apply list_elem_of_fmap. by exists (l, v).
Qed.
End keyed.

Lemma sorted_rows_unique (rows rows' : list frame_row) :
  Sorted row_le rows -> Sorted row_le rows' ->
  NoDup (fst <$> rows) -> rows ≡ₚ rows' -> rows = rows'.
Proof.
  intros Hs Hs' Hnd Hp. apply keyed_eq; [done..|].
  apply (Sorted_unique label_le).
  - by apply (Sorted_fmap fst row_le label_le).
  - by apply (Sorted_fmap fst row_le label_le).
  - by rewrite Hp.
Qed.

(** ** Level values and cross products *)

Lemma elem_of_unique (l : list string) (x : string) : x ∈ Pd.unique l <-> x ∈ l.
Proof.
  induction l as [|y l IH]; simpl; [done|].
  rewrite !elem_of_cons, list_elem_of_In, filter_In, <- list_elem_of_In, IH.
  rewrite negb_true_iff, bool_decide_eq_false.
  destruct (decide (x = y)); tauto.
Qed.

Lemma NoDup_filter_bool {A} (p : A -> bool) (l : list A) :
  NoDup l -> NoDup (List.filter p l).
Proof.
  induction 1 as [|x l Hx Hnd IH]; simpl; [constructor|].
  destruct (p x); [|done]. constructor; [|done].
  rewrite list_elem_of_In, filter_In, <- list_elem_of_In. tauto.
Qed.

Lemma NoDup_unique (l : list string) : NoDup (Pd.unique l).
Proof.
  induction l as [|y l IH]; simpl; [constructor|].
  constructor; [|by apply NoDup_filter_bool].
  rewrite list_elem_of_In, filter_In, negb_true_iff, bool_decide_eq_false. tauto.
Qed.

Lemma filter_bool_all {A} (p : A -> bool) (l : list A) :
  (forall x, x ∈ l -> p x = true) -> List.filter p l = l.
Proof.
  induction l as [|x l IH]; simpl; [done|]. intros H.
  rewrite (H x) by left. f_equal. apply IH. intros y Hy. apply H. by right.
Qed.

Lemma unique_NoDup (l : list string) : NoDup l -> Pd.unique l = l.
Proof.
  induction 1 as [|x l Hx Hnd IH]; simpl; [done|]. rewrite IH. f_equal.
  apply filter_bool_all. intros y Hy.
  apply negb_true_iff, bool_decide_eq_false. congruence.
Qed.

Lemma elem_of_from_product (l1 l2 : list string) (a b : string) :
  (a, b) ∈ Pd.from_product l1 l2 <-> a ∈ l1 /\ b ∈ l2.
Proof.
  unfold Pd.from_product. rewrite list_elem_of_bind. split.
  - intros (x & Hin & Hx). apply list_elem_of_bind in Hin as (y & Hin & Hy).
    apply list_elem_of_singleton in Hin as [= -> ->]. done.
  - intros [Ha Hb]. exists a. split; [|done].
    apply list_elem_of_bind. exists b. split; [|done]. by apply list_elem_of_singleton.
Qed.

Lemma NoDup_from_product (l1 l2 : list string) :
  NoDup l1 -> NoDup l2 -> NoDup (Pd.from_product l1 l2).
Proof.
  intros H1 H2. unfold Pd.from_product. apply NoDup_bind; [| |done].
  - intros a a' [x y] _ _ Hin Hin'.
    apply list_elem_of_bind in Hin as (? & Hin & _), Hin' as (? & Hin' & _).
    apply list_elem_of_singleton in Hin, Hin'. congruence.
  - intros a _. apply NoDup_bind; [| |done].
    + intros b b' [x y] _ _ Hin Hin'.
      apply list_elem_of_singleton in Hin, Hin'. congruence.
    + intros b _. apply NoDup_singleton.
Qed.

Lemma length_from_product (l1 l2 : list string) :
  length (Pd.from_product l1 l2) = (length l1 * length l2)%nat.
Proof.
  unfold Pd.from_product. induction l1 as [|a l1 IH]; [done|].
  rewrite bind_cons, length_app. cbn [length Nat.mul]. f_equal; [|exact IH].
  clear IH. induction l2 as [|b l2 IH2]; [done|].
  rewrite bind_cons. cbn [length app]. by rewrite IH2.
Qed.

(** ** The row steps of [clean_dataset] *)

Lemma clean_rows_unfold (df : DataFrame) :
  CollationEngine.clean_rows df
  = mkDF [None; None] (df_columns df) (merge_sort row_le (filled_rows df)).
Proof.
  unfold CollationEngine.clean_rows, Pd.sort_index, Pd.fillna, Pd.reindex_index,
    filled_rows. cbn [df_names df_columns df_rows]. f_equal.
  f_equal. rewrite <- list_fmap_compose. reflexivity.
Qed.

Lemma filled_rows_index (df : DataFrame) :
  fst <$> filled_rows df
  = Pd.from_product (Pd.index_unique 0 df) (Pd.index_unique 1 df).
Proof.
  unfold filled_rows. rewrite <- list_fmap_compose. apply list_fmap_id.
Qed.

Lemma clean_rows_index_perm (df : DataFrame) :
  df_index (CollationEngine.clean_rows df)
  ≡ₚ Pd.from_product (Pd.index_unique 0 df) (Pd.index_unique 1 df).
Proof.
  rewrite clean_rows_unfold. unfold df_index. cbn [df_rows].
  rewrite merge_sort_Permutation. by rewrite filled_rows_index.
Qed.

Lemma NoDup_filled_rows (df : DataFrame) : NoDup (fst <$> filled_rows df).
Proof.
  rewrite filled_rows_index. apply NoDup_from_product; apply NoDup_unique.
Qed.

Lemma clean_rows_sorted (df : DataFrame) :
  Sorted label_le (df_index (CollationEngine.clean_rows df)).
Proof.
  rewrite clean_rows_unfold. unfold df_index. cbn [df_rows].
  apply (Sorted_fmap fst row_le label_le); [done|].
  apply (Sorted_merge_sort row_le).
Qed.

(** [sorted(self.df.columns, axis=1)] raises on every frame: the call
    ends there, with the frame the row steps made. *)
Lemma clean_dataset_raises (reindex_labels : list string -> DataFrame -> DataFrame)
    (axes : list string) (df : DataFrame) :
  CollationEngine.clean_dataset reindex_labels axes df
  = (Raise TypeError, CollationEngine.clean_rows df).
Proof. reflexivity. Qed.

Lemma fill_row_idemp (value : Z) (r : frame_row) :
  fill_row value (fill_row value r) = fill_row value r.
Proof.
  unfold fill_row. cbn [fst snd]. f_equal. rewrite <- list_fmap_compose.
  apply list_fmap_ext. intros i c _. reflexivity.
Qed.

Lemma fmap_id_on {A} (g : A -> A) (l : list A) :
  (forall x, x ∈ l -> g x = x) -> g <$> l = l.
Proof.
  induction l as [|x l IH]; [done|]. intros H. rewrite fmap_cons.
  rewrite (H x) by left. f_equal. apply IH. intros y Hy. apply H. by right.
Qed.

Lemma elem_of_fst_product (l1 l2 : list string) (a : string) :
  a ∈ fst <$> Pd.from_product l1 l2 <-> a ∈ l1 /\ l2 <> [].
Proof.
  rewrite list_elem_of_fmap. split.
  - intros ([a' b] & -> & Hin). apply elem_of_from_product in Hin as [Ha Hb].
    split; [done|]. intros ->. inversion Hb.
  - intros [Ha Hne]. destruct l2 as [|b l2]; [done|]. exists (a, b).
    split; [done|]. apply elem_of_from_product. split; [done|left].
Qed.

Lemma elem_of_snd_product (l1 l2 : list string) (b : string) :
  b ∈ snd <$> Pd.from_product l1 l2 <-> b ∈ l2 /\ l1 <> [].
Proof.
  rewrite list_elem_of_fmap. split.
  - intros ([a b'] & -> & Hin). apply elem_of_from_product in Hin as [Ha Hb].
    split; [done|]. intros ->. inversion Ha.
  - intros [Hb Hne]. destruct l1 as [|a l1]; [done|]. exists (a, b).
    split; [done|]. apply elem_of_from_product. split; [left|done].
Qed.

(** The cross product of the level values of a cross product is that
    cross product again, up to order. *)
Lemma product_of_levels (idx : list label) (l1 l2 : list string) :
  idx ≡ₚ Pd.from_product l1 l2 -> NoDup l1 -> NoDup l2 ->
  Pd.from_product (Pd.unique (fst <$> idx)) (Pd.unique (snd <$> idx)) ≡ₚ idx.
Proof.
  intros Hp H1 H2. rewrite Hp at 3.
  apply NoDup_Permutation.
  - apply NoDup_from_product; apply NoDup_unique.
  - by apply NoDup_from_product.
  - intros [a b]. rewrite !elem_of_from_product, !elem_of_unique, !Hp.
    rewrite elem_of_fst_product, elem_of_snd_product. split.
    + tauto.
    + intros [Ha Hb]. split; (split; [done|]); intros ->.
      * inversion Hb.
      * inversion Ha.
Qed.

Lemma filled_rows_filled (df : DataFrame) (r : frame_row) :
  r ∈ filled_rows df -> fill_row 0 r = r.
Proof.
  unfold filled_rows. intros (l & -> & _)%list_elem_of_fmap. apply fill_row_idemp.
Qed.

Lemma clean_rows_idempotent (df : DataFrame) :
  CollationEngine.clean_rows (CollationEngine.clean_rows df)
  = CollationEngine.clean_rows df.
Proof.
  rewrite (clean_rows_unfold (CollationEngine.clean_rows df)).
  rewrite (clean_rows_unfold df) at 1 3. cbn [df_columns]. f_equal.
  set (sorted := merge_sort row_le (filled_rows df)).
  assert (sorted ≡ₚ filled_rows df) as Hsorted by apply merge_sort_Permutation.
  assert (NoDup (fst <$> sorted)) as Hnd by (rewrite Hsorted; apply NoDup_filled_rows).
  assert (filled_rows (CollationEngine.clean_rows df) ≡ₚ sorted) as Hperm.
  { unfold filled_rows at 1. unfold Pd.index_unique.
    replace (df_index (CollationEngine.clean_rows df)) with (fst <$> sorted)
      by (by rewrite clean_rows_unfold).
    rewrite (product_of_levels (fst <$> sorted) (Pd.index_unique 0 df) (Pd.index_unique 1 df)).
    - rewrite <- list_fmap_compose. rewrite fmap_id_on; [done|].
      intros [l v] Hin. cbn [compose fst].
      replace (df_rows (CollationEngine.clean_rows df)) with sorted
        by (by rewrite clean_rows_unfold).
      assert (Pd.lookup_row l sorted = Some v) as -> by (by apply lookup_row_Some).
      cbn [default]. apply (filled_rows_filled df). by rewrite <- Hsorted.
    - rewrite Hsorted. by rewrite filled_rows_index.
    - apply NoDup_unique.
    - apply NoDup_unique. }
  symmetry. apply sorted_rows_unique.
  - apply (Sorted_merge_sort row_le).
  - apply (Sorted_merge_sort row_le).
  - done.
  - by rewrite merge_sort_Permutation.
Qed.

(** ** From the raw dataset to the frame *)

Lemma elem_of_observed_pairs (data : Data) (a b : string) :
  (a, b) ∈ observed_pairs data <->
  exists v t, (a, v) ∈ data /\ (b, t) ∈ v.
Proof.
  unfold observed_pairs. rewrite list_elem_of_bind. split.
  - intros ([a' v] & Hin & Hv). apply list_elem_of_bind in Hin as ([b' t] & Hin & Ht).
    apply list_elem_of_singleton in Hin as [= -> ->]. by exists v, t.
  - intros (v & t & Hv & Ht). exists (a, v). split; [|done].
    apply list_elem_of_bind. exists (b, t). split; [|done].
    by apply list_elem_of_singleton.
Qed.

Lemma elem_of_t1_names (data : Data) (a : string) :
  a ∈ t1_names data <-> exists v, (a, v) ∈ data /\ v <> [].
Proof.
  unfold t1_names. rewrite elem_of_unique, list_elem_of_fmap. split.
  - intros ([a' b] & -> & Hin). apply elem_of_observed_pairs in Hin as (v & t & Hv & Ht).
    exists v. split; [done|]. intros ->. inversion Ht.
  - intros (v & Hv & Hne). destruct v as [|[b t] v]; [done|]. exists (a, b).
    split; [done|]. apply elem_of_observed_pairs. exists ((b, t) :: v), t.
    split; [done|left].
Qed.

Lemma elem_of_t2_names (data : Data) (b : string) :
  b ∈ t2_names data <-> exists a v t, (a, v) ∈ data /\ (b, t) ∈ v.
Proof.
  unfold t2_names. rewrite elem_of_unique, list_elem_of_fmap. split.
  - intros ([a b'] & -> & Hin). apply elem_of_observed_pairs in Hin as (v & t & Hv & Ht).
    by exists a, v, t.
  - intros (a & v & t & Hv & Ht). exists (a, b). split; [done|].
    apply elem_of_observed_pairs. by exists v, t.
Qed.

Lemma concat_rows_index (cols : list string) (data : Data) :
  fst <$> Pd.concat_rows cols data = observed_pairs data.
Proof.
  unfold Pd.concat_rows, observed_pairs.
  induction data as [|[a v] data IH]; [done|].
  rewrite !bind_cons, fmap_app, IH. f_equal. cbn [fst snd].
  clear IH. induction v as [|[b t] v IH]; [done|].
  rewrite !bind_cons, fmap_app, IH. reflexivity.
Qed.

Lemma lookup_row_app {V} (l : label) (rows rows' : list (label * V)) :
  Pd.lookup_row l (rows ++ rows')
  = match Pd.lookup_row l rows with
    | Some v => Some v
    | None => Pd.lookup_row l rows'
    end.
Proof.
  induction rows as [|[l' v] rows IH]; [done|]. cbn [app Pd.lookup_row].
  by destruct (decide (l = l')).
Qed.

Lemma lookup_inner_rows (cols : list string) (a a' b : string) (v : Dict (Dict Z)) :
  Pd.lookup_row (a, b)
    (kt ← v; [((a', fst kt), (fun c => dict_get c (snd kt)) <$> cols)])
  = if decide (a = a')
    then (fun t : Dict Z => (fun c => dict_get c t) <$> cols) <$> dict_get b v
    else None.
Proof.
  induction v as [|[b' t] v IH].
  - by destruct (decide (a = a')).
  - rewrite bind_cons. cbn [app Pd.lookup_row dict_get fst snd]. rewrite IH.
    destruct (decide (a = a')) as [->|Hne].
    + destruct (decide (b = b')) as [->|Hb].
      * by rewrite decide_True.
      * rewrite decide_False by congruence. done.
    + rewrite decide_False by congruence. done.
Qed.

Lemma dict_get_None {V} (k : string) (d : Dict V) :
  k ∉ dict_keys d -> dict_get k d = None.
Proof.
  unfold dict_keys. induction d as [|[k' v] d IH]; [done|].
  rewrite fmap_cons, not_elem_of_cons. cbn [fst dict_get]. intros [Hne Hd].
  rewrite decide_False by done. auto.
Qed.

Lemma lookup_concat_rows (cols : list string) (data : Data) (a b : string) :
  NoDup (dict_keys data) ->
  Pd.lookup_row (a, b) (Pd.concat_rows cols data)
  = (fun t : Dict Z => (fun c => dict_get c t) <$> cols) <$> data_get2 data a b.
Proof.
  unfold Pd.concat_rows, dict_keys, data_get2.
  induction data as [|[a' v] data IH]; [done|].
  rewrite fmap_cons, NoDup_cons. cbn [fst]. intros [Ha' Hnd].
  rewrite bind_cons, lookup_row_app. cbn [fst snd dict_get].
  rewrite lookup_inner_rows.
  destruct (decide (a = a')) as [->|Hne].
  - destruct (dict_get b v) as [t|]; [done|].
    rewrite IH by done. by rewrite (dict_get_None a' data).
  - by rewrite IH.
Qed.

Lemma index_of_Some (c : string) (cols : list string) :
  c ∈ cols -> exists i, Pd.index_of c cols = Some i /\ cols !! i = Some c.
Proof.
  induction cols as [|c' cols IH]; [intros H; inversion H|].
  rewrite elem_of_cons. cbn [Pd.index_of]. intros H.
  destruct (decide (c = c')) as [->|Hne]; [by exists 0%nat|].
  destruct H as [->|Hin]; [done|]. destruct (IH Hin) as (i & -> & Hi).
  by exists (Datatypes.S i).
Qed.

Lemma index_of_None (c : string) (cols : list string) :
  c ∉ cols -> Pd.index_of c cols = None.
Proof.
  induction cols as [|c' cols IH]; [done|].
  rewrite not_elem_of_cons. cbn [Pd.index_of]. intros [Hne Hin].
  rewrite decide_False by done. by rewrite IH.
Qed.

Lemma clean_rows_lookup (df : DataFrame) (l : label) :
  l ∈ df_index (CollationEngine.clean_rows df) ->
  Pd.lookup_row l (df_rows (CollationEngine.clean_rows df))
  = Some ((fun c : option Z => Some (default 0 c))
            <$> default (nan_row df) (Pd.lookup_row l (df_rows df))).
Proof.
  intros Hin. rewrite clean_rows_index_perm in Hin.
  rewrite clean_rows_unfold. cbn [df_rows].
  rewrite (lookup_row_perm _ (filled_rows df)).
  - exact (lookup_row_fmap
             (fun l => (fun c : option Z => Some (default 0 c))
                       <$> default (nan_row df) (Pd.lookup_row l (df_rows df)))
             _ l Hin).
  - rewrite merge_sort_Permutation. apply NoDup_filled_rows.
  - apply merge_sort_Permutation.
Qed.

Lemma concat_ok (data : Data) (df : DataFrame) :
  Pd.concat data = Ok df ->
  df = mkDF [None; None] (Pd.concat_columns data)
            (Pd.concat_rows (Pd.concat_columns data) data).
Proof. unfold Pd.concat. destruct data; [done|]. by intros [= <-]. Qed.

(** C6 (amended).  Completeness and gap filling of the row steps.  For
    a raw dataset with distinct T1 keys, the frame after the cross
    product, the zero fill and the row sort has exactly one row for
    every pair of a T1 name that has at least one T2 entry and a T2
    name that occurs under some T1 name; their number is the product of
    the two counts; and every cell of a pair that was never collected,
    or of a column that was not collected under the pair, is 0.  A T1
    name with no T2 entry gets no row. *)
Theorem rows_are_the_cross_product_of_observed_names (data : Data) (df : DataFrame) :
  NoDup (dict_keys data) -> Pd.concat data = Ok df ->
  NoDup (df_index (CollationEngine.clean_rows df))
  /\ (forall a b,
        (a, b) ∈ df_index (CollationEngine.clean_rows df) <->
        (exists v, (a, v) ∈ data /\ v <> [])
        /\ (exists a' v t, (a', v) ∈ data /\ (b, t) ∈ v))
  /\ length (df_rows (CollationEngine.clean_rows df))
     = (length (t1_names data) * length (t2_names data))%nat
  /\ (forall a b c,
        (a, b) ∈ df_index (CollationEngine.clean_rows df) ->
        c ∈ df_columns (CollationEngine.clean_rows df) ->
        raw_cell data a b c = None ->
        Pd.cell (CollationEngine.clean_rows df) (a, b) c = Some 0).
Proof.
  intros Hnd Hdf. apply concat_ok in Hdf.
  assert (Pd.index_unique 0 df = t1_names data) as H1.
  { subst df. unfold Pd.index_unique, df_index, t1_names. cbn [df_rows].
    by rewrite concat_rows_index. }
  assert (Pd.index_unique 1 df = t2_names data) as H2.
  { subst df. unfold Pd.index_unique, df_index, t2_names. cbn [df_rows].
    by rewrite concat_rows_index. }
  pose proof (clean_rows_index_perm df) as Hperm. rewrite H1, H2 in Hperm.
  split; [|split; [|split]].
  - rewrite Hperm. apply NoDup_from_product; apply NoDup_unique.
  - intros a b.
    rewrite Hperm, elem_of_from_product, elem_of_t1_names, elem_of_t2_names. done.
  - transitivity (length (df_index (CollationEngine.clean_rows df))).
    { unfold df_index. by rewrite length_fmap. }
    by rewrite Hperm, length_from_product.
  - intros a b c Hab Hc Hraw. unfold Pd.cell.
    rewrite (clean_rows_lookup df (a, b) Hab). cbn [mbind option_bind].
    rewrite clean_rows_unfold in Hc. cbn [df_columns] in Hc.
    rewrite clean_rows_unfold. cbn [df_columns].
    destruct (index_of_Some c (df_columns df) Hc) as (i & -> & Hi).
    cbn [mbind option_bind]. rewrite list_lookup_fmap.
    subst df. cbn [df_rows df_columns] in *. unfold nan_row. cbn [df_columns].
    rewrite (lookup_concat_rows _ data a b Hnd). unfold raw_cell in Hraw.
    destruct (data_get2 data a b) as [t|].
    + simpl. rewrite list_lookup_fmap, Hi. simpl. by rewrite Hraw.
    + simpl. rewrite lookup_replicate_2; [done|]. by apply lookup_lt_Some in Hi.
Qed.

Lemma rows_are_the_cross_product_of_observed_names_witness :
  NoDup (dict_keys data_gap)
  /\ Pd.concat data_gap = Ok df_gap
  /\ NoDup (df_index (CollationEngine.clean_rows df_gap))
  /\ (forall a b,
        (a, b) ∈ df_index (CollationEngine.clean_rows df_gap) <->
        (exists v, (a, v) ∈ data_gap /\ v <> [])
        /\ (exists a' v t, (a', v) ∈ data_gap /\ (b, t) ∈ v))
  /\ length (df_rows (CollationEngine.clean_rows df_gap))
     = (length (t1_names data_gap) * length (t2_names data_gap))%nat
  /\ (forall a b c,
        (a, b) ∈ df_index (CollationEngine.clean_rows df_gap) ->
        c ∈ df_columns (CollationEngine.clean_rows df_gap) ->
        raw_cell data_gap a b c = None ->
        Pd.cell (CollationEngine.clean_rows df_gap) (a, b) c = Some 0).
Proof.
  assert (NoDup (dict_keys data_gap)) as Hnd
    by (apply (bool_decide_unpack _); vm_compute; exact I).
  assert (Pd.concat data_gap = Ok df_gap) as Hdf by reflexivity.
  split; [exact Hnd|]. split; [exact Hdf|].
  exact (rows_are_the_cross_product_of_observed_names data_gap df_gap Hnd Hdf).
Defined.

(** C6, as stated, fails on the code.  On a page where table 2 under
    the table-1 row B shows the aggregate row only, the run collects a
    raw dataset in which B is a T1 name and X a T2 name, and the frame
    has no row (B, X); it has one row where the cross product has two. *)
Lemma table1_row_without_table2_rows_gets_no_row :
  fst <$> CollationEngine.dataset_loop 1 object_tables ck0 (world_of site_gap [])
  = Some (Ok (data_gap, df_gap))
  /\ Pd.concat data_gap = Ok df_gap
  /\ dict_keys data_gap = ["A"; "B"]
  /\ t2_names data_gap = ["X"]
  /\ df_rows (CollationEngine.clean_rows df_gap) = [(("A", "X"), [Some 3; Some 7])]
  /\ Pd.lookup_row ("B", "X") (df_rows (CollationEngine.clean_rows df_gap)) = None
  /\ length (df_rows (CollationEngine.clean_rows df_gap)) = 1%nat
  /\ (length (dict_keys data_gap) * length (t2_names data_gap))%nat = 2%nat
  /\ CollationEngine.clean_dataset keep_frame ["T1"; "T2"; "T3"] df_gap
     = (Raise TypeError, df_gap).
Proof. vm_compute. done. Qed.

(** ** The Total statement and the whole of [clean_dataset] *)





(** C4 (the code breaks it).  Rows sorted by (T1, T2), columns sorted
    with Total last.  On every frame [clean_dataset] raises [TypeError]
    at the column sort and leaves the frame of the row steps: its rows
    are sorted, its columns are as the traversal met them, and no Total
    column was added.  For a table 3 that lists N before M the columns
    stay N, M. *)
Theorem column_sort_raises_type_error
    (reindex_labels : list string -> DataFrame -> DataFrame)
    (axes : list string) (df : DataFrame) :
  CollationEngine.clean_dataset reindex_labels axes df
  = (Raise TypeError, CollationEngine.clean_rows df)
  /\ Sorted label_le (df_index (CollationEngine.clean_rows df))
  /\ df_columns (CollationEngine.clean_rows df) = df_columns df
  /\ Pd.concat data_nm = Ok df_nm
  /\ df_columns df_nm = ["N"; "M"]
  /\ CollationEngine.clean_dataset reindex_labels axes df_nm = (Raise TypeError, df_nm).
Proof.
  split; [apply clean_dataset_raises|].
  split; [apply clean_rows_sorted|].
  split; [by rewrite clean_rows_unfold|].
  split; [reflexivity|]. split; [reflexivity|].
  rewrite clean_dataset_raises. f_equal.
Qed.

(** C9 (the code breaks it).  Total equals the sum of the data columns.
    For the row with A = 3 and B = 7, [clean_dataset] raises
    [TypeError] before the Total statement and leaves a frame with no
    Total column.  The Total statement on its own gives 10. *)
Theorem total_column_is_never_added
    (reindex_labels : list string -> DataFrame -> DataFrame) (axes : list string) :
  Pd.concat data_ab = Ok df_ab
  /\ CollationEngine.clean_dataset reindex_labels axes df_ab = (Raise TypeError, df_ab)
  /\ Pd.cell df_ab ("T1", "T2") "Total" = None
  /\ Pd.add_total df_ab = df_ab_total
  /\ Pd.cell (Pd.add_total df_ab) ("T1", "T2") "Total" = Some 10.
Proof.
  split; [reflexivity|]. split; [|vm_compute; done].
  rewrite clean_dataset_raises. f_equal.
Qed.

(** C5 (the code breaks it).  Normalisation is idempotent.  The
    normaliser returns no frame to normalise again: on every frame it
    raises [TypeError] at the column sort and leaves the frame of the
    row steps behind, and on that frame it raises [TypeError] again and
    leaves it as it is.  So it is for the frame a run collects on the
    page with the rows A, B and X, Y. *)
Theorem normalisation_raises_on_its_own_result
    (reindex_labels : list string -> DataFrame -> DataFrame)
    (axes : list string) (df : DataFrame) :
  CollationEngine.clean_dataset reindex_labels axes df
  = (Raise TypeError, CollationEngine.clean_rows df)
  /\ CollationEngine.clean_dataset reindex_labels axes (CollationEngine.clean_rows df)
     = (Raise TypeError, CollationEngine.clean_rows df)
  /\ fst <$> CollationEngine.dataset_loop 1 object_tables ck0 (world_of site_2x2 [])
     = Some (Ok (data_2x2, df_2x2))
  /\ CollationEngine.clean_dataset reindex_labels axes df_2x2
     = (Raise TypeError, df_2x2).
Proof.
  split; [apply clean_dataset_raises|].
  split; [by rewrite clean_dataset_raises, clean_rows_idempotent|].
  split; [vm_compute; reflexivity|].
  rewrite clean_dataset_raises. f_equal.
Qed.

(** ** The keys of the collected dataset are distinct *)

Lemma dict_set_keys {V} (k : string) (v : V) (d : Dict V) :
  dict_keys (dict_set k v d)
  = if bool_decide (k ∈ dict_keys d) then dict_keys d else dict_keys d ++ [k].
Proof.
  unfold dict_keys. induction d as [|[k' v'] d IH]; [done|].
  cbn [dict_set]. rewrite !fmap_cons. cbn [fst].
  destruct (decide (k = k')) as [->|Hne].
  - rewrite bool_decide_eq_true_2 by left. done.
  - rewrite fmap_cons, IH. cbn [fst]. case_bool_decide as H1.
    + rewrite bool_decide_eq_true_2 by (by right). done.
    + rewrite bool_decide_eq_false_2; [done|].
      rewrite not_elem_of_cons. done.
Qed.

Lemma dict_set_NoDup {V} (k : string) (v : V) (d : Dict V) :
  NoDup (dict_keys d) -> NoDup (dict_keys (dict_set k v d)).
Proof.
  intros Hnd. rewrite dict_set_keys. case_bool_decide; [done|].
  apply NoDup_app. split; [done|]. split; [|apply NoDup_singleton].
  intros x Hx ->%list_elem_of_singleton. done.
Qed.

Lemma dict_get_set {V} (k k' : string) (v : V) (d : Dict V) :
  dict_get k' (dict_set k v d) = if decide (k' = k) then Some v else dict_get k' d.
Proof.
  induction d as [|[k0 v0] d IH]; cbn [dict_set dict_get].
  - by destruct (decide (k' = k)).
  - destruct (decide (k = k0)) as [->|Hne]; cbn [dict_get].
    + by destruct (decide (k' = k0)).
    + rewrite IH. destruct (decide (k' = k0)) as [->|]; [|done].
      by rewrite decide_False.
Qed.

(** [create_dataset] is the load of the dump followed by the
    traversal. *)
Lemma create_dataset_split (tables : list Table) (ck : Checkpoint) :
  CollationEngine.create_dataset tables ck = load_dump ck ≫= attempt_from tables ck.
Proof. reflexivity. Qed.

Lemma load_dump_spec (ck : Checkpoint) (w : World) :
  match ck_dump_file ck with
  | None => load_dump ck w = (Ok [], w)
  | Some f =>
      match files w !! f with
      | Some d => load_dump ck w = (Ok d, (os_remove f w).2)
      | None => load_dump ck w = (Raise FileNotFoundError, w)
      end
  end.
Proof.
  unfold load_dump. destruct (ck_dump_file ck) as [f|]; [|done].
  unfold mbind, M_bind, json_load. by destruct (files w !! f).
Qed.

Lemma reads_mret {A} (a : A) : reads (mret a : M A).
Proof. by intros w. Qed.

Lemma reads_lift {A} (r : result A) : reads (lift r).
Proof. by intros w. Qed.

Lemma reads_table (tables : list Table) (k : nat) :
  reads (CollationEngine.table tables k).
Proof. intros w. unfold CollationEngine.table. by destruct (tables !! k). Qed.

(** The loops keep an invariant [P] of the dataset, in the result and
    in every dump, and a relation [R] between the worlds, given that
    the clicks and the dumps do. *)
Section attempt.

Variable P : Data -> Prop.
Variable R : World -> World -> Prop.
Variable E : exn -> World -> World -> Prop.

Hypothesis R_refl : forall w, R w w.
Hypothesis R_trans : forall w1 w2 w3, R w1 w2 -> R w2 w3 -> R w1 w3.
Hypothesis E_after : forall e w1 w2 w3, R w1 w2 -> E e w2 w3 -> E e w1 w3.
Hypothesis E_fatal : forall e w,
  match e with DatasetException _ _ _ => True | _ => E e w w end.
Hypothesis click_step : forall index r w, (index < 2)%nat ->
  match Row.click index r w with
  | (Ok _, w') | (Raise StaleElementReferenceException, w') => R w w'
  | (Raise (DatasetException _ _ _), _) => True
  | (Raise e, w') => E e w w'
  end.
Hypothesis read_step : forall w, R w (after_read w).
Hypothesis dump_step : forall f d i j w,
  P d -> Py.open_w f = None -> E (DatasetException f i j) w (json_dump f d w).2.
Hypothesis P_key : forall k d, P d -> k ∉ dict_keys d -> P (dict_set k [] d).
Hypothesis P_pair : forall k1 k2 v d d',
  P d -> data_set2 k1 k2 v d = Ok d' -> P d'.

Lemma sat_bind_at {A B} (Q : A -> Prop) (Q' : B -> Prop) (m : M A)
    (k : A -> M B) (w : World) :
  sat_at R E Q m w -> (forall a, Q a -> sat R E Q' (k a)) ->
  sat_at R E Q' (m ≫= k) w.
Proof.
  unfold sat_at, mbind, M_bind. intros Hm Hk.
  destruct (m w) as [[a|e] w1]; [|done]. destruct Hm as [HR Ha].
  specialize (Hk a Ha w1). unfold sat_at in Hk.
  destruct (k a w1) as [[b|e] w2].
  - destruct Hk as [HR' Hb]. split; [by apply (R_trans _ w1)|done].
  - by apply (E_after _ _ w1).
Qed.

Lemma sat_bind {A B} (Q : A -> Prop) (Q' : B -> Prop) (m : M A) (k : A -> M B) :
  sat R E Q m -> (forall a, Q a -> sat R E Q' (k a)) -> sat R E Q' (m ≫= k).
Proof. intros Hm Hk w. by apply (sat_bind_at Q). Qed.

Lemma sat_mret {A} (Q : A -> Prop) (a : A) : Q a -> sat R E Q (mret a : M A).
Proof. intros Ha w. by split. Qed.

Lemma sat_quiet {A} (m : M A) : quiet m -> reads m -> sat R E (fun _ => True) m.
Proof.
  intros Hq Hr w. unfold sat_at. destruct (Hq w) as (_ & Hd & _).
  specialize (Hr w). destruct (m w) as [[a|e] w1]; simpl in *; subst w1; [done|].
  pose proof (E_fatal e w) as H. by destruct e.
Qed.

(** A table read: the world is as it was, or one scheduled read
    outcome has been used. *)
Lemma sat_rows (t : Table) : sat R E (fun _ => True) (Table.rows t).
Proof.
  intros w. unfold sat_at. destruct (quiet_rows t w) as (_ & Hd & _).
  assert (R w (Table.rows t w).2) as HR
    by (destruct (rows_world t w) as [-> | ->]; [apply R_refl|apply read_step]).
  destruct (Table.rows t w) as [[a|e] w1]; simpl in *; [done|].
  apply (E_after _ _ w1); [done|]. pose proof (E_fatal e w1) as H. by destruct e.
Qed.

Lemma sat_click (index : nat) (r : Row) (f : string) (d : Data)
    (i : nat) (j : option nat) :
  (index < 2)%nat -> P d ->
  sat R E (fun _ => True)
    (try_except_stale (Row.click index r)
       (_ ← json_dump f d; raise (DatasetException f i j))).
Proof.
  intros Hi Hd w. unfold sat_at, try_except_stale.
  pose proof (click_step index r w Hi) as Hc.
  destruct (click_outcomes index r w) as (Hde & _).
  destruct (Row.click index r w) as [[u|e] w1]; simpl in *; [done|].
  destruct e; simpl in *; try done.
  rewrite handler_unfold. destruct (Py.open_w f) as [e|] eqn:Hopen.
  - apply (E_after _ _ w1); [done|]. pose proof (E_fatal e w1) as H.
    by apply open_w_error in Hopen as [-> |[-> | ->]].
  - apply (E_after _ _ w1); [done|]. by apply dump_step.
Qed.

Lemma sat_data_set2 (k1 k2 : string) (v : Dict Z) (data : Data) :
  P data -> sat R E P (lift (data_set2 k1 k2 v data)).
Proof.
  intros Hd w. unfold sat_at, lift.
  destruct (data_set2 k1 k2 v data) as [d'|e] eqn:Hset.
  - split; [done|]. by apply (P_pair k1 k2 v data).
  - unfold data_set2 in Hset. destruct (dict_get k1 data); [done|].
    injection Hset as <-. apply (E_fatal KeyError).
Qed.

Lemma sat_t2_loop (tables : list Table) (t1_name : string) (i : nat)
    (t2_rows : list (nat * Row)) (data : Data) :
  P data -> sat R E P (CollationEngine.t2_loop tables t1_name i t2_rows data).
Proof.
  revert data. induction t2_rows as [|[j t2_row] rest IH]; intros data Hd.
  - by apply sat_mret.
  - cbn [CollationEngine.t2_loop].
    eapply sat_bind; [apply sat_click; [lia|done]|intros _ _].
    eapply sat_bind; [apply sat_quiet; [apply quiet_table|apply reads_table]|intros t3 _].
    eapply sat_bind; [apply sat_rows|intros t3_rows _].
    eapply sat_bind; [by apply sat_data_set2|intros data' Hd'].
    by apply IH.
Qed.

Lemma sat_t1_loop (tables : list Table) (current_t2_row : option nat)
    (t1_rows : list (nat * Row)) (data : Data) :
  P data ->
  sat R E P (CollationEngine.t1_loop tables current_t2_row t1_rows data).
Proof.
  revert data. induction t1_rows as [|[i t1_row] rest IH]; intros data Hd.
  - by apply sat_mret.
  - cbn [CollationEngine.t1_loop].
    assert (P (if bool_decide (row_name t1_row ∈ dict_keys data) then data
               else dict_set (row_name t1_row) [] data)) as Hd1.
    { case_bool_decide; [done|]. by apply P_key. }
    eapply sat_bind; [apply sat_click; [lia|done]|intros _ _].
    eapply sat_bind; [apply sat_quiet; [apply quiet_table|apply reads_table]|intros t2 _].
    eapply sat_bind; [apply sat_rows|intros t2_rows _].
    eapply sat_bind; [by apply sat_t2_loop|intros data' Hd'].
    by apply IH.
Qed.

Lemma sat_attempt_from (tables : list Table) (ck : Checkpoint) (data : Data) :
  P data ->
  sat R E (fun r : Data * DataFrame => P (fst r)) (attempt_from tables ck data).
Proof.
  intros Hd. unfold attempt_from.
  eapply sat_bind; [apply sat_quiet; [apply quiet_table|apply reads_table]|intros t1 _].
  eapply sat_bind; [apply sat_rows|intros t1_rows _].
  eapply sat_bind; [by apply sat_t1_loop|intros data' Hd'].
  eapply sat_bind; [|intros df _; by apply sat_mret].
  apply sat_quiet; [|apply reads_lift].
  apply quiet_lift; unfold Pd.concat; destruct data'; simpl; tauto.
Qed.

End attempt.

(** *** The dataset in the result and in the dumps *)

Section dumps.

Variable P : Data -> Prop.
Hypothesis P_key : forall k d, P d -> k ∉ dict_keys d -> P (dict_set k [] d).
Hypothesis P_pair : forall k1 k2 v d d',
  P d -> data_set2 k1 k2 v d = Ok d' -> P d'.

Lemma attempt_keeps (tables : list Table) (ck : Checkpoint) (data : Data) :
  P data ->
  sat any_step (dump_holds P) (fun r : Data * DataFrame => P (fst r))
      (attempt_from tables ck data).
Proof.
  apply sat_attempt_from; try done.
  - intros e w. by destruct e.
  - intros index r w _. destruct (Row.click index r w) as [[u|e] w1]; [done|].
    by destruct e.
  - intros f d i j w Hd Hopen. exists d. unfold json_dump. rewrite Hopen. simpl.
    by rewrite lookup_insert_eq.
Qed.

Lemma create_dataset_keeps (tables : list Table) (ck : Checkpoint) (w : World) :
  ck_holds P ck w -> (ck_dump_file ck = None -> P []) ->
  sat_at any_step (dump_holds P) (fun r : Data * DataFrame => P (fst r))
         (CollationEngine.create_dataset tables ck) w.
Proof.
  intros Hck Hnil. rewrite create_dataset_split.
  pose proof (load_dump_spec ck w) as Hload.
  unfold sat_at, mbind, M_bind.
  destruct (ck_dump_file ck) as [f|] eqn:Hf.
  - destruct (files w !! f) as [d|] eqn:Hd; rewrite Hload; [|done].
    assert (P d) as HP by (by apply (Hck f)).
    pose proof (attempt_keeps tables ck d HP (os_remove f w).2) as H.
    unfold sat_at in H. by destruct (attempt_from _ _ _ _) as [[r|e] w1].
  - rewrite Hload.
    pose proof (attempt_keeps tables ck [] (Hnil eq_refl) w) as H.
    unfold sat_at in H. by destruct (attempt_from _ _ _ _) as [[r|e] w1].
Qed.

Lemma dataset_loop_keeps (fuel : nat) (tables : list Table) (ck : Checkpoint)
    (w w' : World) (data : Data) (df : DataFrame) :
  ck_holds P ck w -> (ck_dump_file ck = None -> P []) ->
  CollationEngine.dataset_loop fuel tables ck w = Some (Ok (data, df), w') ->
  P data.
Proof.
  revert ck w. induction fuel as [|fuel IH]; intros ck w Hck Hnil; [done|].
  cbn [CollationEngine.dataset_loop].
  pose proof (create_dataset_keeps tables ck w Hck Hnil) as H. unfold sat_at in H.
  destruct (CollationEngine.create_dataset tables ck w) as [[r|e] w1].
  - intros [= -> _]. by destruct H.
  - destruct e; try done. apply IH; [|done].
    destruct H as (d & Hf & Hd). intros f' d' [= <-] Hf'.
    rewrite Hf in Hf'. by injection Hf' as <-.
Qed.

End dumps.

(** Whatever the interruptions, the dataset a run ends with has
    distinct T1 keys. *)
Lemma dataset_loop_NoDup (fuel : nat) (tables : list Table) (ck : Checkpoint)
    (w w' : World) (data : Data) (df : DataFrame) :
  ck_holds (fun d => NoDup (dict_keys d)) ck w ->
  CollationEngine.dataset_loop fuel tables ck w = Some (Ok (data, df), w') ->
  NoDup (dict_keys data).
Proof.
  intros Hck. apply (dataset_loop_keeps (fun d => NoDup (dict_keys d))); try done.
  - intros k d Hd _. by apply dict_set_NoDup.
  - intros k1 k2 v d d' Hd. unfold data_set2. destruct (dict_get k1 d); [|done].
    intros [= <-]. by apply dict_set_NoDup.
  - intros _. constructor.
Qed.

Lemma run_NoDup (fuel : nat) (tables : list Table)
    (w w' : World) (data : Data) (df : DataFrame) :
  CollationEngine.dataset_loop fuel tables ck0 w = Some (Ok (data, df), w') ->
  NoDup (dict_keys data).
Proof. apply dataset_loop_NoDup. intros f d [=]. Qed.

(** ** The run as a whole *)

(** [__init__] never completes: whenever it ends, it ends on an
    exception, the [TypeError] of [clean_dataset] at the latest. *)
Lemma init_never_succeeds (reindex_labels : list string -> DataFrame -> DataFrame)
    (fuel : nat) (url : string) (axes : list string) (w w' : World)
    (r : result (Data * DataFrame)) :
  CollationEngine.init reindex_labels fuel url axes w = Some (r, w') ->
  exists e, r = Raise e.
Proof.
  unfold CollationEngine.init.
  destruct (CollationEngine.webpage_type_of url) as [wt|e];
    [|intros [= <- _]; by exists e].
  destruct (CollationEngine.select_axes wt axes w) as [[tables|e] w1];
    [|intros [= <- _]; by exists e].
  destruct (CollationEngine.dataset_loop fuel tables _ w1) as [[[[data df]|e] w2]|];
    [|intros [= <- _]; by exists e|done].
  rewrite clean_dataset_raises. intros [= <- _]. by exists TypeError.
Qed.

(** * Further properties of the code *)

(** ** The progress-bar label *)

Lemma str_length_app (a b : string) :
  String.length (a +:+ b) = (String.length a + String.length b)%nat.
Proof. induction a as [|c a IH]; simpl; [done|]. by rewrite IH. Qed.

Lemma str_app_assoc (a b c : string) : (a +:+ b) +:+ c = a +:+ (b +:+ c).
Proof.
  induction a as [|x a IH]; [done|].
  change (String x ((a +:+ b) +:+ c) = String x (a +:+ (b +:+ c))). by rewrite IH.
Qed.

Lemma str_take_length (n : nat) (s : string) :
  String.length (Py.str_take n s) = (n `min` String.length s)%nat.
Proof.
  revert s. induction n as [|n IH]; intros [|c s]; simpl; try done.
  by rewrite IH.
Qed.

Lemma str_mul_length (s : string) (n : Z) :
  String.length (Py.str_mul s n) = (Z.to_nat n * String.length s)%nat.
Proof.
  unfold Py.str_mul. induction (Z.to_nat n) as [|k IH]; simpl; [done|].
  by rewrite str_length_app, IH.
Qed.

Lemma shorten_length (text : string) (text_limit : Z)
    (terminator delimiter padding : string) (pad_limit : Z) :
  let cut :=
    if Z.of_nat (String.length text) >? text_limit then
      Py.slice_to (text_limit - 1 - Z.of_nat (String.length terminator)) text
      +:+ terminator +:+ delimiter
    else text in
  String.length (shorten text text_limit terminator delimiter padding pad_limit)
  = (String.length cut + String.length delimiter
     + Z.to_nat (pad_limit - Z.of_nat (String.length cut)) * String.length padding)%nat.
Proof.
  intros cut. unfold shorten. fold cut.
  rewrite !str_length_app, str_mul_length. lia.
Qed.

(** X1.  The label has a fixed width.  When the terminator fits in the
    text limit, the text limit is at most the pad limit, the padding is
    one character and there is no delimiter, [shorten] returns exactly
    [pad_limit] characters for every text, cut or not.  The defaults
    (24, '...', '', ' ', 25) are such arguments: every progress-bar
    label is 25 characters wide. *)
Theorem shorten_fills_pad_limit (text : string) (text_limit : Z)
    (terminator padding : string) (pad_limit : Z) :
  Z.of_nat (String.length terminator) + 1 <= text_limit ->
  text_limit <= pad_limit ->
  String.length padding = 1%nat ->
  Z.of_nat (String.length (shorten text text_limit terminator "" padding pad_limit))
  = pad_limit.
Proof.
  intros Hterm Hlim Hpad. rewrite shorten_length, Hpad. cbn [String.length].
  destruct (Z.gtb_spec (Z.of_nat (String.length text)) text_limit) as [Hlong|Hshort].
  - unfold Py.slice_to.
    destruct (Z.leb_spec 0 (text_limit - 1 - Z.of_nat (String.length terminator)));
      [|lia].
    rewrite !str_length_app, str_take_length. cbn [String.length]. lia.
  - lia.
Qed.

Lemma shorten_fills_pad_limit_witness :
  Z.of_nat (String.length "...") + 1 <= 24
  /\ 24 <= 25
  /\ String.length " " = 1%nat
  /\ Z.of_nat (String.length
                 (shorten "Table 1: Democratic Republic of the Congo" 24 "..." "" " " 25))
     = 25.
Proof.
  split; [vm_compute; discriminate|]. split; [lia|]. split; [reflexivity|].
  apply (shorten_fills_pad_limit "Table 1: Democratic Republic of the Congo"
           24 "..." " " 25); [vm_compute; discriminate|lia|reflexivity].
Defined.

(** X2.  What the default label keeps of the text.  A text of at most
    24 characters is kept whole and padded with spaces; of a longer
    text only the first 20 characters are kept (24 - 1 - 3, not 24),
    followed by the three dots and two spaces. *)
Theorem shorten_default_text (text : string) :
  shorten_default text
  = if bool_decide (String.length text <= 24)%nat
    then text +:+ Py.str_mul " " (25 - Z.of_nat (String.length text))
    else Py.str_take 20 text +:+ "...  ".
Proof.
  unfold shorten_default, shorten.
  destruct (Z.gtb_spec (Z.of_nat (String.length text)) 24) as [Hlong|Hshort].
  - rewrite bool_decide_eq_false_2 by lia.
    change (Py.slice_to (24 - 1 - Z.of_nat (String.length "...")) text)
      with (Py.str_take 20 text).
    rewrite !str_length_app, str_take_length. cbn [String.length].
    replace (20 `min` String.length text + (3 + 0))%nat with 23%nat by lia.
    change (Py.str_mul " " (25 - Z.of_nat 23)) with "  ".
    by rewrite str_app_assoc.
  - rewrite bool_decide_eq_true_2 by lia. reflexivity.
Qed.

(** X3.  The label is never narrower than the pad limit: with a
    padding that is not empty, whatever the other arguments, [shorten]
    returns at least [pad_limit] characters. *)
Theorem shorten_at_least_pad_limit (text : string) (text_limit : Z)
    (terminator delimiter padding : string) (pad_limit : Z) :
  padding <> "" ->
  pad_limit
  <= Z.of_nat (String.length
                 (shorten text text_limit terminator delimiter padding pad_limit)).
Proof.
  intros Hpad. rewrite shorten_length.
  assert (1 <= String.length padding)%nat by (destruct padding; [done|simpl; lia]).
  nia.
Qed.

Lemma shorten_at_least_pad_limit_witness :
  "-=" <> ""
  /\ 10 <= Z.of_nat (String.length (shorten "Mexico" 4 "..." "|" "-=" 10)).
Proof.
  split; [discriminate|].
  apply (shorten_at_least_pad_limit "Mexico" 4 "..." "|" "-=" 10). discriminate.
Defined.

(** ** The arguments of a run *)

(** X4.  The URL check, which comes before any browser action.  A URL
    that [WEBPAGE_TYPES] does not list ends the run with [KeyError]: the
    lookup raises before the branch that would report an unrecognised
    URL.  A listed URL of a type outside the two support lists ends it
    with [ValueError].  A "partially supported" URL passes the check and
    then ends the run with [UnboundLocalError], since
    [AxisMenu.calculate_all] assigns [menus] for the two whole types
    only.  In each of these cases the world is untouched.  Only the
    fully supported URLs get further. *)
Theorem url_stage (reindex_labels : list string -> DataFrame -> DataFrame)
    (fuel : nat) (url : string) (axes : list string) (w : World) :
  match dict_get url WEBPAGE_TYPES with
  | None =>
      CollationEngine.init reindex_labels fuel url axes w = Some (Raise KeyError, w)
  | Some t =>
      if bool_decide (t ∈ FULLY_SUPPORTED_TYPES) then
        CollationEngine.webpage_type_of url = Ok t
      else if bool_decide (t ∈ PARTIALLY_SUPPORTED_TYPES) then
        CollationEngine.init reindex_labels fuel url axes w
        = Some (Raise UnboundLocalError, w)
      else
        CollationEngine.init reindex_labels fuel url axes w
        = Some (Raise ValueError, w)
  end.
Proof.
  unfold CollationEngine.init, CollationEngine.webpage_type_of.
  destruct (dict_get url WEBPAGE_TYPES) as [t|]; [|done].
  case_bool_decide as Hfull; [done|].
  case_bool_decide as Hpart; [|done].
  unfold PARTIALLY_SUPPORTED_TYPES in Hpart.
  apply elem_of_cons in Hpart as [->|Hpart];
    [|apply list_elem_of_singleton in Hpart as ->]; reflexivity.
Qed.

(** ** The axes *)

Lemma comprehension_ok {A B} (f : A -> result B) (l : list A) :
  (forall x, x ∈ l -> exists y, f x = Ok y) -> exists ys, comprehension f l = Ok ys.
Proof.
  induction l as [|x l IH]; intros H; [by exists []|].
  destruct (H x) as [y Hy]; [left|]. destruct IH as [ys Hys].
  { intros x' Hx'. apply H. by right. }
  exists (y :: ys). simpl. by rewrite Hy, Hys.
Qed.

Lemma check_axes_ok (menus : list AxisMenu) (axes : list string) :
  (forall m a, m ∈ menus -> a ∈ axes -> a ∈ AxisMenu.option_names m) ->
  CollationEngine.check_axes menus axes = Ok tt.
Proof.
  intros H. unfold CollationEngine.check_axes.
  destruct (comprehension_ok
              (fun m => comprehension
                          (fun a => if bool_decide (a ∈ AxisMenu.option_names m)
                                    then Ok tt else Raise ValueError) axes) menus)
    as [ys ->]; [|done].
  intros m Hm. apply comprehension_ok. intros a Ha. exists tt.
  case_bool_decide as Hin; [done|]. destruct Hin. by apply H.
Qed.

(** X5.  The check of the axis names accepts exactly the requests in
    which every axis name is an option of every menu, and it raises
    nothing but [ValueError].  It checks neither the number of axes nor
    that they differ: no axis at all is accepted. *)
Theorem check_axes_accepts_iff (menus : list AxisMenu) (axes : list string) :
  (CollationEngine.check_axes menus axes = Ok tt <->
   forall m a, m ∈ menus -> a ∈ axes -> a ∈ AxisMenu.option_names m)
  /\ (CollationEngine.check_axes menus axes = Ok tt
      \/ CollationEngine.check_axes menus axes = Raise ValueError)
  /\ CollationEngine.check_axes menus [] = Ok tt.
Proof.
  split; [split|split].
  - intros Hcheck m a Hm Ha. destruct (decide (a ∈ AxisMenu.option_names m)); [done|].
    by rewrite (check_axes_raise menus axes m a) in Hcheck.
  - apply check_axes_ok.
  - destruct (CollationEngine.check_axes menus axes) as [[]|e] eqn:Hc; [by left|right].
    unfold CollationEngine.check_axes in Hc.
    destruct (comprehension _ menus) as [ys|e'] eqn:Hcomp; [done|].
    injection Hc as <-. f_equal.
    apply comprehension_error in Hcomp; [done|].
    intros m e0. apply comprehension_error. intros a e1. case_bool_decide; congruence.
  - apply check_axes_ok. intros m a _ Ha. by apply elem_of_nil in Ha.
Qed.

Lemma add_clicks_nil (w : World) : add_clicks [] w = w.
Proof. destruct w. unfold add_clicks. simpl. by rewrite app_nil_r. Qed.

Lemma add_clicks_app (evs evs' : list event) (w : World) :
  add_clicks evs' (add_clicks evs w) = add_clicks (evs ++ evs') w.
Proof. unfold add_clicks. simpl. by rewrite app_assoc. Qed.

Lemma filter_option_name (i : nat) (a : string) (ns : list string) :
  a ∈ ns ->
  exists os, List.filter (fun o => bool_decide (opt_name o = a)) (mkOption i <$> ns)
             = mkOption i a :: os.
Proof.
  induction ns as [|n ns IH]; intros Ha; [by apply elem_of_nil in Ha|].
  rewrite fmap_cons. cbn [List.filter opt_name].
  destruct (decide (n = a)) as [->|Hne].
  - rewrite bool_decide_eq_true_2 by done. eauto.
  - rewrite bool_decide_eq_false_2 by done. apply IH.
    by apply elem_of_cons in Ha as [->|Ha].
Qed.

(** [set_to] on a menu of a whole page, for a name the menu offers:
    one click on the menu, one on the option. *)
Lemma set_to_ok (wt : string) (i : nat) (ns : list string) (a : string) (w : World) :
  wt = "link-whole" \/ wt = "object-whole" ->
  site_menus (site w) !! i = Some ns -> a ∈ ns ->
  AxisMenu.set_to (menu_of wt i ns) a w
  = (Ok (menu_of wt i ns), add_clicks [ClickMenu i; ClickOption i a] w).
Proof.
  intros Hwt Hsite Ha. destruct (filter_option_name i a ns Ha) as [os Hos].
  unfold AxisMenu.set_to, menu_of. cbn [menu_webpage_type].
  destruct Hwt as [-> | ->].
  - change (Py.contains "object" "link-whole") with false.
    change (Py.contains "link" "link-whole") with true. cbv iota.
    unfold mbind, M_bind, AxisMenu.click, log, mret, M_ret.
    cbn [menu_options menu_axis_index]. rewrite Hos.
    unfold AxisMenu.option_click, log. cbn [opt_axis opt_name].
    by rewrite add_clicks_app.
  - change (Py.contains "object" "object-whole") with true. cbv iota.
    unfold AxisMenu.calculate_options. cbn [menu_webpage_type menu_axis_index].
    change (Py.contains "object" "object-whole") with true. cbv iota.
    cbv [mbind M_bind AxisMenu.click log AxisMenu.wait_options get_world
         mret M_ret menu_axis_index].
    change (site (add_clicks [ClickMenu i] w)) with (site w).
    rewrite Hsite. destruct ns as [|n ns]; [by apply elem_of_nil in Ha|].
    cbn [menu_options]. unfold raise. rewrite Hos.
    unfold AxisMenu.option_click, log. cbn [opt_axis opt_name].
    by rewrite add_clicks_app.
Qed.

Lemma set_clicks_cons (k : nat) (a : string) (axes : list string) :
  set_clicks k (a :: axes) = [ClickMenu k; ClickOption k a] ++ set_clicks (S k) axes.
Proof. reflexivity. Qed.

Section set_axes.

Variable wt : string.
Variable names : list (list string).
Hypothesis wt_whole : wt = "link-whole" \/ wt = "object-whole".

Lemma body_ok (k : nat) (a : string) (w : World) (rest : list (list string)) :
  site_menus (site w) = names ++ rest ->
  (forall ns, ns ∈ names -> a ∈ ns) ->
  (k < length names)%nat ->
  exists m, set_axis (imap (menu_of wt) names) (k, a) w = (Ok m, add_clicks [ClickMenu k; ClickOption k a] w).
Proof.
  intros Hsite Ha Hk. unfold set_axis. cbn [fst snd].
  destruct (lookup_lt_is_Some_2 names k Hk) as [ns Hns].
  rewrite list_lookup_imap, Hns. cbn [fmap option_fmap option_map].
  exists (menu_of wt k ns). apply set_to_ok; [done| |].
  - rewrite Hsite. by apply lookup_app_l_Some.
  - apply Ha. by apply list_elem_of_lookup_2 in Hns.
Qed.

Lemma for_each_set_to (k : nat) (axes : list string) (w : World)
    (rest : list (list string)) :
  site_menus (site w) = names ++ rest ->
  (forall a ns, a ∈ axes -> ns ∈ names -> a ∈ ns) ->
  (k + length axes <= length names)%nat ->
  exists ms, for_each (set_axis (imap (menu_of wt) names)) (Py.enumerate_from k axes) w
             = (Ok ms, add_clicks (set_clicks k axes) w).
Proof.
  revert k w. induction axes as [|a axes IH]; intros k w Hsite Ha Hlen.
  - exists []. cbn. by rewrite add_clicks_nil.
  - cbn [length] in Hlen.
    destruct (body_ok k a w rest Hsite) as [m Hm]; [|lia|].
    { intros ns Hns. apply (Ha a ns); [left|done]. }
    destruct (IH (S k) (add_clicks [ClickMenu k; ClickOption k a] w)) as [ms Hms];
      [done| |lia|].
    { intros a' ns Ha' Hns. apply Ha; [by right|done]. }
    exists (m :: ms). cbn [Py.enumerate_from for_each]. unfold mbind at 1, M_bind.
    rewrite Hm. unfold mbind, M_bind. rewrite Hms.
    rewrite set_clicks_cons. by rewrite add_clicks_app.
Qed.

Lemma for_each_set_to_overflow (k : nat) (axes : list string) (w : World)
    (rest : list (list string)) :
  site_menus (site w) = names ++ rest ->
  (forall a ns, a ∈ axes -> ns ∈ names -> a ∈ ns) ->
  (k <= length names < k + length axes)%nat ->
  for_each (set_axis (imap (menu_of wt) names)) (Py.enumerate_from k axes) w
  = (Raise IndexError, add_clicks (set_clicks k (take (length names - k) axes)) w).
Proof.
  revert k w. induction axes as [|a axes IH]; intros k w Hsite Ha Hlen.
  - cbn [length] in Hlen. lia.
  - cbn [length] in Hlen. cbn [Py.enumerate_from for_each]. unfold mbind at 1, M_bind.
    destruct (decide (k = length names)) as [->|Hne].
    + unfold set_axis at 1. cbn [fst]. rewrite list_lookup_imap.
      rewrite (lookup_ge_None_2 names) by lia. cbn [fmap option_fmap option_map].
      unfold raise. rewrite Nat.sub_diag. cbn. by rewrite add_clicks_nil.
    + destruct (body_ok k a w rest Hsite) as [m Hm]; [|lia|].
      { intros ns Hns. apply (Ha a ns); [left|done]. }
      rewrite Hm. unfold mbind, M_bind.
      rewrite (IH (S k) (add_clicks [ClickMenu k; ClickOption k a] w)); [|done| |lia].
      2: { intros a' ns Ha' Hns. apply Ha; [by right|done]. }
      replace (length names - k)%nat with (S (length names - S k)) by lia.
      cbn [take]. rewrite set_clicks_cons. by rewrite add_clicks_app.
Qed.

End set_axes.

Lemma option_names_menu_of (wt : string) (i : nat) (ns : list string) :
  AxisMenu.option_names (menu_of wt i ns) = ns.
Proof.
  unfold AxisMenu.option_names, menu_of. cbn [menu_options].
  rewrite <- list_fmap_compose. apply list_fmap_id.
Qed.

Lemma check_axes_menus (wt : string) (axes : list string) (m0 m1 m2 : list string) :
  (forall a, a ∈ axes -> a ∈ m0 /\ a ∈ m1 /\ a ∈ m2) ->
  CollationEngine.check_axes
    [menu_of wt 0 m0; menu_of wt 1 m1; menu_of wt 2 m2] axes = Ok tt.
Proof.
  intros Ha. apply check_axes_ok. intros m a Hm Hin. destruct (Ha a Hin) as (H0 & H1 & H2).
  repeat (apply elem_of_cons in Hm as [->|Hm]; [by rewrite option_names_menu_of|]).
  by apply elem_of_nil in Hm.
Qed.

Lemma axes_in_names (axes : list string) (m0 m1 m2 : list string) :
  (forall a, a ∈ axes -> a ∈ m0 /\ a ∈ m1 /\ a ∈ m2) ->
  forall a ns, a ∈ axes -> ns ∈ [m0; m1; m2] -> a ∈ ns.
Proof.
  intros Ha a ns Hin Hns. destruct (Ha a Hin) as (H0 & H1 & H2).
  repeat (apply elem_of_cons in Hns as [->|Hns]; [done|]). by apply elem_of_nil in Hns.
Qed.

(** X6.  Setting the axes.  On a whole page whose three menus all offer
    every requested name, with at most three names requested, a run
    that finds the tables of the page sets the axes in order: for the
    axis number [i] one click on menu [i] and one on its option of that
    name, and nothing else; it goes on with one table per table element
    of the page.  On an object page these clicks come after the three
    clicks that opened the menus to read them.  Fewer than three names
    are accepted: the remaining menus are left as the page shows them.
    A page that shows no table ends the run with [TimeoutException]
    before any axis is set. *)
Theorem axes_are_set_in_order (w : World) (axes : list string)
    (m0 m1 m2 : list string) (rest : list (list string)) :
  site_menus (site w) = m0 :: m1 :: m2 :: rest ->
  m0 <> [] -> m1 <> [] -> m2 <> [] ->
  (length axes <= 3)%nat ->
  (forall a, a ∈ axes -> a ∈ m0 /\ a ∈ m1 /\ a ∈ m2) ->
  CollationEngine.select_axes "link-whole" axes w
  = match site_tables (site w) with
    | O => (Raise TimeoutException, w)
    | S _ => (Ok (mkTable link <$> seq 0 (site_tables (site w))),
              add_clicks (set_clicks 0 axes) w)
    end
  /\ CollationEngine.select_axes "object-whole" axes w
     = match site_tables (site w) with
       | O => (Raise TimeoutException,
               add_clicks [ClickMenu 0; ClickMenu 1; ClickMenu 2] w)
       | S _ => (Ok (mkTable object <$> seq 0 (site_tables (site w))),
                 add_clicks ([ClickMenu 0; ClickMenu 1; ClickMenu 2]
                             ++ set_clicks 0 axes) w)
       end.
Proof.
  intros Hm H0 H1 H2 Hlen Ha.
  split; unfold CollationEngine.select_axes, mbind at 1, M_bind.
  - rewrite (calculate_all_link w m0 m1 m2 rest) by done.
    unfold mbind at 1, M_bind.
    rewrite (tables_calculate_all "link-whole" link) by (by left).
    destruct (site_tables (site w)) as [|n]; [done|].
    unfold mbind at 1, M_bind, lift.
    rewrite check_axes_menus by done.
    unfold CollationEngine.set_axes, mbind, M_bind.
    destruct (for_each_set_to "link-whole" [m0; m1; m2] (or_introl eq_refl)
                0 axes w rest Hm (axes_in_names axes m0 m1 m2 Ha) Hlen) as [ms Hms].
    change (for_each _ (Py.enumerate axes) w)
      with (for_each (set_axis (imap (menu_of "link-whole") [m0; m1; m2]))
                     (Py.enumerate_from 0 axes) w).
    by rewrite Hms.
  - rewrite (calculate_all_object w m0 m1 m2 rest) by done.
    unfold mbind at 1, M_bind.
    rewrite (tables_calculate_all "object-whole" object) by (by right).
    change (site (add_clicks [ClickMenu 0; ClickMenu 1; ClickMenu 2] w)) with (site w).
    destruct (site_tables (site w)) as [|n]; [done|].
    unfold mbind at 1, M_bind, lift.
    rewrite check_axes_menus by done.
    unfold CollationEngine.set_axes, mbind, M_bind.
    destruct (for_each_set_to "object-whole" [m0; m1; m2] (or_intror eq_refl)
                0 axes (add_clicks [ClickMenu 0; ClickMenu 1; ClickMenu 2] w) rest Hm
                (axes_in_names axes m0 m1 m2 Ha) Hlen) as [ms Hms].
    change (for_each _ (Py.enumerate axes) ?w')
      with (for_each (set_axis (imap (menu_of "object-whole") [m0; m1; m2]))
                     (Py.enumerate_from 0 axes) w').
    rewrite Hms. by rewrite add_clicks_app.
Qed.

Lemma axes_are_set_in_order_witness :
  (length ["Nationality"; "Month"] <= 3)%nat
  /\ (forall a, a ∈ ["Nationality"; "Month"] ->
       a ∈ ["Month"; "Nationality"; "Decision"]
       /\ a ∈ ["Month"; "Nationality"; "Decision"]
       /\ a ∈ ["Month"; "Nationality"; "Decision"])
  /\ CollationEngine.select_axes "link-whole" ["Nationality"; "Month"]
       (world_of site_2x2 [])
     = (Ok (mkTable link <$> [0; 1; 2]%nat),
        add_clicks (set_clicks 0 ["Nationality"; "Month"]) (world_of site_2x2 []))
  /\ CollationEngine.select_axes "object-whole" ["Nationality"; "Month"]
       (world_of site_2x2 [])
     = (Ok (mkTable object <$> [0; 1; 2]%nat),
        add_clicks ([ClickMenu 0; ClickMenu 1; ClickMenu 2]
                    ++ set_clicks 0 ["Nationality"; "Month"]) (world_of site_2x2 [])).
Proof.
  assert (forall a, a ∈ ["Nationality"; "Month"] ->
            a ∈ ["Month"; "Nationality"; "Decision"]
            /\ a ∈ ["Month"; "Nationality"; "Decision"]
            /\ a ∈ ["Month"; "Nationality"; "Decision"]) as Hin.
  { intros a Ha.
    assert (a ∈ ["Month"; "Nationality"; "Decision"]) as H; [|by repeat split].
    apply elem_of_cons in Ha as [->|Ha]; [right; left|].
    apply list_elem_of_singleton in Ha as ->. left. }
  split; [simpl; lia|]. split; [exact Hin|].
  apply (axes_are_set_in_order (world_of site_2x2 []) ["Nationality"; "Month"]
           ["Month"; "Nationality"; "Decision"]
           ["Month"; "Nationality"; "Decision"]
           ["Month"; "Nationality"; "Decision"] []);
    [reflexivity|discriminate|discriminate|discriminate|simpl; lia|exact Hin].
Defined.

(** X7.  The number of axes is not checked.  With more than three
    names, all offered by the three menus, a run that finds the tables
    of the page passes the check of the names, sets the first three
    axes, and then raises [IndexError] on the menu number 3, which does
    not exist.  A page that shows no table ends the run with
    [TimeoutException] before that. *)
Theorem fourth_axis_raises_index_error (w : World) (axes : list string)
    (m0 m1 m2 : list string) (rest : list (list string)) :
  site_menus (site w) = m0 :: m1 :: m2 :: rest ->
  (3 < length axes)%nat ->
  (forall a, a ∈ axes -> a ∈ m0 /\ a ∈ m1 /\ a ∈ m2) ->
  CollationEngine.select_axes "link-whole" axes w
  = match site_tables (site w) with
    | O => (Raise TimeoutException, w)
    | S _ => (Raise IndexError, add_clicks (set_clicks 0 (take 3 axes)) w)
    end
  /\ CollationEngine.select_axes "object-whole" axes w
     = match site_tables (site w) with
       | O => (Raise TimeoutException,
               add_clicks [ClickMenu 0; ClickMenu 1; ClickMenu 2] w)
       | S _ => (Raise IndexError,
                 add_clicks ([ClickMenu 0; ClickMenu 1; ClickMenu 2]
                             ++ set_clicks 0 (take 3 axes)) w)
       end.
Proof.
  intros Hm Hlen Ha.
  assert (m0 <> [] /\ m1 <> [] /\ m2 <> []) as (H0 & H1 & H2).
  { destruct axes as [|a axes]; [simpl in Hlen; lia|].
    destruct (Ha a) as (I0 & I1 & I2); [left|].
    repeat split; intros ->; by eapply elem_of_nil. }
  split; unfold CollationEngine.select_axes, mbind at 1, M_bind.
  - rewrite (calculate_all_link w m0 m1 m2 rest) by done.
    unfold mbind at 1, M_bind.
    rewrite (tables_calculate_all "link-whole" link) by (by left).
    destruct (site_tables (site w)) as [|n]; [done|].
    unfold mbind at 1, M_bind, lift.
    rewrite check_axes_menus by done.
    unfold CollationEngine.set_axes, mbind, M_bind.
    change (for_each _ (Py.enumerate axes) w)
      with (for_each (set_axis (imap (menu_of "link-whole") [m0; m1; m2]))
                     (Py.enumerate_from 0 axes) w).
    rewrite (for_each_set_to_overflow "link-whole" [m0; m1; m2] (or_introl eq_refl)
               0 axes w rest Hm (axes_in_names axes m0 m1 m2 Ha));
      [done|simpl; lia].
  - rewrite (calculate_all_object w m0 m1 m2 rest) by done.
    unfold mbind at 1, M_bind.
    rewrite (tables_calculate_all "object-whole" object) by (by right).
    change (site (add_clicks [ClickMenu 0; ClickMenu 1; ClickMenu 2] w)) with (site w).
    destruct (site_tables (site w)) as [|n]; [done|].
    unfold mbind at 1, M_bind, lift.
    rewrite check_axes_menus by done.
    unfold CollationEngine.set_axes, mbind, M_bind.
    change (for_each _ (Py.enumerate axes) ?w')
      with (for_each (set_axis (imap (menu_of "object-whole") [m0; m1; m2]))
                     (Py.enumerate_from 0 axes) w').
    rewrite (for_each_set_to_overflow "object-whole" [m0; m1; m2] (or_intror eq_refl)
               0 axes (add_clicks [ClickMenu 0; ClickMenu 1; ClickMenu 2] w) rest
               Hm (axes_in_names axes m0 m1 m2 Ha));
      [|simpl; lia].
    by rewrite add_clicks_app.
Qed.

Lemma fourth_axis_raises_index_error_witness :
  (3 < length ["Month"; "Nationality"; "Decision"; "Month"])%nat
  /\ CollationEngine.select_axes "link-whole"
       ["Month"; "Nationality"; "Decision"; "Month"] (world_of site_2x2 [])
     = (Raise IndexError,
        add_clicks (set_clicks 0 (take 3 ["Month"; "Nationality"; "Decision"; "Month"]))
                   (world_of site_2x2 []))
  /\ CollationEngine.select_axes "object-whole"
       ["Month"; "Nationality"; "Decision"; "Month"] (world_of site_2x2 [])
     = (Raise IndexError,
        add_clicks ([ClickMenu 0; ClickMenu 1; ClickMenu 2]
                    ++ set_clicks 0 (take 3 ["Month"; "Nationality"; "Decision"; "Month"]))
                   (world_of site_2x2 [])).
Proof.
  split; [simpl; lia|].
  apply (fourth_axis_raises_index_error (world_of site_2x2 [])
           ["Month"; "Nationality"; "Decision"; "Month"]
           ["Month"; "Nationality"; "Decision"]
           ["Month"; "Nationality"; "Decision"]
           ["Month"; "Nationality"; "Decision"] []); [reflexivity|simpl; lia|].
  intros a Ha.
  assert (a ∈ ["Month"; "Nationality"; "Decision"]) as H; [|by repeat split].
  repeat (apply elem_of_cons in Ha as [->|Ha];
          [first [left|right; left|right; right; left]|]).
  by apply elem_of_nil in Ha.
Defined.

(** ** Reading the menus *)

(** X8.  What the menus need.  On a whole page [AxisMenu.calculate_all]
    succeeds exactly when the page has at least three menus and each of
    the first three has an option; it then returns these three menus
    with the option names the page shows.  A page without any menu
    raises [TimeoutException] and leaves the world as it was. *)
Theorem menus_are_read_iff (wt : string) (w : World) :
  wt = "link-whole" \/ wt = "object-whole" ->
  ((exists menus w', AxisMenu.calculate_all wt w = (Ok menus, w')) <->
   (exists m0 m1 m2 rest,
      site_menus (site w) = m0 :: m1 :: m2 :: rest
      /\ m0 <> [] /\ m1 <> [] /\ m2 <> []))
  /\ (forall menus w', AxisMenu.calculate_all wt w = (Ok menus, w') ->
                       AxisMenu.option_names <$> menus = take 3 (site_menus (site w)))
  /\ (site_menus (site w) = [] ->
      AxisMenu.calculate_all wt w = (Raise TimeoutException, w)).
Proof.
  intros Hwt.
  assert (forall m0 m1 m2 rest,
            site_menus (site w) = m0 :: m1 :: m2 :: rest ->
            m0 <> [] -> m1 <> [] -> m2 <> [] ->
            exists w', AxisMenu.calculate_all wt w
                       = (Ok [menu_of wt 0 m0; menu_of wt 1 m1; menu_of wt 2 m2], w'))
    as Hok.
  { intros m0 m1 m2 rest Hm H0 H1 H2. destruct Hwt as [-> | ->].
    - eexists. by apply (calculate_all_link w m0 m1 m2 rest).
    - eexists. by apply (calculate_all_object w m0 m1 m2 rest). }
  assert ((exists menus w', AxisMenu.calculate_all wt w = (Ok menus, w')) ->
          exists m0 m1 m2 rest,
            site_menus (site w) = m0 :: m1 :: m2 :: rest
            /\ m0 <> [] /\ m1 <> [] /\ m2 <> []) as Hneed.
  { intros (menus & w' & Hrun).
    destruct w as [[ms t1 t2 t3 an nt] s1 s2 os cl fs rm rs]. cbn [site site_menus].
    destruct ms as [|m0 [|m1 [|m2 rest]]];
      [destruct Hwt as [-> | ->]; vm_compute in Hrun; discriminate
      |destruct m0; destruct Hwt as [-> | ->]; vm_compute in Hrun; discriminate
      |destruct m0; destruct m1; destruct Hwt as [-> | ->]; vm_compute in Hrun;
       discriminate|].
    exists m0, m1, m2, rest. split; [done|].
    destruct m0; [destruct Hwt as [-> | ->]; vm_compute in Hrun; discriminate|].
    destruct m1; [destruct Hwt as [-> | ->]; vm_compute in Hrun; discriminate|].
    destruct m2; [destruct Hwt as [-> | ->]; vm_compute in Hrun; discriminate|].
    done. }
  split; [split; [exact Hneed|]|split].
  - intros (m0 & m1 & m2 & rest & Hm & H0 & H1 & H2).
    destruct (Hok m0 m1 m2 rest Hm H0 H1 H2) as [w' Hw']. eauto.
  - intros menus w' Hrun.
    destruct (Hneed (ex_intro _ menus (ex_intro _ w' Hrun)))
      as (m0 & m1 & m2 & rest & Hm & H0 & H1 & H2).
    destruct (Hok m0 m1 m2 rest Hm H0 H1 H2) as [w'' Hw'']. rewrite Hrun in Hw''.
    injection Hw'' as -> _. rewrite Hm. cbn [fmap list_fmap take].
    by rewrite !option_names_menu_of.
  - intros Hnil. destruct w as [[ms t1 t2 t3 an nt] s1 s2 os cl fs rm rs].
    cbn [site site_menus] in Hnil. subst ms.
    destruct Hwt as [-> | ->]; vm_compute; reflexivity.
Qed.

Lemma menus_are_read_iff_witness :
  ("link-whole" = "link-whole" \/ "link-whole" = "object-whole")
  /\ AxisMenu.calculate_all "link-whole" (world_of site_2x2 [])
     = (Ok [menu_of "link-whole" 0 ["Month"; "Nationality"; "Decision"];
            menu_of "link-whole" 1 ["Month"; "Nationality"; "Decision"];
            menu_of "link-whole" 2 ["Month"; "Nationality"; "Decision"]],
        world_of site_2x2 [])
  /\ AxisMenu.option_names
       <$> [menu_of "link-whole" 0 ["Month"; "Nationality"; "Decision"];
            menu_of "link-whole" 1 ["Month"; "Nationality"; "Decision"];
            menu_of "link-whole" 2 ["Month"; "Nationality"; "Decision"]]
     = take 3 (site_menus (site (world_of site_2x2 []))).
Proof.
  assert ("link-whole" = "link-whole" \/ "link-whole" = "object-whole") as Hwt
    by (left; reflexivity).
  assert (AxisMenu.calculate_all "link-whole" (world_of site_2x2 [])
          = (Ok [menu_of "link-whole" 0 ["Month"; "Nationality"; "Decision"];
                 menu_of "link-whole" 1 ["Month"; "Nationality"; "Decision"];
                 menu_of "link-whole" 2 ["Month"; "Nationality"; "Decision"]],
             world_of site_2x2 [])) as Hrun by (vm_compute; reflexivity).
  split; [exact Hwt|]. split; [exact Hrun|].
  exact (proj1 (proj2 (menus_are_read_iff "link-whole" (world_of site_2x2 []) Hwt))
           _ _ Hrun).
Defined.


(** ** Further properties of the rows of a table *)

Lemma comprehension_Forall2 {A B} (f : A -> result B) (l : list A) (ys : list B) :
  comprehension f l = Ok ys -> Forall2 (fun x y => f x = Ok y) l ys.
Proof.
  revert ys. induction l as [|x l IH]; intros ys; simpl.
  - intros [= <-]. constructor.
  - destruct (f x) as [y|e] eqn:Hx; [|done]. simpl.
    destruct (comprehension f l) as [ys'|e]; [|done]. simpl.
    intros [= <-]. constructor; [done|]. by apply IH.
Qed.

(** The rows of [calculate_rows] are the parses of the pairs it zips. *)
Lemma calculate_rows_zip (tt : table_type) (dom : TableDom) (rows : list Row) :
  Table.calculate_rows tt dom = Ok rows ->
  dom_rows dom <> []
  /\ Forall2 (fun (et : Elem * string) r => Row.init (fst et) (snd et) tt = Ok r)
       (Py.zip (Py.slice_from (Z.of_nat (length (dom_rows dom))
                               - Z.of_nat (length (kept_lines dom)))
                              (dom_rows dom))
               (kept_lines dom))
       rows.
Proof.
  unfold Table.calculate_rows, Table.wait_all, kept_lines.
  rewrite keep_text_rows_filter.
  destruct (dom_rows dom) as [|e els] eqn:Hels; [done|].
  cbn [mbind result_bind]. intros H. split; [done|].
  by apply comprehension_Forall2 in H.
Qed.

Lemma row_init_fields (e : Elem) (text : string) (tt : table_type) (r : Row) :
  Row.init e text tt = Ok r -> row_web_element r = e /\ row_table_type r = tt.
Proof. intros (name & v & value & _ & _ & _ & ->)%row_init_ok. done. Qed.

Lemma rows_of_zip (tt : table_type) (es : list Elem) (ts : list string)
    (rows : list Row) :
  Forall2 (fun (et : Elem * string) r => Row.init (fst et) (snd et) tt = Ok r)
          (Py.zip es ts) rows ->
  length rows = (length es `min` length ts)%nat
  /\ row_web_element <$> rows = take (length ts) es
  /\ Forall2 (fun r line => Row.init (row_web_element r) line tt = Ok r)
             rows (take (length es) ts).
Proof.
  unfold Py.zip. revert ts rows. induction es as [|e es IH]; intros ts rows H.
  - cbn in H. apply Forall2_nil_inv_l in H as ->. cbn.
    rewrite take_nil. repeat split. constructor.
  - destruct ts as [|t ts].
    + cbn in H. apply Forall2_nil_inv_l in H as ->. cbn. repeat split. constructor.
    + cbn in H. apply Forall2_cons_inv_l in H as (r & rows' & Hr & Hrows & ->).
      cbn [fst snd] in Hr. destruct (IH ts rows' Hrows) as (Hlen & Hel & Hin).
      destruct (row_init_fields _ _ _ _ Hr) as [He _].
      cbn [length take fmap list_fmap]. rewrite Hlen. split; [done|].
      split; [by rewrite He; f_equal|].
      constructor; [by rewrite He|done].
Qed.

(** X9.  One row per line, aligned from the end.  When the table shows
    at least as many row elements as it has lines that pass the filter,
    a successful read yields exactly one Row per such line, in the
    order of the lines, each the parse of its line; their elements are
    the last elements of the table, whatever the position of the lines
    that were filtered out. *)
Theorem one_row_per_kept_line (tt : table_type) (dom : TableDom) (rows : list Row) :
  (length (kept_lines dom) <= length (dom_rows dom))%nat ->
  Table.calculate_rows tt dom = Ok rows ->
  length rows = length (kept_lines dom)
  /\ row_web_element <$> rows
     = drop (length (dom_rows dom) - length (kept_lines dom)) (dom_rows dom)
  /\ Forall2 (fun r line => Row.init (row_web_element r) line tt = Ok r)
             rows (kept_lines dom).
Proof.
  intros Hlen [_ H]%calculate_rows_zip. revert H. unfold Py.slice_from.
  destruct (Z.leb_spec 0 (Z.of_nat (length (dom_rows dom))
                          - Z.of_nat (length (kept_lines dom)))); [|lia].
  replace (Z.to_nat (Z.of_nat (length (dom_rows dom))
                     - Z.of_nat (length (kept_lines dom))))
    with (length (dom_rows dom) - length (kept_lines dom))%nat by lia.
  intros (Hn & Hel & Hin)%rows_of_zip. rewrite length_drop in Hn, Hin.
  split; [lia|]. split.
  - rewrite Hel. apply take_ge. rewrite length_drop. lia.
  - rewrite take_ge in Hin by lia. done.
Qed.

Lemma one_row_per_kept_line_witness :
  (length (kept_lines (mkTableDom [0; 1; 2; 3]%nat
                         (unlines ["Cuba 7"; "Total 19"; "Mexico 1,212"])))
   <= length (dom_rows (mkTableDom [0; 1; 2; 3]%nat
                          (unlines ["Cuba 7"; "Total 19"; "Mexico 1,212"]))))%nat
  /\ Table.calculate_rows link
       (mkTableDom [0; 1; 2; 3]%nat (unlines ["Cuba 7"; "Total 19"; "Mexico 1,212"]))
     = Ok [mkRow link 2%nat "Cuba" 7; mkRow link 3%nat "Mexico" 1212]
  /\ row_web_element <$> [mkRow link 2%nat "Cuba" 7; mkRow link 3%nat "Mexico" 1212]
     = drop (length (dom_rows (mkTableDom [0; 1; 2; 3]%nat
                                 (unlines ["Cuba 7"; "Total 19"; "Mexico 1,212"])))
             - length (kept_lines (mkTableDom [0; 1; 2; 3]%nat
                                     (unlines ["Cuba 7"; "Total 19"; "Mexico 1,212"]))))
            (dom_rows (mkTableDom [0; 1; 2; 3]%nat
                         (unlines ["Cuba 7"; "Total 19"; "Mexico 1,212"]))).
Proof.
  assert (length (kept_lines (mkTableDom [0; 1; 2; 3]%nat
                                (unlines ["Cuba 7"; "Total 19"; "Mexico 1,212"])))
          <= length (dom_rows (mkTableDom [0; 1; 2; 3]%nat
                                 (unlines ["Cuba 7"; "Total 19"; "Mexico 1,212"]))))%nat
    as Hlen by (vm_compute; lia).
  assert (Table.calculate_rows link
            (mkTableDom [0; 1; 2; 3]%nat (unlines ["Cuba 7"; "Total 19"; "Mexico 1,212"]))
          = Ok [mkRow link 2%nat "Cuba" 7; mkRow link 3%nat "Mexico" 1212]) as Hrows
    by (vm_compute; reflexivity).
  split; [exact Hlen|]. split; [exact Hrows|].
  exact (proj1 (proj2 (one_row_per_kept_line _ _ _ Hlen Hrows))).
Defined.

(** X10.  Too few row elements lose rows without an error.  When the
    table shows fewer row elements than it has lines that pass the
    filter, the difference [d] is negative as a slice start, so only the
    last [d] elements are kept: a successful read yields
    [min d (number of elements)] rows, the parses of the first such
    lines, and the remaining lines are dropped unread. *)
Theorem missing_elements_drop_rows (tt : table_type) (dom : TableDom)
    (rows : list Row) :
  (length (dom_rows dom) < length (kept_lines dom))%nat ->
  Table.calculate_rows tt dom = Ok rows ->
  length rows
  = ((length (kept_lines dom) - length (dom_rows dom)) `min` length (dom_rows dom))%nat
  /\ Forall2 (fun r line => Row.init (row_web_element r) line tt = Ok r)
             rows (take (length rows) (kept_lines dom)).
Proof.
  intros Hlen [_ H]%calculate_rows_zip. revert H. unfold Py.slice_from.
  destruct (Z.leb_spec 0 (Z.of_nat (length (dom_rows dom))
                          - Z.of_nat (length (kept_lines dom)))); [lia|].
  replace (Z.to_nat (- (Z.of_nat (length (dom_rows dom))
                        - Z.of_nat (length (kept_lines dom)))))
    with (length (kept_lines dom) - length (dom_rows dom))%nat by lia.
  intros (Hn & _ & Hin)%rows_of_zip. rewrite length_drop in Hn, Hin.
  assert (length rows
          = ((length (kept_lines dom) - length (dom_rows dom))
               `min` length (dom_rows dom))%nat) as Hrows by lia.
  split; [done|]. rewrite Hrows.
  replace ((length (kept_lines dom) - length (dom_rows dom))
             `min` length (dom_rows dom))%nat
    with (length (dom_rows dom)
          - (length (dom_rows dom)
             - (length (kept_lines dom) - length (dom_rows dom))))%nat by lia.
  done.
Qed.

Lemma missing_elements_drop_rows_witness :
  (length (dom_rows (mkTableDom [0; 1; 2]%nat
                       (unlines ["Cuba 7"; "Haiti 3"; "Mexico 12"; "Peru 5"])))
   < length (kept_lines (mkTableDom [0; 1; 2]%nat
                           (unlines ["Cuba 7"; "Haiti 3"; "Mexico 12"; "Peru 5"]))))%nat
  /\ Table.calculate_rows object
       (mkTableDom [0; 1; 2]%nat (unlines ["Cuba 7"; "Haiti 3"; "Mexico 12"; "Peru 5"]))
     = Ok [mkRow object 2%nat "Cuba" 7]
  /\ length [mkRow object 2%nat "Cuba" 7]
     = ((length (kept_lines (mkTableDom [0; 1; 2]%nat
                               (unlines ["Cuba 7"; "Haiti 3"; "Mexico 12"; "Peru 5"])))
         - length (dom_rows (mkTableDom [0; 1; 2]%nat
                               (unlines ["Cuba 7"; "Haiti 3"; "Mexico 12"; "Peru 5"]))))
          `min` length (dom_rows (mkTableDom [0; 1; 2]%nat
                                    (unlines ["Cuba 7"; "Haiti 3"; "Mexico 12"; "Peru 5"]))))%nat.
Proof.
  assert (length (dom_rows (mkTableDom [0; 1; 2]%nat
                              (unlines ["Cuba 7"; "Haiti 3"; "Mexico 12"; "Peru 5"])))
          < length (kept_lines (mkTableDom [0; 1; 2]%nat
                                  (unlines ["Cuba 7"; "Haiti 3"; "Mexico 12"; "Peru 5"]))))%nat
    as Hlen by (vm_compute; lia).
  assert (Table.calculate_rows object
            (mkTableDom [0; 1; 2]%nat
               (unlines ["Cuba 7"; "Haiti 3"; "Mexico 12"; "Peru 5"]))
          = Ok [mkRow object 2%nat "Cuba" 7]) as Hrows by (vm_compute; reflexivity).
  split; [exact Hlen|]. split; [exact Hrows|].
  exact (proj1 (missing_elements_drop_rows _ _ _ Hlen Hrows)).
Defined.

Lemma contains_prefix (pat a b : string) :
  Py.contains pat (a +:+ b) = false -> Py.contains pat a = false.
Proof.
  intros H. apply not_true_iff_false. intros (x & y & ->)%contains_spec.
  apply not_true_iff_false in H. apply H, contains_spec.
  exists x, (y +:+ b). by rewrite !str_app_assoc.
Qed.

(** X11.  No row is an aggregate.  Every Row of a successful read is
    the parse of a line that passed the filter, carries the table's
    variant, and has a name that contains neither "All" nor "Total". *)
Theorem rows_are_not_aggregates (tt : table_type) (dom : TableDom)
    (rows : list Row) (r : Row) :
  Table.calculate_rows tt dom = Ok rows -> r ∈ rows ->
  (exists line, line ∈ kept_lines dom
                /\ Row.init (row_web_element r) line tt = Ok r)
  /\ row_table_type r = tt
  /\ Py.contains "All" (row_name r) = false
  /\ Py.contains "Total" (row_name r) = false.
Proof.
  intros [_ H]%calculate_rows_zip Hr.
  apply list_elem_of_lookup in Hr as [i Hi].
  destruct (Forall2_lookup_r _ _ _ _ _ H Hi) as ([e line] & Hzip & Hinit).
  cbn [fst snd] in Hinit. destruct (row_init_fields _ _ _ _ Hinit) as [He Htt].
  assert (line ∈ kept_lines dom) as Hline.
  { unfold Py.zip in Hzip.
    apply lookup_zip_with_Some in Hzip as (e' & line' & [= <- <-] & _ & Hl).
    by apply list_elem_of_lookup_2 in Hl. }
  split; [exists line; by rewrite He|]. split; [done|].
  apply row_init_ok in Hinit as (name & v & value & -> & _ & _ & ->).
  cbn [row_name]. unfold kept_lines in Hline.
  apply list_elem_of_In, filter_In in Hline as [_ Hm].
  unfold Table.is_meaningful in Hm.
  apply andb_true_iff in Hm as [Hm HT]. apply andb_true_iff in Hm as [_ HA].
  apply negb_true_iff in HT, HA.
  split; by eapply contains_prefix.
Qed.

Lemma rows_are_not_aggregates_witness :
  Table.calculate_rows link
    (mkTableDom [0; 1; 2; 3]%nat (unlines ["Cuba 7"; "Total 19"; "Mexico 1,212"]))
  = Ok [mkRow link 2%nat "Cuba" 7; mkRow link 3%nat "Mexico" 1212]
  /\ mkRow link 3%nat "Mexico" 1212
     ∈ [mkRow link 2%nat "Cuba" 7; mkRow link 3%nat "Mexico" 1212]
  /\ Py.contains "Total" (row_name (mkRow link 3%nat "Mexico" 1212)) = false.
Proof.
  assert (Table.calculate_rows link
            (mkTableDom [0; 1; 2; 3]%nat (unlines ["Cuba 7"; "Total 19"; "Mexico 1,212"]))
          = Ok [mkRow link 2%nat "Cuba" 7; mkRow link 3%nat "Mexico" 1212]) as Hrows
    by (vm_compute; reflexivity).
  assert (mkRow link 3%nat "Mexico" 1212
          ∈ [mkRow link 2%nat "Cuba" 7; mkRow link 3%nat "Mexico" 1212]) as Hin
    by (right; left).
  split; [exact Hrows|]. split; [exact Hin|].
  exact (proj2 (proj2 (proj2 (rows_are_not_aggregates _ _ _ _ Hrows Hin)))).
Defined.

(** ** Further properties of the dataset *)

Lemma filter_snoc {A} (p : A -> bool) (l : list A) (x : A) :
  List.filter p (l ++ [x]) = List.filter p l ++ (if p x then [x] else []).
Proof. rewrite List.filter_app. reflexivity. Qed.

Lemma unique_snoc (l : list string) (k : string) :
  Pd.unique (l ++ [k])
  = if bool_decide (k ∈ l) then Pd.unique l else Pd.unique l ++ [k].
Proof.
  induction l as [|x l IH]; [done|]. cbn [app Pd.unique]. rewrite IH.
  destruct (decide (k = x)) as [->|Hne].
  - rewrite (bool_decide_eq_true_2 (x ∈ x :: l)) by left.
    case_bool_decide; [done|]. rewrite List.filter_app. cbn [List.filter].
    rewrite bool_decide_eq_true_2 by done. cbn [negb]. by rewrite app_nil_r.
  - case_bool_decide as Hin.
    + rewrite bool_decide_eq_true_2 by (by right). done.
    + rewrite bool_decide_eq_false_2 by (rewrite elem_of_cons; tauto).
      rewrite List.filter_app. cbn [List.filter].
      rewrite bool_decide_eq_false_2 by done. done.
Qed.

Lemma dict_of_rows_snoc (rows : list Row) (r : Row) :
  dict_of_rows (rows ++ [r]) = dict_set (row_name r) (row_value r) (dict_of_rows rows).
Proof. unfold dict_of_rows. by rewrite foldl_app. Qed.

(** X12.  The T3 dictionary of a table read.  Its keys are the distinct
    row names in the order of their first rows; when several rows have
    the same name, the value kept is that of the last one. *)
Theorem dict_of_rows_last_wins (rows : list Row) (k : string) :
  dict_keys (dict_of_rows rows) = Pd.unique (row_name <$> rows)
  /\ dict_get k (dict_of_rows rows)
     = row_value <$> last (List.filter (fun r => bool_decide (row_name r = k)) rows).
Proof.
  induction rows as [|r rows [IHk IHv]] using rev_ind; [done|].
  rewrite dict_of_rows_snoc. split.
  - rewrite dict_set_keys, fmap_app. change (row_name <$> [r]) with [row_name r].
    rewrite unique_snoc, IHk.
    pose proof (elem_of_unique (row_name <$> rows) (row_name r)) as Hiff.
    case_bool_decide as H1; case_bool_decide as H2; tauto.
  - rewrite dict_get_set, filter_snoc, IHv.
    destruct (decide (k = row_name r)) as [->|Hne].
    + rewrite bool_decide_eq_true_2 by done. by rewrite last_snoc.
    + rewrite bool_decide_eq_false_2 by done. by rewrite app_nil_r.
Qed.

(** X13.  A table 1 without rows ends the attempt before any click.
    When no line of table 1 passes the filter and no dump is loaded,
    [create_dataset] raises, and no click has been issued and no file
    written by then.  It raises the [TimeoutException] of a wait when
    the page shows no table or the table shows no row element, the
    [IndexError] of [table_elements[self.index]] when the page shows
    too few tables, the [StaleElementReferenceException] of the read
    when the handle on the table goes stale, and otherwise, when the
    table shows only aggregate or empty lines, the [ValueError] of
    [pd.concat] on an empty dictionary. *)
Theorem table1_without_rows (tables : list Table) (ck : Checkpoint)
    (t : Table) (w : World) :
  tables !! 0%nat = Some t ->
  ck_dump_file ck = None ->
  kept_lines (table_dom w (tab_index t)) = [] ->
  CollationEngine.create_dataset tables ck w
  = match site_tables (site w) with
    | O => (Raise TimeoutException, w)
    | S _ =>
        if bool_decide (tab_index t < site_tables (site w))%nat then
          (Raise (match read_outcomes w with
                  | Stale :: _ => StaleElementReferenceException
                  | _ =>
                      match dom_rows (table_dom w (tab_index t)) with
                      | [] => TimeoutException
                      | _ => ValueError
                      end
                  end), after_read w)
        else (Raise IndexError, w)
    end
  /\ clicks (CollationEngine.create_dataset tables ck w).2 = clicks w
  /\ files (CollationEngine.create_dataset tables ck w).2 = files w.
Proof.
  intros Ht Hck Hkept.
  assert (CollationEngine.create_dataset tables ck w
          = match site_tables (site w) with
            | O => (Raise TimeoutException, w)
            | S _ =>
                if bool_decide (tab_index t < site_tables (site w))%nat then
                  (Raise (match read_outcomes w with
                          | Stale :: _ => StaleElementReferenceException
                          | _ =>
                              match dom_rows (table_dom w (tab_index t)) with
                              | [] => TimeoutException
                              | _ => ValueError
                              end
                          end), after_read w)
                else (Raise IndexError, w)
            end) as Hrun.
  { unfold CollationEngine.create_dataset. rewrite Hck.
    unfold mbind at 1, M_bind. cbn [mret M_ret].
    unfold mbind at 1, M_bind, CollationEngine.table. rewrite Ht. cbn [mret M_ret].
    unfold mbind at 1, M_bind. rewrite rows_unfold.
    destruct (site_tables (site w)) as [|n]; [done|].
    case_bool_decide; [|done].
    assert (Table.calculate_rows (tab_table_type t) (table_dom w (tab_index t))
            = match dom_rows (table_dom w (tab_index t)) with
              | [] => Raise TimeoutException
              | _ => Ok []
              end) as ->.
    { unfold Table.calculate_rows, Table.wait_all. rewrite keep_text_rows_filter.
      fold (kept_lines (table_dom w (tab_index t))). rewrite Hkept.
      destruct (dom_rows (table_dom w (tab_index t))) as [|e els]; [done|].
      cbn [mbind result_bind length Py.zip]. unfold Py.zip. by rewrite zip_with_nil_r. }
    destruct (read_outcomes w) as [|[] os];
      destruct (dom_rows (table_dom w (tab_index t))) as [|e els]; try done;
      destruct (ck_current_t1_row ck); by rewrite ?drop_nil. }
  split; [exact Hrun|]. rewrite Hrun.
  destruct (after_read_world w) as (_ & _ & _ & _ & Hc & Hf & _).
  destruct (site_tables (site w)); [done|]. by case_bool_decide.
Qed.

Lemma table1_without_rows_witness :
  object_tables !! 0%nat = Some (mkTable object 0)
  /\ ck_dump_file ck0 = None
  /\ kept_lines (table_dom
                   (world_of (mkSite [] (mkTableDom [0; 1]%nat (unlines ["All 0"; ""]))
                                (fun _ => mkTableDom [] "")
                                (fun _ _ => mkTableDom [] "") (fun _ _ => true) 3) [])
                   (tab_index (mkTable object 0))) = []
  /\ CollationEngine.create_dataset object_tables ck0
       (world_of (mkSite [] (mkTableDom [0; 1]%nat (unlines ["All 0"; ""]))
                    (fun _ => mkTableDom [] "")
                    (fun _ _ => mkTableDom [] "") (fun _ _ => true) 3) [])
     = (Raise ValueError,
        world_of (mkSite [] (mkTableDom [0; 1]%nat (unlines ["All 0"; ""]))
                    (fun _ => mkTableDom [] "")
                    (fun _ _ => mkTableDom [] "") (fun _ _ => true) 3) []).
Proof.
  split; [reflexivity|]. split; [reflexivity|]. split; [reflexivity|].
  apply (table1_without_rows object_tables ck0 (mkTable object 0)
           (world_of (mkSite [] (mkTableDom [0; 1]%nat (unlines ["All 0"; ""]))
                        (fun _ => mkTableDom [] "")
                        (fun _ _ => mkTableDom [] "") (fun _ _ => true) 3) []));
    reflexivity.
Defined.

(** ** Further properties of the frame *)

Lemma elem_of_concat_columns (data : Data) (c : string) :
  c ∈ Pd.concat_columns data <->
  exists a v b t, (a, v) ∈ data /\ (b, t) ∈ v /\ c ∈ dict_keys t.
Proof.
  unfold Pd.concat_columns. rewrite elem_of_unique, list_elem_of_bind. split.
  - intros (v & Hc & Hv). apply list_elem_of_bind in Hc as (t & Hc & Ht).
    apply list_elem_of_fmap in Hv as ([a v'] & -> & Hv).
    apply list_elem_of_fmap in Ht as ([b t'] & -> & Ht). by exists a, v', b, t'.
  - intros (a & v & b & t & Hv & Ht & Hc). exists v. split.
    + apply list_elem_of_bind. exists t. split; [done|].
      apply list_elem_of_fmap. by exists (b, t).
    + apply list_elem_of_fmap. by exists (a, v).
Qed.

(** X14.  The raw frame.  [pd.concat] refuses an empty dataset with
    [ValueError].  Of any other dataset with distinct T1 names it makes
    a frame with one row per collected (T1, T2) pair, in the order of
    collection, and one column per T3 name collected under some pair,
    none twice.  A cell is NaN exactly where the pair has no such T3
    name; where it has one, the cell holds the collected value, as long
    as that value is within the range a 64-bit float holds exactly. *)
Theorem raw_frame_has_a_row_per_pair (data : Data) (df : DataFrame) :
  NoDup (dict_keys data) -> Pd.concat data = Ok df ->
  data <> []
  /\ df_index df = observed_pairs data
  /\ NoDup (df_columns df)
  /\ (forall c, c ∈ df_columns df <->
                exists a v b t, (a, v) ∈ data /\ (b, t) ∈ v /\ c ∈ dict_keys t)
  /\ forall a b c, c ∈ df_columns df ->
       (Pd.cell df (a, b) c = None <-> raw_cell data a b c = None)
       /\ forall value, raw_cell data a b c = Some value ->
                        Z.abs value <= 2 ^ 53 ->
                        Pd.cell df (a, b) c = Some value.
Proof.
  intros Hnd Hc. split; [by intros ->|].
  apply concat_ok in Hc as ->. cbn [df_columns df_rows].
  split; [apply concat_rows_index|]. split; [apply NoDup_unique|].
  split; [apply elem_of_concat_columns|].
  intros a b c Hcol.
  assert (Pd.cell (mkDF [None; None] (Pd.concat_columns data)
                        (Pd.concat_rows (Pd.concat_columns data) data)) (a, b) c
          = raw_cell data a b c) as ->; [|split; [done|by intros value -> _]].
  unfold Pd.cell, raw_cell. cbn [df_rows df_columns].
  rewrite lookup_concat_rows by done.
  destruct (data_get2 data a b) as [t|]; [|done]. cbn.
  destruct (index_of_Some c _ Hcol) as (i & -> & Hi). cbn.
  rewrite list_lookup_fmap, Hi. done.
Qed.

Lemma raw_frame_has_a_row_per_pair_witness :
  NoDup (dict_keys data_gap)
  /\ Pd.concat data_gap = Ok df_gap
  /\ df_index df_gap = observed_pairs data_gap
  /\ raw_cell data_gap "A" "X" "N" = Some 7
  /\ Pd.cell df_gap ("A", "X") "N" = Some 7.
Proof.
  assert (NoDup (dict_keys data_gap)) as Hnd
    by (apply (bool_decide_unpack _); vm_compute; exact I).
  assert (Pd.concat data_gap = Ok df_gap) as Hc by reflexivity.
  assert ("N" ∈ df_columns df_gap) as Hn by (right; left).
  assert (raw_cell data_gap "A" "X" "N" = Some 7) as Hraw by reflexivity.
  split; [exact Hnd|]. split; [exact Hc|].
  split; [exact (proj1 (proj2 (raw_frame_has_a_row_per_pair _ _ Hnd Hc)))|].
  split; [exact Hraw|].
  apply (proj2 (proj2 (proj2 (proj2 (proj2
           (raw_frame_has_a_row_per_pair _ _ Hnd Hc)))) "A" "X" "N" Hn) 7 Hraw).
  vm_compute. discriminate.
Defined.

Lemma lookup_row_elem {V} (l : label) (rows : list (label * V)) (v : V) :
  Pd.lookup_row l rows = Some v -> (l, v) ∈ rows.
Proof.
  induction rows as [|[l' v'] rows IH]; [done|]. cbn [Pd.lookup_row].
  destruct (decide (l = l')) as [->|]; [intros [= ->]; left|].
  intros H. right. by apply IH.
Qed.


(** X16.  After the zero fill the cast to integers cannot fail: the
    frame of the row steps has no NaN, the Total statement adds none,
    and [astype('int64')] accepts the frame. *)
Theorem cast_after_fill_succeeds (df : DataFrame) :
  (forall r c, r ∈ df_rows (CollationEngine.clean_rows df) -> c ∈ snd r -> c <> None)
  /\ Pd.astype_int64 (CollationEngine.clean_rows df) = Ok (CollationEngine.clean_rows df)
  /\ Pd.astype_int64 (Pd.add_total (CollationEngine.clean_rows df))
     = Ok (Pd.add_total (CollationEngine.clean_rows df)).
Proof.
  assert (forall r c, r ∈ df_rows (CollationEngine.clean_rows df) -> c ∈ snd r ->
                      c <> None) as Hfill.
  { intros r c Hr Hc. rewrite clean_rows_unfold in Hr. cbn [df_rows] in Hr.
    rewrite merge_sort_Permutation in Hr. unfold filled_rows in Hr.
    apply list_elem_of_fmap in Hr as (l & -> & _). unfold fill_row in Hc.
    cbn [snd] in Hc. by apply list_elem_of_fmap in Hc as (c' & -> & _). }
  assert (forall d : DataFrame,
            (forall r c, r ∈ df_rows d -> c ∈ snd r -> c <> None) ->
            Pd.astype_int64 d = Ok d) as Hcast.
  { intros d Hd. unfold Pd.astype_int64.
    replace (forallb _ (df_rows d)) with true; [done|]. symmetry.
    apply forallb_forall. intros r Hr%list_elem_of_In.
    apply forallb_forall. intros c Hc%list_elem_of_In.
    apply bool_decide_eq_true. by apply (Hd r). }
  split; [exact Hfill|]. split; [by apply Hcast|].
  apply Hcast. intros r c Hr Hc.
  unfold Pd.add_total, Pd.set_column in Hr.
  destruct (Pd.index_of "Total" _) as [i|]; cbn [df_rows] in Hr;
    rewrite zip_with_fmap_r, zip_with_diag in Hr;
    apply list_elem_of_fmap in Hr as (r' & -> & Hr'); cbn [snd] in Hc.
  - apply list_elem_of_lookup in Hc as [k Hk].
    destruct (decide (i = k)) as [->|Hne].
    + apply list_lookup_insert_Some in Hk as [(_ & <- & _)|[? _]]; done.
    + rewrite list_lookup_insert_ne in Hk by done.
      apply list_elem_of_lookup_2 in Hk. by apply (Hfill r').
  - apply elem_of_app in Hc as [Hc|Hc]; [by apply (Hfill r')|].
    by apply list_elem_of_singleton in Hc as ->.
Qed.

(** ** Further properties of the traversal *)

Lemma extends_refl (d : Data) : extends d d.
Proof. by split. Qed.

Lemma extends_trans (d1 d2 d3 : Data) :
  extends d1 d2 -> extends d2 d3 -> extends d1 d3.
Proof. intros [H1 H2] [H3 H4]. split; eauto. Qed.

Lemma extends_key (k : string) (d : Data) :
  k ∉ dict_keys d -> extends d (dict_set k [] d).
Proof.
  intros Hk. apply dict_get_None in Hk. split.
  - intros a Ha. rewrite dict_get_set. by destruct (decide (a = k)).
  - intros a b. unfold data_get2. rewrite dict_get_set.
    destruct (decide (a = k)) as [->|]; [|done]. rewrite Hk. by intros [? ?].
Qed.

Lemma extends_pair (k1 k2 : string) (v : Dict Z) (d d' : Data) :
  data_set2 k1 k2 v d = Ok d' -> extends d d'.
Proof.
  unfold data_set2. destruct (dict_get k1 d) as [inner|] eqn:Hk; [|done].
  intros [= <-]. split.
  - intros a Ha. rewrite dict_get_set. by destruct (decide (a = k1)).
  - intros a b. unfold data_get2. rewrite dict_get_set.
    destruct (decide (a = k1)) as [->|]; [|done]. rewrite Hk, dict_get_set.
    by destruct (decide (b = k2)).
Qed.

Lemma clicked_rows_refl (w : World) : clicked_rows w w.
Proof. split; [done|]. exists []. by rewrite app_nil_r. Qed.

Lemma clicked_rows_trans (w1 w2 w3 : World) :
  clicked_rows w1 w2 -> clicked_rows w2 w3 -> clicked_rows w1 w3.
Proof.
  intros [Hs (evs & Hc & Hf)] [Hs' (evs' & Hc' & Hf')]. split; [congruence|].
  exists (evs ++ evs'). split; [by rewrite Hc', Hc, app_assoc|].
  by apply Forall_app.
Qed.

Lemma clicked_rows_click (index : nat) (r : Row) (w : World) :
  (index < 2)%nat -> clicked_rows w (Row.click index r w).2.
Proof.
  intros Hi. destruct (click_world index r w) as (Hs & _ & _ & _ & [Hc|Hc]).
  - split; [done|]. exists []. by rewrite app_nil_r.
  - split; [done|]. exists [ClickRow index (row_web_element r)]. split; [done|].
    apply Forall_singleton. by destruct index as [|[|?]]; [..|lia].
Qed.

Lemma attempt_clicks_rows (tables : list Table) (ck : Checkpoint) (data : Data) :
  sat clicked_rows (fun _ => clicked_rows) (fun _ => True)
      (attempt_from tables ck data).
Proof.
  apply (sat_attempt_from (fun _ => True)); try done.
  - apply clicked_rows_refl.
  - apply clicked_rows_trans.
  - intros e. apply clicked_rows_trans.
  - intros e w. destruct e; try done; apply clicked_rows_refl.
  - intros index r w Hi. pose proof (clicked_rows_click index r w Hi) as H.
    destruct (Row.click index r w) as [[u|e] w1]; [done|]. by destruct e.
  - intros w. destruct (after_read_world w) as (Hs & _ & _ & _ & Hc & _).
    split; [done|]. exists []. by rewrite app_nil_r.
  - intros f d i j w _ Hopen. unfold json_dump. rewrite Hopen.
    split; [done|]. exists []. simpl. by rewrite app_nil_r.
Qed.

Lemma load_dump_world (ck : Checkpoint) (w : World) :
  site (load_dump ck w).2 = site w /\ clicks (load_dump ck w).2 = clicks w.
Proof.
  pose proof (load_dump_spec ck w) as H.
  destruct (ck_dump_file ck) as [f|]; [|by rewrite H].
  destruct (files w !! f); rewrite H; [|done].
  unfold os_remove. by destruct (removable w).
Qed.

Lemma create_dataset_clicks_rows (tables : list Table) (ck : Checkpoint) (w : World) :
  clicked_rows w (CollationEngine.create_dataset tables ck w).2.
Proof.
  rewrite create_dataset_split. unfold mbind, M_bind.
  destruct (load_dump_world ck w) as [Hs Hc].
  destruct (load_dump ck w) as [[d|e] w1]; simpl in *.
  - apply (clicked_rows_trans _ w1).
    + split; [done|]. exists []. by rewrite app_nil_r.
    + pose proof (attempt_clicks_rows tables ck d w1) as H. unfold sat_at in H.
      destruct (attempt_from tables ck d w1) as [[r|e] w2]; [by destruct H|done].
  - split; [done|]. exists []. by rewrite app_nil_r.
Qed.

(** X17.  The traversal clicks nothing but rows of table 1 and of
    table 2: whatever the page, the checkpoint and the interruptions,
    the run only appends row clicks on these two tables to the click
    log.  It never clicks a menu, an option or a row of table 3, and the
    page it works on stays the same. *)
Theorem traversal_clicks_only_rows (fuel : nat) (tables : list Table)
    (ck : Checkpoint) (w w' : World) (r : result (Data * DataFrame)) :
  CollationEngine.dataset_loop fuel tables ck w = Some (r, w') ->
  site w' = site w
  /\ exists evs, clicks w' = clicks w ++ evs /\ Forall is_row_click evs.
Proof.
  revert ck w. induction fuel as [|fuel IH]; intros ck w; [done|].
  cbn [CollationEngine.dataset_loop].
  pose proof (create_dataset_clicks_rows tables ck w) as H1.
  destruct (CollationEngine.create_dataset tables ck w) as [[a|e] w1]; simpl in H1.
  - by intros [= _ <-].
  - destruct e; try by intros [= _ <-].
    intros H. apply IH in H. by apply (clicked_rows_trans _ w1).
Qed.

Lemma traversal_clicks_only_rows_witness :
  CollationEngine.dataset_loop 2 object_tables ck0
    (world_of site_2x2 [Fresh; Fresh; Stale])
  = Some (Ok (data_resumed,
              mkDF [None; None] ["M"]
                [(("A", "X"), [Some 4]); (("A", "Y"), [Some 6]);
                 (("B", "Y"), [Some 15])]),
          mkWorld site_2x2 (Some 2%nat) (Some 2%nat) []
            [ClickRow 0 1; ClickRow 1 1; ClickRow 1 2;
             ClickRow 0 1; ClickRow 1 2; ClickRow 0 2; ClickRow 1 2]%nat ∅ true [])
  /\ exists evs,
       [ClickRow 0 1; ClickRow 1 1; ClickRow 1 2;
        ClickRow 0 1; ClickRow 1 2; ClickRow 0 2; ClickRow 1 2]%nat = [] ++ evs
       /\ Forall is_row_click evs.
Proof.
  assert (CollationEngine.dataset_loop 2 object_tables ck0
            (world_of site_2x2 [Fresh; Fresh; Stale])
          = Some (Ok (data_resumed,
                      mkDF [None; None] ["M"]
                        [(("A", "X"), [Some 4]); (("A", "Y"), [Some 6]);
                         (("B", "Y"), [Some 15])]),
                  mkWorld site_2x2 (Some 2%nat) (Some 2%nat) []
                    [ClickRow 0 1; ClickRow 1 1; ClickRow 1 2;
                     ClickRow 0 1; ClickRow 1 2; ClickRow 0 2; ClickRow 1 2]%nat ∅ true []))
    as Hrun by (vm_compute; reflexivity).
  split; [exact Hrun|].
  exact (proj2 (traversal_clicks_only_rows _ _ _ _ _ _ Hrun)).
Defined.

(** ** Dump files *)

Lemma attempt_one_dump (tables : list Table) (ck : Checkpoint) (data : Data) :
  sat same_files one_dump (fun _ => True) (attempt_from tables ck data).
Proof.
  apply (sat_attempt_from (fun _ => True)); try done.
  - intros w1 w2 w3 [H1 H2] [H3 H4]. split; congruence.
  - intros e w1 w2 w3 [H1 H2] [H3 H4]. split; [congruence|].
    destruct e; try congruence. by rewrite <- H2.
  - intros e w. by destruct e.
  - intros index r w _. destruct (click_world index r w) as (_ & Hf & Hr & _).
    destruct (Row.click index r w) as [[u|e] w1]; [done|]. by destruct e.
  - intros w. by destruct (after_read_world w) as (_ & _ & _ & _ & _ & Hf & Hr & _).
  - intros f d i j w _ Hopen. unfold json_dump. rewrite Hopen.
    split; [done|]. by exists d.
Qed.

(** X18.  A run leaves no dump file behind.  When it starts with no
    file and the disk lets files be removed, no file is left when the
    loop ends, whether it ends with the dataset or with a fatal
    exception: every dump is removed by the attempt that loads it,
    before that attempt collects anything. *)
Theorem run_leaves_no_dump (fuel : nat) (tables : list Table)
    (w w' : World) (r : result (Data * DataFrame)) :
  removable w = true -> files w = ∅ ->
  CollationEngine.dataset_loop fuel tables ck0 w = Some (r, w') ->
  files w' = ∅.
Proof.
  intros Hrm Hfs.
  assert (removable w = true
          /\ match ck_dump_file ck0 with
             | None => files w = ∅
             | Some f => exists d, files w = {[ f := d ]}
             end) as Hinv by done.
  clear Hrm Hfs. revert Hinv. generalize ck0 as ck. revert w.
  induction fuel as [|fuel IH]; intros w ck [Hrm Hck]; [done|].
  cbn [CollationEngine.dataset_loop]. rewrite create_dataset_split.
  unfold mbind, M_bind. pose proof (load_dump_spec ck w) as Hload.
  assert (exists d w1, load_dump ck w = (Ok d, w1)
                       /\ removable w1 = true /\ files w1 = ∅) as (d & w1 & -> & Hrm1 & Hf1).
  { destruct (ck_dump_file ck) as [f|].
    - destruct Hck as (d & Hd). rewrite Hd, lookup_singleton_eq in Hload.
      exists d, (os_remove f w).2. split; [done|]. unfold os_remove. rewrite Hrm.
      simpl. split; [done|]. rewrite Hd. apply delete_singleton_eq.
    - by exists [], w. }
  pose proof (attempt_one_dump tables ck d w1) as H. unfold sat_at in H.
  destruct (attempt_from tables ck d w1) as [[a|e] w2].
  - intros [= _ <-]. destruct H as [[_ H] _]. congruence.
  - destruct H as [Hrm2 H].
    destruct e; try (intros [= _ <-]; congruence).
    apply IH. split; [congruence|]. cbn [ck_dump_file].
    destruct H as (d' & ->). exists d'. by rewrite Hf1, insert_empty.
Qed.

Lemma run_leaves_no_dump_witness :
  removable (world_of site_2x2 [Fresh; Fresh; Stale]) = true
  /\ files (world_of site_2x2 [Fresh; Fresh; Stale]) = ∅
  /\ files (mkWorld site_2x2 (Some 2%nat) (Some 2%nat) []
              [ClickRow 0 1; ClickRow 1 1; ClickRow 1 2;
               ClickRow 0 1; ClickRow 1 2; ClickRow 0 2; ClickRow 1 2]%nat ∅ true []) = ∅.
Proof.
  split; [reflexivity|]. split; [reflexivity|].
  apply (run_leaves_no_dump 2 object_tables
           (world_of site_2x2 [Fresh; Fresh; Stale]) _
           (Ok (data_resumed,
                mkDF [None; None] ["M"]
                  [(("A", "X"), [Some 4]); (("A", "Y"), [Some 6]);
                   (("B", "Y"), [Some 15])]))); [reflexivity|reflexivity|].
  vm_compute. reflexivity.
Defined.

(** X19.  What a dump holds is not lost by the resumed run.  When an
    attempt is interrupted, its dump is on disk, and the dataset the
    resumed run ends with has every T1 name and every (T1, T2) pair of
    that dump, whatever further interruptions follow. *)
Theorem resumed_run_keeps_the_dump (fuel : nat) (tables : list Table)
    (ck : Checkpoint) (w w1 w' : World) (f : string) (i : nat) (j : option nat)
    (data : Data) (df : DataFrame) :
  CollationEngine.create_dataset tables ck w
  = (Raise (DatasetException f i j), w1) ->
  CollationEngine.dataset_loop fuel tables (mkCheckpoint (Some f) (Some i) j) w1
  = Some (Ok (data, df), w') ->
  exists d, files w1 !! f = Some d /\ extends d data.
Proof.
  intros Hfirst Hrest.
  pose proof (create_dataset_keeps (fun _ => True) (fun _ _ _ _ => I)
                (fun _ _ _ _ _ _ _ => I) tables ck w
                (fun _ _ _ _ => I) (fun _ => I)) as H.
  unfold sat_at in H. rewrite Hfirst in H. destruct H as (d & Hf & _).
  exists d. split; [done|].
  apply (dataset_loop_keeps (extends d)) in Hrest; try done.
  - intros k d' Hd' Hk. apply (extends_trans _ d'); [done|by apply extends_key].
  - intros k1 k2 v d1 d2 Hd1 Hset. apply (extends_trans _ d1); [done|].
    by apply (extends_pair k1 k2 v).
  - intros f' d' [= <-] Hf'. rewrite Hf in Hf'. injection Hf' as <-.
    apply extends_refl.
Qed.

Lemma resumed_run_keeps_the_dump_witness :
  CollationEngine.create_dataset object_tables ck0
    (world_of site_2x2 [Fresh; Fresh; Stale])
  = (Raise (DatasetException "data-up-to_T1-A_T2-Y.json" 0 (Some 1%nat)),
     mkWorld site_2x2 (Some 1%nat) (Some 1%nat) []
       [ClickRow 0 1; ClickRow 1 1; ClickRow 1 2]%nat
       {[ "data-up-to_T1-A_T2-Y.json" := [("A", [("X", [("M", 4)])])] ]} true [])
  /\ exists d,
       ({[ "data-up-to_T1-A_T2-Y.json" := [("A", [("X", [("M", 4)])])] ]}
          : gmap string Data) !! "data-up-to_T1-A_T2-Y.json" = Some d
       /\ extends d data_resumed.
Proof.
  assert (CollationEngine.create_dataset object_tables ck0
            (world_of site_2x2 [Fresh; Fresh; Stale])
          = (Raise (DatasetException "data-up-to_T1-A_T2-Y.json" 0 (Some 1%nat)),
             mkWorld site_2x2 (Some 1%nat) (Some 1%nat) []
               [ClickRow 0 1; ClickRow 1 1; ClickRow 1 2]%nat
               {[ "data-up-to_T1-A_T2-Y.json" := [("A", [("X", [("M", 4)])])] ]} true []))
    as Hfirst by (vm_compute; reflexivity).
  split; [exact Hfirst|].
  refine (resumed_run_keeps_the_dump 1 object_tables ck0 _ _
            (mkWorld site_2x2 (Some 2%nat) (Some 2%nat) []
               [ClickRow 0 1; ClickRow 1 1; ClickRow 1 2;
                ClickRow 0 1; ClickRow 1 2; ClickRow 0 2; ClickRow 1 2]%nat ∅ true [])
            _ _ _ data_resumed
            (mkDF [None; None] ["M"]
               [(("A", "X"), [Some 4]); (("A", "Y"), [Some 6]);
                (("B", "Y"), [Some 15])]) Hfirst _).
  vm_compute. reflexivity.
Defined.

(** ** The indices of a checkpoint *)

Lemma bind_raise_inv {A B} (m : M A) (k : A -> M B) (w w' : World) (e : exn) :
  (m ≫= k) w = (Raise e, w') ->
  m w = (Raise e, w') \/ exists a w1, m w = (Ok a, w1) /\ k a w1 = (Raise e, w').
Proof.
  unfold mbind, M_bind. destruct (m w) as [[a|e'] w1]; intros H.
  - right. by exists a, w1.
  - injection H as <- <-. by left.
Qed.

Lemma quiet_no_dataset_exception {A} (m : M A) (w w' : World)
    (f : string) (i : nat) (j : option nat) :
  quiet m -> m w <> (Raise (DatasetException f i j), w').
Proof. intros Hq H. destruct (Hq w) as (_ & Hd & _). rewrite H in Hd. by apply Hd. Qed.

(** The [DatasetException] of a handler carries what the handler was
    given, and its dump could be opened. *)
Lemma handler_raise (f f' : string) (d : Data) (i i' : nat) (j j' : option nat)
    (w w' : World) :
  ((_ ← json_dump f d; raise (DatasetException f i j)) : M unit) w
  = (Raise (DatasetException f' i' j'), w') ->
  f' = f /\ i' = i /\ j' = j /\ Py.open_w f = None /\ w' = (json_dump f d w).2.
Proof.
  rewrite handler_unfold. destruct (Py.open_w f) as [e|] eqn:Hopen.
  - apply open_w_error in Hopen as [-> |[-> | ->]]; discriminate.
  - by intros [= <- <- <- <-].
Qed.

Lemma click_raise (index : nat) (r : Row) (h : M unit) (w w' : World)
    (f : string) (i : nat) (j : option nat) :
  try_except_stale (Row.click index r) h w = (Raise (DatasetException f i j), w') ->
  exists w1, h w1 = (Raise (DatasetException f i j), w').
Proof.
  unfold try_except_stale. destruct (click_outcomes index r w) as (Hd & _).
  destruct (Row.click index r w) as [[u|e] w1]; simpl in Hd; [done|].
  destruct e; try done; try (by destruct Hd).
  intros H. by exists w1.
Qed.

Lemma t2_loop_raise (tables : list Table) (t1_name : string) (i : nat)
    (t2_rows : list (nat * Row)) (data : Data) (w w' : World)
    (f : string) (i' : nat) (j : option nat) :
  CollationEngine.t2_loop tables t1_name i t2_rows data w
  = (Raise (DatasetException f i' j), w') ->
  i' = i /\ exists t2_name, f = CollationEngine.dump_name_t2 t1_name t2_name.
Proof.
  revert data w. induction t2_rows as [|[j0 t2_row] rest IH]; intros data w; [done|].
  cbn [CollationEngine.t2_loop].
  intros [H|(_ & w1 & _ & H)]%bind_raise_inv.
  { apply click_raise in H as [w1 H]. apply handler_raise in H as (-> & -> & _).
    split; [done|]. by exists (row_name t2_row). }
  apply bind_raise_inv in H as [H|(t3 & w2 & _ & H)];
    [by apply quiet_no_dataset_exception in H; [|apply quiet_table]|].
  apply bind_raise_inv in H as [H|(t3_rows & w3 & _ & H)];
    [by apply quiet_no_dataset_exception in H; [|apply quiet_rows]|].
  apply bind_raise_inv in H as [H|(data' & w4 & _ & H)];
    [by apply quiet_no_dataset_exception in H; [|apply quiet_data_set2]|].
  by apply IH in H.
Qed.

Lemma t1_loop_raise (tables : list Table) (current_t2_row : option nat)
    (k : nat) (t1_rows : list Row) (data : Data) (w w' : World)
    (f : string) (i : nat) (j : option nat) :
  CollationEngine.t1_loop tables current_t2_row (Py.enumerate_from k t1_rows) data w
  = (Raise (DatasetException f i j), w') ->
  (k <= i)%nat
  /\ exists r, t1_rows !! (i - k)%nat = Some r
               /\ (f = CollationEngine.dump_name_t1 (row_name r)
                   \/ exists t2_name,
                        f = CollationEngine.dump_name_t2 (row_name r) t2_name).
Proof.
  revert k data w. induction t1_rows as [|t1_row rest IH]; intros k data w; [done|].
  cbn [Py.enumerate_from CollationEngine.t1_loop].
  intros [H|(_ & w1 & _ & H)]%bind_raise_inv.
  { apply click_raise in H as [w1 H]. apply handler_raise in H as (-> & -> & _).
    split; [done|]. exists t1_row.
    rewrite Nat.sub_diag. split; [done|by left]. }
  apply bind_raise_inv in H as [H|(t2 & w2 & _ & H)];
    [by apply quiet_no_dataset_exception in H; [|apply quiet_table]|].
  apply bind_raise_inv in H as [H|(t2_rows & w3 & _ & H)];
    [by apply quiet_no_dataset_exception in H; [|apply quiet_rows]|].
  apply bind_raise_inv in H as [H|(data' & w4 & _ & H)].
  { apply t2_loop_raise in H as [-> [t2_name ->]]. split; [done|]. exists t1_row.
    rewrite Nat.sub_diag. split; [done|right; by exists t2_name]. }
  apply IH in H as (Hk & r & Hr & Hf). split; [lia|]. exists r. split; [|done].
  replace (i - k)%nat with (S (i - S k)) by lia. done.
Qed.

Lemma rows_same_page (t : Table) (w w1 : World) :
  site w1 = site w -> sel1 w1 = sel1 w -> sel2 w1 = sel2 w ->
  read_outcomes w1 = read_outcomes w ->
  (Table.rows t w1).1 = (Table.rows t w).1.
Proof.
  intros Hs H1 H2 Hr. rewrite !rows_unfold. unfold table_dom. rewrite Hs, H1, H2, Hr.
  destruct (site_tables (site w)); [done|]. by case_bool_decide.
Qed.

Lemma load_dump_page (ck : Checkpoint) (w : World) :
  site (load_dump ck w).2 = site w
  /\ sel1 (load_dump ck w).2 = sel1 w /\ sel2 (load_dump ck w).2 = sel2 w
  /\ read_outcomes (load_dump ck w).2 = read_outcomes w.
Proof.
  pose proof (load_dump_spec ck w) as H.
  destruct (ck_dump_file ck) as [f|]; [|by rewrite H].
  destruct (files w !! f); rewrite H; [|done].
  unfold os_remove. by destruct (removable w).
Qed.

(** X20.  The row index of a checkpoint counts from the resume point.
    When an attempt that resumed at the table-1 row [i0] is interrupted,
    the [DatasetException] carries the position [i] of the interrupted
    row in the list the attempt iterated over, which is the list after
    the slice: the row is row [i0 + i] of table 1, and the dump is named
    after it.  (The next attempt slices the full list at [i].) *)
Theorem checkpoint_index_counts_from_resume (tables : list Table) (ck : Checkpoint)
    (t : Table) (t1_rows : list Row) (w w' : World)
    (f : string) (i : nat) (j : option nat) :
  tables !! 0%nat = Some t ->
  (Table.rows t w).1 = Ok t1_rows ->
  CollationEngine.create_dataset tables ck w = (Raise (DatasetException f i j), w') ->
  exists r, t1_rows !! (default 0%nat (ck_current_t1_row ck) + i)%nat = Some r
            /\ (f = CollationEngine.dump_name_t1 (row_name r)
                \/ exists t2_name,
                     f = CollationEngine.dump_name_t2 (row_name r) t2_name).
Proof.
  intros Ht Hrows. rewrite create_dataset_split.
  intros [H|(d & w1 & Hload & H)]%bind_raise_inv.
  { pose proof (load_dump_spec ck w) as Hl.
    destruct (ck_dump_file ck) as [f'|]; [|congruence].
    destruct (files w !! f'); congruence. }
  assert ((Table.rows t w1).1 = Ok t1_rows) as Hrows1.
  { rewrite <- Hrows. destruct (load_dump_page ck w) as (Hs & H1 & H2 & Hr).
    rewrite Hload in Hs, H1, H2, Hr. by apply rows_same_page. }
  unfold attempt_from in H.
  apply bind_raise_inv in H as [H|(t' & w2 & Ht' & H)];
    [by apply quiet_no_dataset_exception in H; [|apply quiet_table]|].
  unfold CollationEngine.table in Ht'. rewrite Ht in Ht'. injection Ht' as <- <-.
  apply bind_raise_inv in H as [H|(rows & w3 & Hr & H)];
    [by apply quiet_no_dataset_exception in H; [|apply quiet_rows]|].
  rewrite Hr in Hrows1. injection Hrows1 as ->.
  apply bind_raise_inv in H as [H|(data' & w4 & _ & H)].
  - apply t1_loop_raise in H as (_ & r & Hr' & Hf). exists r. split; [|done].
    rewrite Nat.sub_0_r in Hr'.
    destruct (ck_current_t1_row ck) as [i0|]; cbn [default].
    + by rewrite lookup_drop in Hr'.
    + done.
  - apply bind_raise_inv in H as [H|(df & w5 & _ & H)]; [|done].
    apply quiet_no_dataset_exception in H; [done|].
    apply quiet_lift; unfold Pd.concat; destruct data'; simpl; tauto.
Qed.

Lemma checkpoint_index_counts_from_resume_witness :
  object_tables !! 0%nat = Some (mkTable object 0)
  /\ (Table.rows (mkTable object 0)
        (mkWorld site_2x2 None None [Fresh; Stale] []
                 {[ dump_A := [("A", [])] ]} true [])).1
     = Ok [mkRow object 1%nat "A" 10; mkRow object 2%nat "B" 20]
  /\ CollationEngine.create_dataset object_tables
       (mkCheckpoint (Some dump_A) (Some 1%nat) None)
       (mkWorld site_2x2 None None [Fresh; Stale] [] {[ dump_A := [("A", [])] ]} true [])
     = (Raise (DatasetException "data-up-to_T1-B_T2-X.json" 0 (Some 0%nat)),
        mkWorld site_2x2 (Some 2%nat) None [] [ClickRow 0 2%nat; ClickRow 1 1%nat]
          {[ "data-up-to_T1-B_T2-X.json" := [("A", []); ("B", [])] ]} true [])
  /\ exists r,
       [mkRow object 1%nat "A" 10; mkRow object 2%nat "B" 20]
         !! (default 0%nat
               (ck_current_t1_row (mkCheckpoint (Some dump_A) (Some 1%nat) None)) + 0)%nat
       = Some r
       /\ ("data-up-to_T1-B_T2-X.json" = CollationEngine.dump_name_t1 (row_name r)
           \/ exists t2_name,
                "data-up-to_T1-B_T2-X.json"
                = CollationEngine.dump_name_t2 (row_name r) t2_name).
Proof.
  assert (object_tables !! 0%nat = Some (mkTable object 0)) as Ht by reflexivity.
  assert ((Table.rows (mkTable object 0)
             (mkWorld site_2x2 None None [Fresh; Stale] []
                      {[ dump_A := [("A", [])] ]} true [])).1
          = Ok [mkRow object 1%nat "A" 10; mkRow object 2%nat "B" 20]) as Hrows
    by (vm_compute; reflexivity).
  assert (CollationEngine.create_dataset object_tables
            (mkCheckpoint (Some dump_A) (Some 1%nat) None)
            (mkWorld site_2x2 None None [Fresh; Stale] []
                     {[ dump_A := [("A", [])] ]} true [])
          = (Raise (DatasetException "data-up-to_T1-B_T2-X.json" 0 (Some 0%nat)),
             mkWorld site_2x2 (Some 2%nat) None [] [ClickRow 0 2%nat; ClickRow 1 1%nat]
               {[ "data-up-to_T1-B_T2-X.json" := [("A", []); ("B", [])] ]} true []))
    as Hrun by (vm_compute; reflexivity).
  split; [exact Ht|]. split; [exact Hrows|]. split; [exact Hrun|].
  exact (checkpoint_index_counts_from_resume _ _ _ _ _ _ _ _ _ Ht Hrows Hrun).
Defined.


(** ** A dump that cannot be removed *)

Lemma agree_bind {A B} (m : M A) (k : A -> M B) :
  agree m -> (forall a, agree (k a)) -> agree (m ≫= k).
Proof.
  intros Hm Hk w1 w2 Hw. unfold mbind, M_bind.
  destruct (Hm w1 w2 Hw) as (Hr & Hp & Hd).
  destruct (m w1) as [[a|e] w1'], (m w2) as [[a'|e'] w2']; simpl in *; try done.
  - injection Hr as <-. by apply Hk.
  - by injection Hr as <-.
Qed.

Lemma agree_quiet_page {A} (m : M A) :
  quiet m -> reads m ->
  (forall w1 w2, same_page w1 w2 -> (m w1).1 = (m w2).1) -> agree m.
Proof.
  intros Hq Hr Hsame w1 w2 Hw. split; [by apply Hsame|].
  rewrite (Hr w1), (Hr w2). split; [done|].
  destruct (Hq w1) as (_ & Hd & _). destruct (m w1).1 as [a|e]; [done|]. by destruct e.
Qed.

Lemma agree_mret {A} (a : A) : agree (mret a : M A).
Proof. apply agree_quiet_page; [apply quiet_mret|apply reads_mret|done]. Qed.

Lemma agree_table (tables : list Table) (k : nat) :
  agree (CollationEngine.table tables k).
Proof.
  apply agree_quiet_page; [apply quiet_table|apply reads_table|].
  intros w1 w2 _. unfold CollationEngine.table. by destruct (tables !! k).
Qed.

Lemma agree_rows (t : Table) : agree (Table.rows t).
Proof.
  intros w1 w2 Hw. pose proof Hw as (Hs & H1 & H2 & Ho & Hc & Hr).
  split; [by apply rows_same_page|]. split.
  - rewrite !rows_unfold, Hs.
    destruct (after_read_world w1) as (Hs1 & H11 & H21 & Ho1 & Hc1 & _ & _ & Hr1).
    destruct (after_read_world w2) as (Hs2 & H12 & H22 & Ho2 & Hc2 & _ & _ & Hr2).
    destruct (site_tables (site w2)); [done|]. case_bool_decide; [|done].
    cbn [snd]. unfold same_page. rewrite Hr1, Hr2. repeat split; congruence.
  - destruct (quiet_rows t w1) as (_ & Hd & _).
    destruct (Table.rows t w1).1 as [a|e]; [done|]. by destruct e.
Qed.

Lemma agree_lift {A} (r : result A) :
  ~ is_stale r -> ~ is_dataset_exception r -> agree (lift r).
Proof. intros Hs Hd. apply agree_quiet_page; [by apply quiet_lift|apply reads_lift|done]. Qed.

Lemma click_same_page (index : nat) (r : Row) (w1 w2 : World) :
  same_page w1 w2 ->
  (Row.click index r w1).1 = (Row.click index r w2).1
  /\ same_page (Row.click index r w1).2 (Row.click index r w2).2.
Proof.
  intros (Hs & H1 & H2 & Ho & Hc & Hr).
  unfold Row.click, mbind, M_bind, get_world, log, next_outcome, select, raise,
    add_clicks, same_page.
  destruct (row_table_type r); simpl; rewrite <- ?Hs, <- Ho.
  - destruct (outcomes w1) as [|[] os] eqn:Ho1; simpl;
      destruct index as [|[|?]]; simpl; rewrite ?Hc; repeat split; congruence.
  - destruct (outcomes w1) as [|[] os] eqn:Ho1; simpl;
      try destruct (site_anchor _ _ _); simpl;
      destruct index as [|[|?]]; simpl; rewrite ?Hc; repeat split; congruence.
Qed.

Lemma agree_click (index : nat) (r : Row) (f : string) (d : Data)
    (i : nat) (j : option nat) :
  agree (try_except_stale (Row.click index r)
           (_ ← json_dump f d; raise (DatasetException f i j))).
Proof.
  intros w1 w2 Hw. unfold try_except_stale.
  destruct (click_same_page index r w1 w2 Hw) as [Hr Hp].
  destruct (click_outcomes index r w1) as (Hde & _).
  destruct (Row.click index r w1) as [[u|e] w1'], (Row.click index r w2) as [[u'|e'] w2'];
    simpl in *; try done.
  injection Hr as <-. destruct e; simpl in *; try done.
  rewrite !handler_unfold. destruct (Py.open_w f) as [e|] eqn:Hopen.
  - split; [done|]. split; [done|].
    by apply open_w_error in Hopen as [-> |[-> | ->]].
  - unfold json_dump. rewrite Hopen. cbn [fst snd].
    split; [done|]. split; [done|]. exists d. simpl. by rewrite !lookup_insert_eq.
Qed.

Lemma agree_t2_loop (tables : list Table) (t1_name : string) (i : nat)
    (t2_rows : list (nat * Row)) (data : Data) :
  agree (CollationEngine.t2_loop tables t1_name i t2_rows data).
Proof.
  revert data. induction t2_rows as [|[j t2_row] rest IH]; intros data.
  - apply agree_mret.
  - cbn [CollationEngine.t2_loop].
    apply agree_bind; [apply agree_click|intros _].
    apply agree_bind; [apply agree_table|intros t3].
    apply agree_bind; [apply agree_rows|intros t3_rows].
    apply agree_bind; [|intros data'; apply IH].
    apply agree_lift; unfold data_set2; destruct (dict_get t1_name data); simpl; tauto.
Qed.

Lemma agree_t1_loop (tables : list Table) (current_t2_row : option nat)
    (t1_rows : list (nat * Row)) (data : Data) :
  agree (CollationEngine.t1_loop tables current_t2_row t1_rows data).
Proof.
  revert data. induction t1_rows as [|[i t1_row] rest IH]; intros data.
  - apply agree_mret.
  - cbn [CollationEngine.t1_loop].
    apply agree_bind; [apply agree_click|intros _].
    apply agree_bind; [apply agree_table|intros t2].
    apply agree_bind; [apply agree_rows|intros t2_rows].
    apply agree_bind; [apply agree_t2_loop|intros data'; apply IH].
Qed.

Lemma agree_attempt_from (tables : list Table) (ck : Checkpoint) (data : Data) :
  agree (attempt_from tables ck data).
Proof.
  unfold attempt_from.
  apply agree_bind; [apply agree_table|intros t1].
  apply agree_bind; [apply agree_rows|intros t1_rows].
  apply agree_bind; [apply agree_t1_loop|intros data'].
  apply agree_bind; [|intros df; apply agree_mret].
  apply agree_lift; unfold Pd.concat; destruct data'; simpl; tauto.
Qed.

Lemma load_dump_same_page (ck : Checkpoint) (w1 w2 : World) :
  same_page w1 w2 ->
  (forall f, ck_dump_file ck = Some f -> files w1 !! f = files w2 !! f) ->
  (load_dump ck w1).1 = (load_dump ck w2).1
  /\ same_page (load_dump ck w1).2 (load_dump ck w2).2.
Proof.
  intros Hw Hf. pose proof (load_dump_spec ck w1) as H1.
  pose proof (load_dump_spec ck w2) as H2.
  destruct (ck_dump_file ck) as [f|]; [|by rewrite H1, H2].
  rewrite <- (Hf f eq_refl) in H2.
  destruct (files w1 !! f); rewrite H1, H2; [|done]. split; [done|].
  unfold os_remove, same_page in *. by destruct (removable w1), (removable w2).
Qed.

(** X21.  A dump that cannot be removed changes nothing.  Two runs on
    the same page in the same state, which find the same dump under
    the name of their checkpoint, end with the same outcome and have
    issued the same clicks, whatever other files they find and whether
    or not the disk lets them remove their dumps: a refused removal is
    only reported. *)
Theorem unremovable_dump_changes_nothing (fuel : nat) (tables : list Table)
    (ck : Checkpoint) (w1 w2 : World) :
  same_page w1 w2 ->
  (forall f, ck_dump_file ck = Some f -> files w1 !! f = files w2 !! f) ->
  (fun rw : result (Data * DataFrame) * World => (fst rw, clicks (snd rw)))
    <$> CollationEngine.dataset_loop fuel tables ck w1
  = (fun rw : result (Data * DataFrame) * World => (fst rw, clicks (snd rw)))
      <$> CollationEngine.dataset_loop fuel tables ck w2.
Proof.
  revert ck w1 w2. induction fuel as [|fuel IH]; intros ck w1 w2 Hw Hf; [done|].
  cbn [CollationEngine.dataset_loop]. rewrite !create_dataset_split.
  unfold mbind, M_bind.
  destruct (load_dump_same_page ck w1 w2 Hw Hf) as [Hr Hp].
  assert (forall e w', load_dump ck w1 = (Raise e, w') -> e = FileNotFoundError)
    as Hmiss.
  { intros e w' Hl. pose proof (load_dump_spec ck w1) as H1.
    destruct (ck_dump_file ck) as [f|]; [destruct (files w1 !! f)|]; congruence. }
  destruct (load_dump ck w1) as [[d|e] w1'], (load_dump ck w2) as [[d'|e'] w2'];
    simpl in Hr, Hp; try done.
  - injection Hr as <-.
    destruct (agree_attempt_from tables ck d w1' w2' Hp) as (Hr & Hp' & Hd).
    destruct (attempt_from tables ck d w1') as [[a|e] w1''],
             (attempt_from tables ck d w2') as [[a'|e'] w2'']; simpl in *; try done.
    + injection Hr as <-. cbn. by destruct Hp' as (_ & _ & _ & _ & -> & _).
    + injection Hr as <-.
      destruct e; try (cbn; by destruct Hp' as (_ & _ & _ & _ & -> & _)).
      apply IH; [done|]. intros f [= <-]. destruct Hd as (d' & -> & ->). done.
  - injection Hr as <-. rewrite (Hmiss e w1' eq_refl). cbn.
    by destruct Hp as (_ & _ & _ & _ & -> & _).
Qed.

Lemma unremovable_dump_changes_nothing_witness :
  same_page (mkWorld site_2x2 None None [Fresh; Fresh; Stale] [] ∅ true [])
            (mkWorld site_2x2 None None [Fresh; Fresh; Stale] []
                     {[ "notes.json" := [] ]} false [])
  /\ (fun rw : result (Data * DataFrame) * World => (fst rw, clicks (snd rw)))
       <$> CollationEngine.dataset_loop 2 object_tables ck0
             (mkWorld site_2x2 None None [Fresh; Fresh; Stale] [] ∅ true [])
     = (fun rw : result (Data * DataFrame) * World => (fst rw, clicks (snd rw)))
         <$> CollationEngine.dataset_loop 2 object_tables ck0
               (mkWorld site_2x2 None None [Fresh; Fresh; Stale] []
                        {[ "notes.json" := [] ]} false []).
Proof.
  assert (same_page (mkWorld site_2x2 None None [Fresh; Fresh; Stale] [] ∅ true [])
                    (mkWorld site_2x2 None None [Fresh; Fresh; Stale] []
                             {[ "notes.json" := [] ]} false [])) as Hp
    by (repeat split).
  split; [exact Hp|].
  apply (unremovable_dump_changes_nothing 2 object_tables ck0 _ _ Hp).
  intros f Hf. discriminate Hf.
Defined.

(** ** An attempt that is not interrupted *)

Lemma bind_ok_inv {A B} (m : M A) (k : A -> M B) (w w' : World) (b : B) :
  (m ≫= k) w = (Ok b, w') ->
  exists a w1, m w = (Ok a, w1) /\ k a w1 = (Ok b, w').
Proof.
  unfold mbind, M_bind. destruct (m w) as [[a|e] w1]; [|done].
  intros H. by exists a, w1.
Qed.

(** A table read that succeeds has read the table as the page showed
    it, and has used one scheduled read outcome. *)
Lemma rows_ok_inv (t : Table) (w w' : World) (rows : list Row) :
  Table.rows t w = (Ok rows, w') ->
  w' = after_read w
  /\ Table.calculate_rows (tab_table_type t) (table_dom w (tab_index t)) = Ok rows.
Proof.
  rewrite rows_unfold. destruct (site_tables (site w)); [done|].
  case_bool_decide; [|done]. destruct (read_outcomes w) as [|[] os]; by intros [= -> <-].
Qed.

(** A click that succeeds when no stale outcome is scheduled selects
    the row. *)
Lemma fresh_click (index : nat) (r : Row) (f : string) (d : Data) (i : nat)
    (j : option nat) (w w' : World) (u : unit) :
  outcomes w = [] ->
  try_except_stale (Row.click index r)
    (_ ← json_dump f d; raise (DatasetException f i j)) w = (Ok u, w') ->
  outcomes w' = [] /\ site w' = site w
  /\ match index with
     | 0%nat => sel1 w' = Some (row_web_element r)
     | 1%nat => sel1 w' = sel1 w /\ sel2 w' = Some (row_web_element r)
     | _ => True
     end.
Proof.
  intros Ho. unfold try_except_stale, Row.click, mbind, M_bind, get_world, log,
    next_outcome, select, raise, add_clicks, json_dump.
  destruct (row_table_type r); simpl; rewrite ?Ho; simpl.
  - destruct index as [|[|?]]; simpl; intros [= _ <-]; simpl; auto.
  - destruct (site_anchor _ _ _); simpl; [|done].
    destruct index as [|[|?]]; simpl; intros [= _ <-]; simpl; auto.
Qed.

Lemma data_set2_get (k1 k2 : string) (v : Dict Z) (d d' : Data) :
  data_set2 k1 k2 v d = Ok d' -> data_get2 d' k1 k2 = Some v.
Proof.
  unfold data_set2, data_get2. destruct (dict_get k1 d) as [inner|]; [|done].
  intros [= <-]. rewrite dict_get_set, decide_True by done.
  by rewrite dict_get_set, decide_True.
Qed.

Lemma t2_loop_covers (tables : list Table) (t1_name : string) (i : nat)
    (t2_rows : list (nat * Row)) (data data' : Data) (w w' : World) :
  outcomes w = [] ->
  CollationEngine.t2_loop tables t1_name i t2_rows data w = (Ok data', w') ->
  outcomes w' = [] /\ site w' = site w /\ extends data data'
  /\ forall jr, jr ∈ t2_rows -> is_Some (data_get2 data' t1_name (row_name (snd jr))).
Proof.
  revert data w. induction t2_rows as [|[j t2_row] rest IH]; intros data w Ho.
  - intros [= <- <-]. repeat split; try done. intros jr Hjr. by apply elem_of_nil in Hjr.
  - cbn [CollationEngine.t2_loop].
    intros (u & w1 & Hc & H)%bind_ok_inv.
    apply fresh_click in Hc as (Ho1 & Hs1 & _); [|done].
    apply bind_ok_inv in H as (t3 & w2 & Ht & H).
    pose proof (reads_table tables 2 w1) as Hw2. rewrite Ht in Hw2. cbn in Hw2. subst w2.
    apply bind_ok_inv in H as (t3_rows & w3 & Hr & H).
    apply rows_ok_inv in Hr as [-> _].
    destruct (after_read_world w1) as (Hs3 & _ & _ & Ho3 & _).
    apply bind_ok_inv in H as (d1 & w4 & Hset & H).
    unfold lift in Hset. injection Hset as Hset <-.
    destruct (IH d1 (after_read w1)) as (Ho' & Hs' & Hext & Hall); [congruence|done|].
    split; [done|]. split; [congruence|].
    split; [apply (extends_trans _ d1); [by apply (extends_pair t1_name (row_name t2_row) (dict_of_rows t3_rows))|done]|].
    intros jr [->|Hjr]%elem_of_cons; [|by apply Hall]. cbn [snd].
    apply Hext. rewrite (data_set2_get _ _ _ _ _ Hset). by eexists.
Qed.

Lemma t1_loop_covers (tt : table_type) (t1_rows : list (nat * Row))
    (data data' : Data) (w w' : World) :
  outcomes w = [] ->
  CollationEngine.t1_loop (mkTable tt <$> [0; 1; 2]%nat) None t1_rows data w
  = (Ok data', w') ->
  extends data data'
  /\ forall ir t2_rows r2,
       ir ∈ t1_rows ->
       Table.calculate_rows tt
         (site_table2 (site w) (Some (row_web_element (snd ir)))) = Ok t2_rows ->
       r2 ∈ t2_rows ->
       is_Some (data_get2 data' (row_name (snd ir)) (row_name r2)).
Proof.
  revert data w. induction t1_rows as [|[i t1_row] rest IH]; intros data w Ho.
  - intros [= <- <-]. split; [apply extends_refl|].
    intros ir t2_rows r2 Hir. by apply elem_of_nil in Hir.
  - cbn [CollationEngine.t1_loop].
    intros (u & w1 & Hc & H)%bind_ok_inv.
    apply fresh_click in Hc as (Ho1 & Hs1 & Hsel); [|done].
    apply bind_ok_inv in H as (t2 & w2 & Ht & H). cbn in Ht. injection Ht as <- <-.
    apply bind_ok_inv in H as (t2_rows & w3 & Hr & H).
    apply rows_ok_inv in Hr as [-> Hr].
    destruct (after_read_world w1) as (Hs3 & _ & _ & Ho3 & _).
    cbn [tab_table_type tab_index table_dom] in Hr. rewrite Hs1, Hsel in Hr.
    apply bind_ok_inv in H as (d1 & w4 & H2 & H).
    apply t2_loop_covers in H2 as (Ho4 & Hs4 & Hext1 & Hall1); [|congruence].
    destruct (IH d1 w4 Ho4 H) as (Hext & Hall).
    assert (extends data d1) as Hd1.
    { apply (extends_trans _ (if bool_decide (row_name t1_row ∈ dict_keys data) then data
                             else dict_set (row_name t1_row) [] data)); [|done].
      case_bool_decide; [apply extends_refl|by apply extends_key]. }
    split; [by apply (extends_trans _ d1)|].
    intros ir t2_rows' r2 [->|Hir]%elem_of_cons Hrows Hr2.
    + cbn [snd] in *. rewrite Hr in Hrows. injection Hrows as <-.
      apply list_elem_of_lookup in Hr2 as [k Hk].
      apply Hext, (Hall1 (k, r2)).
      apply elem_of_enumerate_from. split; [lia|]. by rewrite Nat.sub_0_r.
    + apply (Hall ir t2_rows' r2 Hir); [|done]. by rewrite Hs4, Hs3, Hs1.
Qed.

(** X22.  An attempt that is not interrupted skips no pair.  When no
    click is scheduled to go stale, a fresh attempt that returns has an
    entry for every pair of a row of table 1 and a row that table 2
    shows while that row is selected. *)
Theorem uninterrupted_attempt_skips_no_pair (tt : table_type) (w w' : World)
    (data : Data) (df : DataFrame) (t1_rows t2_rows : list Row) (r1 r2 : Row) :
  outcomes w = [] ->
  CollationEngine.create_dataset (mkTable tt <$> [0; 1; 2]%nat) ck0 w
  = (Ok (data, df), w') ->
  Table.calculate_rows tt (site_table1 (site w)) = Ok t1_rows -> r1 ∈ t1_rows ->
  Table.calculate_rows tt (site_table2 (site w) (Some (row_web_element r1)))
  = Ok t2_rows ->
  r2 ∈ t2_rows ->
  is_Some (data_get2 data (row_name r1) (row_name r2)).
Proof.
  intros Ho Hrun H1 Hr1 H2 Hr2. unfold CollationEngine.create_dataset in Hrun.
  cbn [ck0 ck_dump_file ck_current_t1_row ck_current_t2_row] in Hrun.
  apply bind_ok_inv in Hrun as (d0 & w0 & [= <- <-] & Hrun).
  apply bind_ok_inv in Hrun as (t1 & w1 & [= <- <-] & Hrun).
  apply bind_ok_inv in Hrun as (rows & w2 & Hr & Hrun).
  apply rows_ok_inv in Hr as [-> Hr].
  destruct (after_read_world w) as (Hs2 & _ & _ & Ho2 & _).
  cbn [tab_table_type tab_index table_dom] in Hr. rewrite H1 in Hr. injection Hr as <-.
  apply bind_ok_inv in Hrun as (d1 & w3 & Hloop & Hrun).
  apply bind_ok_inv in Hrun as (df' & w4 & _ & [= <- _ _]).
  apply t1_loop_covers in Hloop as [_ Hall]; [|congruence].
  apply list_elem_of_lookup in Hr1 as [k Hk].
  apply (Hall (k, r1) t2_rows r2); [|by rewrite Hs2|done].
  apply elem_of_enumerate_from. split; [lia|]. by rewrite Nat.sub_0_r.
Qed.

Lemma uninterrupted_attempt_skips_no_pair_witness :
  outcomes (world_of site_2x2 []) = []
  /\ CollationEngine.create_dataset (mkTable object <$> [0; 1; 2]%nat) ck0
       (world_of site_2x2 [])
     = (Ok (data_2x2, df_2x2),
        mkWorld site_2x2 (Some 2%nat) (Some 2%nat) [] clicks_2x2 ∅ true [])
  /\ mkRow object 2%nat "B" 20 ∈ [mkRow object 1%nat "A" 10; mkRow object 2%nat "B" 20]
  /\ mkRow object 1%nat "X" 5 ∈ [mkRow object 1%nat "X" 5; mkRow object 2%nat "Y" 15]
  /\ is_Some (data_get2 data_2x2 "B" "X").
Proof.
  assert (CollationEngine.create_dataset (mkTable object <$> [0; 1; 2]%nat) ck0
            (world_of site_2x2 [])
          = (Ok (data_2x2, df_2x2),
             mkWorld site_2x2 (Some 2%nat) (Some 2%nat) [] clicks_2x2 ∅ true [])) as Hrun
    by (vm_compute; reflexivity).
  assert (mkRow object 2%nat "B" 20
          ∈ [mkRow object 1%nat "A" 10; mkRow object 2%nat "B" 20]) as Hr1
    by (right; left).
  assert (mkRow object 1%nat "X" 5
          ∈ [mkRow object 1%nat "X" 5; mkRow object 2%nat "Y" 15]) as Hr2 by left.
  split; [reflexivity|]. split; [exact Hrun|]. split; [exact Hr1|]. split; [exact Hr2|].
  apply (uninterrupted_attempt_skips_no_pair object (world_of site_2x2 []) _
           data_2x2 df_2x2
           [mkRow object 1%nat "A" 10; mkRow object 2%nat "B" 20]
           [mkRow object 1%nat "X" 5; mkRow object 2%nat "Y" 15]
           (mkRow object 2%nat "B" 20) (mkRow object 1%nat "X" 5)
           eq_refl Hrun);
    [vm_compute; reflexivity|exact Hr1|vm_compute; reflexivity|exact Hr2].
Defined.

(** ** The run as a whole, again *)

(** X23.  A run never returns.  Whatever the URL, the axes, the page
    and the interruptions, [__init__] does not get past
    [clean_dataset]: when it ends, it ends on an exception, and
    [save_dataset] is not reached. *)
Theorem run_never_returns (reindex_labels : list string -> DataFrame -> DataFrame)
    (fuel : nat) (url : string) (axes : list string) (w : World) :
  match CollationEngine.init reindex_labels fuel url axes w with
  | Some (Ok _, _) => False
  | _ => True
  end.
Proof.
  destruct (CollationEngine.init reindex_labels fuel url axes w)
    as [[[r|e] w']|] eqn:Hrun; [|done|done].
  by apply init_never_succeeds in Hrun as [e [=]].
Qed.

(** * The retry policy *)
























